(** * gofml: the command dispatcher and the [init] task

    A shallow embedding of [src/gofml/main.go] and [src/gofml/init.go].

    [init.go] holds two variants of the [init] command.  The first
    (module [InitGoPath]) keeps a [GoPath] and a [ProjectPath] that the
    flags [-g] and [-p] set directly and falls back on ["/work/gofml"].
    The second (module [InitRoot]) keeps a root directory, taken from
    [-g] or from the environment variable [GOFMLROOT], and derives the
    workspace and project paths from it.

    Go strings are byte strings: they are [string] here, one [ascii] per
    byte.  The operating system is a finite map from path names to
    directories and files; standard output and standard error are lists
    of the texts written to them. *)

From Stdlib Require Import Ascii String List Bool Arith Lia.
From stdpp Require Import base option list strings gmap fin_maps.

Import ListNotations.
Local Open Scope string_scope.
Local Open Scope list_scope.

(** ** Byte strings *)

Module Bytes.

(** The double quote, which the texts of the program contain. *)
Definition dq : string := String (ascii_of_nat 34) EmptyString.

(** The line feed. *)
Definition nl : string := String (ascii_of_nat 10) EmptyString.

Definition slash : ascii := ascii_of_nat 47.
Definition dot : ascii := ascii_of_nat 46.
Definition minus : ascii := ascii_of_nat 45.
Definition equals : ascii := ascii_of_nat 61.

Definition chars (s : string) : list ascii := list_ascii_of_string s.
Definition text (l : list ascii) : string := string_of_list_ascii l.

(** [os.IsPathSeparator] on Unix. *)
Definition IsPathSeparator (c : ascii) : bool := Ascii.eqb c slash.

Fixpoint dropWhile {A} (p : A -> bool) (l : list A) : list A :=
  match l with
  | [] => []
  | x :: l' => if p x then dropWhile p l' else l
  end.

Fixpoint takeWhile {A} (p : A -> bool) (l : list A) : list A :=
  match l with
  | [] => []
  | x :: l' => if p x then x :: takeWhile p l' else []
  end.

(** [strings.Split] on one byte: the pieces between the separators,
    the empty ones included; [acc] holds the current piece reversed. *)
Fixpoint split (sep : ascii) (acc : list ascii) (l : list ascii) : list (list ascii) :=
  match l with
  | [] => [rev acc]
  | c :: l' =>
      if Ascii.eqb c sep then rev acc :: split sep [] l'
      else split sep (c :: acc) l'
  end.

(** [strings.Join]. *)
Fixpoint joinWith (sep : string) (l : list string) : string :=
  match l with
  | [] => ""
  | [x] => x
  | x :: l' => x +:+ sep +:+ joinWith sep l'
  end.

(** [strings.Contains]: [sub] occurs in [s]. *)
Fixpoint contains (sub s : string) : bool :=
  String.prefix sub s ||
  match s with
  | EmptyString => false
  | String _ s' => contains sub s'
  end.

End Bytes.

(** ** [path/filepath] on Unix *)

Module filepath.
Import Bytes.

(** The path elements between separators, the empty ones included. *)
Definition elements (l : list ascii) : list (list ascii) := split slash [] l.

Definition isDot (e : list ascii) : bool :=
  match e with [c] => Ascii.eqb c dot | _ => false end.

Definition isDotDot (e : list ascii) : bool :=
  match e with [c; d] => Ascii.eqb c dot && Ascii.eqb d dot | _ => false end.

(** One turn of the loop of [Clean] on the element [e]; [out] is the
    buffer as a stack of elements, the last one first.  Above the
    [..] elements that an unrooted path keeps at its front every
    element is a real one, so "[out.w > dotdot]" is "the stack has a
    top that is not [..]". *)
Definition cleanStep (rooted : bool) (out : list (list ascii)) (e : list ascii)
  : list (list ascii) :=
  match e with
  | [] => out                                  (* empty path element *)
  | _ =>
      if isDot e then out                      (* . element *)
      else if isDotDot e then                  (* .. element *)
        match out with
        | top :: out' =>
            if isDotDot top
            then (if rooted then out else e :: out)
            else out'                          (* can backtrack *)
        | [] => if rooted then out else [e]    (* cannot backtrack *)
        end
      else e :: out                            (* real path element *)
  end.

Fixpoint joinElements (l : list (list ascii)) : list ascii :=
  match l with
  | [] => []
  | [e] => e
  | e :: l' => e ++ slash :: joinElements l'
  end.

(** [filepath.Clean]. *)
Definition Clean (path : string) : string :=
  match chars path with
  | [] => "."
  | c :: _ =>
      let rooted := IsPathSeparator c in
      let out := fold_left (cleanStep rooted) (elements (chars path)) [] in
      let body := joinElements (rev out) in
      if rooted then text (slash :: body)
      else match body with
           | [] => "."                          (* turn empty string into "." *)
           | _ => text body
           end
  end.

(** [filepath.Join]: from the first element that is not empty on, the
    elements are joined with the separator and the result is cleaned;
    with no such element the result is empty. *)
Fixpoint Join (elem : list string) : string :=
  match elem with
  | [] => ""
  | e :: rest =>
      if String.eqb e "" then Join rest
      else Clean (joinWith "/" elem)
  end.

(** [filepath.Base]. *)
Definition Base (path : string) : string :=
  if String.eqb path "" then "."
  else
    (* strip trailing slashes *)
    let stripped := dropWhile IsPathSeparator (rev (chars path)) in
    (* find the last element *)
    let last := rev (takeWhile (fun c => negb (IsPathSeparator c)) stripped) in
    (* if empty now, it had only slashes *)
    match last with
    | [] => "/"
    | _ => text last
    end.

(** [filepath.Dir]: all but the last element of the path, cleaned. *)
Definition Dir (path : string) : string :=
  Clean (text (rev (dropWhile (fun c => negb (IsPathSeparator c)) (rev (chars path))))).

End filepath.

(** ** The process and its environment *)

(** The error numbers of the file operations that the program calls. *)
Inductive Errno := ENOENT | EEXIST | ENOTDIR | EISDIR | EACCES | ENOTEMPTY.

(** A Go [error]: one made by [errors.New], or an [os.PathError]. *)
Inductive error :=
| errorString (s : string)
| PathError (Op Path : string) (Err : Errno).

Definition Errno_Error (e : Errno) : string :=
  match e with
  | ENOENT => "no such file or directory"
  | EEXIST => "file exists"
  | ENOTDIR => "not a directory"
  | EISDIR => "is a directory"
  | EACCES => "permission denied"
  | ENOTEMPTY => "directory not empty"
  end.

(** The method [Error] of an [error]. *)
Definition Error (e : error) : string :=
  match e with
  | errorString s => s
  | PathError op path err => op +:+ " " +:+ path +:+ ": " +:+ Errno_Error err
  end.

(** A directory or a regular file; [writable] says that the process may
    write to it: add and remove entries of a directory, open a file for
    writing. *)
Inductive Node :=
| Directory (writable : bool)
| Regular (writable : bool) (data : string).

(** A call of the [os] package on the file system, as the log keeps it. *)
Inductive Call :=
| CallMkdirAll (path : string)
| CallRemove (name : string)
| CallWriteFile (name data : string).

(** What is written to a stream: a text, or the listing of the defaults
    of a flag set that the [flag] package prints after an error. *)
Inductive Output :=
| Text (s : string)
| PrintDefaults (flagSet : string).

Record World := mkWorld {
  files : gmap string Node;
  environ : gmap string string;
  stdout : list Output;
  stderr : list Output;
  calls : list (Call * option error)
}.

(** ** The file operations

    An entry of the file system is named by the path that the program
    passes, as it is written.  There are no symbolic links; a relative
    name is an entry below the working directory, whose own place in
    the tree is not described.  The properties that depend on two names
    being two entries are stated for clean paths that are anchored
    alike, for which the name is the entry. *)

Module os.
Import Bytes.

(** [os.Getenv]: the value of the variable, empty when it is not set. *)
Definition Getenv (key : string) (env : gmap string string) : string :=
  default "" (env !! key).

(** The directory that holds the entry [path]. *)
Definition parent (path : string) : string := filepath.Dir path.

Definition hasEntries (path : string) (fs : gmap string Node) : bool :=
  existsb (fun kv => negb (String.eqb kv.1 path) && String.eqb (parent kv.1) path)
          (map_to_list fs).

(** The system call [mkdir]. *)
Definition Mkdir (path : string) (fs : gmap string Node)
  : gmap string Node * option Errno :=
  match fs !! path with
  | Some _ => (fs, Some EEXIST)
  | None =>
      match fs !! parent path with
      | Some (Directory true) => (<[path := Directory true]> fs, None)
      | Some (Directory false) => (fs, Some EACCES)
      | Some (Regular _ _) => (fs, Some ENOTDIR)
      | None => (fs, Some ENOENT)
      end
  end.

(** The path that [MkdirAll] creates first: [path[:j-1]] when [j > 1],
    where [j] is found by skipping the trailing separators and then
    scanning backward over the last element. *)
Definition MkdirAll_parent (path : string) : option string :=
  let r := dropWhile IsPathSeparator (rev (chars path)) in
  let r := dropWhile (fun c => negb (IsPathSeparator c)) r in
  match r with
  | _ :: (_ :: _) as before => Some (text (rev before))
  | _ => None
  end.

(** [os.MkdirAll], with [n] bounding the depth of its recursion. *)
Fixpoint MkdirAll_rec (n : nat) (path : string) (fs : gmap string Node)
  : gmap string Node * option error :=
  (* fast path: the path is a directory or a file *)
  match fs !! path with
  | Some (Directory _) => (fs, None)
  | Some (Regular _ _) => (fs, Some (PathError "mkdir" path ENOTDIR))
  | None =>
      (* slow path: make sure the parent exists, then call Mkdir *)
      let made :=
        match MkdirAll_parent path, n with
        | Some dir, S n' => MkdirAll_rec n' dir fs
        | _, _ => (fs, None)
        end in
      match made with
      | (fs1, Some err) => (fs1, Some err)
      | (fs1, None) =>
          match Mkdir path fs1 with
          | (fs2, None) => (fs2, None)
          | (fs2, Some e) =>
              match fs2 !! path with
              | Some (Directory _) => (fs2, None)
              | _ => (fs2, Some (PathError "mkdir" path e))
              end
          end
      end
  end.

(** Each recursive call is on a shorter path, so the length of the
    path bounds the depth. *)
Definition MkdirAll (path : string) (fs : gmap string Node)
  : gmap string Node * option error :=
  MkdirAll_rec (String.length path) path fs.

(** [os.Remove]: removes the named file or empty directory. *)
Definition Remove (name : string) (fs : gmap string Node)
  : gmap string Node * option error :=
  let unlink :=
    match fs !! parent name with
    | Some (Directory true) => (delete name fs, None)
    | _ => (fs, Some (PathError "remove" name EACCES))
    end in
  match fs !! name with
  | None => (fs, Some (PathError "remove" name ENOENT))
  | Some (Regular _ _) => unlink
  | Some (Directory _) =>
      if hasEntries name fs
      then (fs, Some (PathError "remove" name ENOTEMPTY))
      else unlink
  end.

(** [ioutil.WriteFile]: opens the file for writing, creating it when
    it is missing and truncating it otherwise, and writes the data. *)
Definition WriteFile (name data : string) (fs : gmap string Node)
  : gmap string Node * option error :=
  match fs !! name with
  | Some (Regular true _) => (<[name := Regular true data]> fs, None)
  | Some (Regular false _) => (fs, Some (PathError "open" name EACCES))
  | Some (Directory _) => (fs, Some (PathError "open" name EISDIR))
  | None =>
      match fs !! parent name with
      | Some (Directory true) => (<[name := Regular true data]> fs, None)
      | Some (Directory false) => (fs, Some (PathError "open" name EACCES))
      | Some (Regular _ _) => (fs, Some (PathError "open" name ENOTDIR))
      | None => (fs, Some (PathError "open" name ENOENT))
      end
  end.

End os.

(** ** Computations on the world *)

Definition IO (A : Type) : Type := World -> A * World.

Definition ret {A} (a : A) : IO A := fun w => (a, w).

Definition bind {A B} (c : IO A) (k : A -> IO B) : IO B :=
  fun w => let (a, w') := c w in k a w'.

Notation "'let*' x ':=' c 'in' k" := (bind c (fun x => k))
  (at level 10, x pattern, c at level 100, k at level 200).
Notation "c ';;' k" := (bind c (fun _ => k))
  (at level 100, k at level 200, right associativity).

(** Writing to the streams. *)
Definition print (s : string) : IO unit :=
  fun w => (tt, mkWorld (files w) (environ w) (stdout w ++ [Text s]) (stderr w) (calls w)).

Definition eprint (o : Output) : IO unit :=
  fun w => (tt, mkWorld (files w) (environ w) (stdout w) (stderr w ++ [o]) (calls w)).

(** A file operation, run on the files of the world and logged. *)
Definition syscall (c : Call) (op : gmap string Node -> gmap string Node * option error)
  : IO (option error) :=
  fun w => let (fs, r) := op (files w) in
           (r, mkWorld fs (environ w) (stdout w) (stderr w) (calls w ++ [(c, r)])).

Definition os_MkdirAll (path : string) : IO (option error) :=
  syscall (CallMkdirAll path) (os.MkdirAll path).

Definition os_Remove (name : string) : IO (option error) :=
  syscall (CallRemove name) (os.Remove name).

Definition ioutil_WriteFile (name data : string) : IO (option error) :=
  syscall (CallWriteFile name data) (os.WriteFile name data).

Definition os_Getenv (key : string) : IO string :=
  fun w => (os.Getenv key (environ w), w).

(** A call either returns or ends the process with [os.Exit]. *)
Inductive Proc (A : Type) :=
| Return (a : A)
| Exit (code : nat).
Arguments Return {A} a.
Arguments Exit {A} code.

(** ** The [flag] package, for flags that hold strings *)

Module flag.
Import Bytes.

(** How [parseOne] reads an argument. *)
Inductive Arg :=
| NonFlag                                    (* shorter than 2 or no '-' in front *)
| Terminator                                 (* "--" terminates the flags *)
| BadSyntax
| IsFlag (name : string) (value : option string).

(** The name up to the first '=' that is not its first byte, and the
    value after it. *)
Fixpoint splitEquals (acc : list ascii) (l : list ascii) : string * option string :=
  match l with
  | [] => (text (rev acc), None)
  | c :: l' =>
      if Ascii.eqb c equals then (text (rev acc), Some (text l'))
      else splitEquals (c :: acc) l'
  end.

Definition flagName (name : list ascii) : Arg :=
  match name with
  | [] => BadSyntax
  | c :: more =>
      if Ascii.eqb c minus || Ascii.eqb c equals then BadSyntax
      else let (n, v) := splitEquals [c] more in IsFlag n v
  end.

Definition classify (s : string) : Arg :=
  match chars s with
  | c1 :: c2 :: more =>
      if Ascii.eqb c1 minus then
        if Ascii.eqb c2 minus then
          match more with
          | [] => Terminator
          | _ => flagName more
          end
        else flagName (c2 :: more)
      else NonFlag
  | _ => NonFlag
  end.

Inductive ParseError :=
| ErrHelp
| ErrFlag (msg : string).

Inductive Parsed :=
| Flags (values : gmap string string) (actual : gset string) (args : list string)
| Failed (err : ParseError).

(** The loop of [Parse] over [parseOne]: [formal] names the flags that
    are defined, [values] holds the strings they point to, [actual]
    the flags that were set. *)
Fixpoint parseAll (formal : list string) (values : gmap string string)
         (actual : gset string) (args : list string) : Parsed :=
  match args with
  | [] => Flags values actual []
  | s :: rest =>
      match classify s with
      | NonFlag => Flags values actual args
      | Terminator => Flags values actual rest
      | BadSyntax => Failed (ErrFlag ("bad flag syntax: " +:+ s))
      | IsFlag name value =>
          if existsb (String.eqb name) formal then
            (* it must have a value, which might be the next argument *)
            match value with
            | Some v => parseAll formal (<[name := v]> values) ({[name]} ∪ actual) rest
            | None =>
                match rest with
                | v :: rest' =>
                    parseAll formal (<[name := v]> values) ({[name]} ∪ actual) rest'
                | [] => Failed (ErrFlag ("flag needs an argument: -" +:+ name))
                end
            end
          else if String.eqb name "help" || String.eqb name "h" then Failed ErrHelp
          else Failed (ErrFlag ("flag provided but not defined: -" +:+ name))
      end
  end.

Record FlagSet := mkFlagSet {
  name : string;
  Usage : IO unit;
  formal : list string;
  values : gmap string string;
  actual : gset string;
  args : list string
}.

(** The usage of a flag set made by [NewFlagSet]. *)
Definition defaultUsage (name : string) : IO unit :=
  eprint (Text (if String.eqb name "" then "Usage:" +:+ nl
                else "Usage of " +:+ name +:+ ":" +:+ nl));;
  eprint (PrintDefaults name).

Definition NewFlagSet (name : string) : FlagSet :=
  mkFlagSet name (defaultUsage name) [] ∅ ∅ [].

(** [f.String(name, value, usage)]: defines a flag; the string it
    points to is [values !! name] and starts as [value]. *)
Definition String (f : FlagSet) (flagname value : string) : FlagSet :=
  mkFlagSet (name f) (Usage f) (formal f ++ [flagname])
            (<[flagname := value]> (values f)) (actual f) (args f).

(** Reading through the pointer that [String] returned. *)
Definition deref (f : FlagSet) (flagname : string) : string :=
  default "" (values f !! flagname).

(** [f.Parse(arguments)] with [flag.ExitOnError]: a failure prints
    the error and the usage and ends the process, with status 0 when
    help was asked for and 2 otherwise. *)
Definition Parse (f : FlagSet) (arguments : list string) : IO (Proc FlagSet) :=
  match parseAll (formal f) (values f) (actual f) arguments with
  | Flags vs act rest =>
      ret (Return (mkFlagSet (name f) (Usage f) (formal f) vs act rest))
  | Failed ErrHelp => Usage f;; ret (Exit 0)
  | Failed (ErrFlag msg) => eprint (Text (msg +:+ nl));; Usage f;; ret (Exit 2)
  end.

(** [f.Args()]. *)
Definition Args (f : FlagSet) : list string := args f.

End flag.

(** ** Tasks and commands ([main.go]) *)

(** [Task] is an action. *)
Class Task (T : Type) := { Run : T -> IO (option error) }.

(** A value of the interface type [Task]: a value of a type that has
    the method. *)
Record TaskValue := asTask {
  dynamicType : Type;
  dynamicTask : Task dynamicType;
  dynamicValue : dynamicType
}.
Arguments asTask {dynamicType dynamicTask} dynamicValue.

Definition runTask (t : TaskValue) : IO (option error) :=
  @Run (dynamicType t) (dynamicTask t) (dynamicValue t).

(** What a function that returns [(Task, error)] returns: a task and
    no error, or no task and an error. *)
Inductive TaskResult :=
| Built (task : TaskValue)
| NotBuilt (err : error).

(** [Command] is a command-line action. *)
Record Command := mkCommand {
  Name : string;
  Usage : string;
  Short : string;
  Long : string;
  GetTask : list string -> IO (Proc TaskResult)
}.

(** ** [text/template], for templates of texts and fields *)

Module template.

(** A parsed template over the data [T]: literal text, or the action
    [{{.Field}}] that prints a string field. *)
Inductive Node (T : Type) :=
| TextNode (s : string)
| FieldNode (field : T -> string).
Arguments TextNode {T} s.
Arguments FieldNode {T} field.

(** [Execute]: the nodes are written one after the other; text and
    string fields are written as they are. *)
Fixpoint Execute {T} (tmpl : list (Node T)) (data : T) : string :=
  match tmpl with
  | [] => ""
  | TextNode s :: rest => s +:+ Execute rest data
  | FieldNode f :: rest => f data +:+ Execute rest data
  end.

End template.

(** ** [init.go], the variant with a root directory (lines 164 to 327) *)

Module InitRoot.
Import Bytes.

(** [InitTask] initializes a gofml. *)
Record InitTask := mkInitTask {
  GoFmlRoot : string;     (* the gofml root to create envs in *)
  ImportPath : string;    (* the import path of the project *)
  ProjectName : string;   (* the name of the project *)
  GoFmlPath : string;     (* GoFmlRoot + ProjectName *)
  ProjectPath : string    (* the path to the project *)
}.

Definition set_ProjectName (v : string) (t : InitTask) : InitTask :=
  mkInitTask (GoFmlRoot t) (ImportPath t) v (GoFmlPath t) (ProjectPath t).
Definition set_GoFmlPath (v : string) (t : InitTask) : InitTask :=
  mkInitTask (GoFmlRoot t) (ImportPath t) (ProjectName t) v (ProjectPath t).
Definition set_ProjectPath (v : string) (t : InitTask) : InitTask :=
  mkInitTask (GoFmlRoot t) (ImportPath t) (ProjectName t) (GoFmlPath t) v.

(** The constant [script], parsed: its three lines and their two
    actions.  The text is well formed and the actions name string
    fields of the task, so neither [Parse] nor [Execute] fails. *)
Definition script : list (template.Node InitTask) :=
  [ template.TextNode (nl +:+ "export GOFML=");
    template.FieldNode ImportPath;
    template.TextNode (nl +:+ "export GOPATH=");
    template.FieldNode GoFmlPath;
    template.TextNode (nl +:+ "export PATH=" +:+ dq +:+ "$GOPATH/bin:$PATH" +:+ dq +:+ nl) ].

Definition getGofmlRoot : IO string :=
  let* root := os_Getenv "GOFMLROOT" in
  ret (if String.eqb root "" then "~/gofml" else root).

(** [initCommand]; [GOFMLROOT] is the package variable, set from
    [getGofmlRoot] when the process starts. *)
Definition initCommand_Long (GOFMLROOT : string) : string :=
  nl +:+ "Init supports the following options:" +:+ nl +:+ nl
  +:+ "    -g" +:+ nl
  +:+ "         the gofml root, where all projects are created defaulting to "
  +:+ GOFMLROOT +:+ " (uses env $GOFMLROOT if possible)" +:+ nl +:+ nl
  +:+ "    -n" +:+ nl
  +:+ "         the name of the environment, defaulting to the basename of the import path."
  +:+ nl +:+ nl.

(** The path of the activation script. *)
Definition envrc (task : InitTask) : string :=
  filepath.Join [GoFmlPath task; ".envrc"].

Definition makeDir (task : InitTask) : IO (option error) :=
  let* err := os_MkdirAll (ProjectPath task) in
  print ("gofml: create project directory " +:+ ProjectPath task +:+ nl);;
  ret err.

Definition writeEnvrc (task : InitTask) : IO (option error) :=
  let buf := template.Execute script task in
  let* _ := os_Remove (envrc task) in
  let* err := ioutil_WriteFile (envrc task) buf in
  print ("gofml: wrote activation script at " +:+ envrc task +:+ nl);;
  ret err.

Definition printHints (task : InitTask) : IO (option error) :=
  print ("gofml: now do `cd " +:+ ProjectPath task
         +:+ "` to goto your project and then `direnv allow` to activate the direnv file. "
         +:+ nl);;
  ret None.

(** [Run] executes the [InitTask]. *)
Definition InitTask_Run (task : InitTask) : IO (option error) :=
  print ("gofml: initializing..." +:+ nl);;
  print ("GoFmlRoot=" +:+ GoFmlRoot task +:+ " " +:+ nl);;
  print ("ImportPath=" +:+ ImportPath task +:+ " " +:+ nl);;
  print ("ProjectName=" +:+ ProjectName task +:+ " " +:+ nl);;
  print ("GoFmlPath=" +:+ GoFmlPath task +:+ " " +:+ nl);;
  print ("ProjectPath=" +:+ ProjectPath task +:+ " " +:+ nl);;
  let* err := makeDir task in
  match err with
  | Some e => ret (Some e)
  | None =>
      let* err := writeEnvrc task in
      match err with
      | Some e => ret (Some e)
      | None =>
          let* err := printHints task in
          match err with
          | Some e => ret (Some e)
          | None =>
              print ("gofml: done" +:+ nl);;
              ret None
          end
      end
  end.

#[global] Instance InitTask_Task : Task InitTask := {| Run := InitTask_Run |}.

(** [NewInitTask] returns a new [InitTask] created with the specified
    command-line args. *)
Definition NewInitTask (args : list string) : IO (Proc TaskResult) :=
  let flags := flag.NewFlagSet "init" in
  let* root := getGofmlRoot in
  let flags := flag.String flags "g" root in
  let flags := flag.String flags "n" "" in
  let* parsed := flag.Parse flags args in
  match parsed with
  | Exit code => ret (Exit code)
  | Return flags =>
      match flag.Args flags with
      | [] => ret (Return (NotBuilt (errorString "no import path specified")))
      | arg0 :: _ =>
          let task := mkInitTask (flag.deref flags "g") arg0 (flag.deref flags "n") "" "" in
          let task :=
            if String.eqb (ProjectName task) ""
            then set_ProjectName (filepath.Base (ImportPath task)) task else task in
          let task :=
            if String.eqb (GoFmlPath task) ""
            then set_GoFmlPath (filepath.Join [GoFmlRoot task; ProjectName task]) task
            else task in
          let task :=
            if String.eqb (ProjectPath task) ""
            then set_ProjectPath
                   (filepath.Join [GoFmlPath task; "src"; ImportPath task]) task
            else task in
          ret (Return (Built (asTask task)))
      end
  end.

Definition initCommand (GOFMLROOT : string) : Command :=
  mkCommand "init" "init [-g][-n] [import path]" "initialize a gofml env"
            (initCommand_Long GOFMLROOT) NewInitTask.

End InitRoot.

(** ** [init.go], the variant with a GOPATH (lines 1 to 162) *)

Module InitGoPath.
Import Bytes.

(** [InitTask] initializes a gofml. *)
Record InitTask := mkInitTask {
  GoPath : string;        (* the GOPATH to create *)
  ImportPath : string;    (* the import path of the project *)
  ProjectName : string;   (* the name of the project *)
  ProjectPath : string    (* the path to the project *)
}.

Definition set_GoPath (v : string) (t : InitTask) : InitTask :=
  mkInitTask v (ImportPath t) (ProjectName t) (ProjectPath t).
Definition set_ProjectName (v : string) (t : InitTask) : InitTask :=
  mkInitTask (GoPath t) (ImportPath t) v (ProjectPath t).
Definition set_ProjectPath (v : string) (t : InitTask) : InitTask :=
  mkInitTask (GoPath t) (ImportPath t) (ProjectName t) v.

(** The constant [script], parsed. *)
Definition script : list (template.Node InitTask) :=
  [ template.TextNode (nl +:+ "export GOFML=");
    template.FieldNode ImportPath;
    template.TextNode (nl +:+ "export GOPATH=");
    template.FieldNode GoPath;
    template.TextNode (nl +:+ "export PATH=" +:+ dq +:+ "$GOPATH/bin:$PATH" +:+ dq +:+ nl) ].

Definition initCommand_Long : string :=
  nl
  +:+ "Init initializes a gofml and creates an initialization script that" +:+ nl
  +:+ "activates it.  This script creates, if needed, a GOPATH directory" +:+ nl
  +:+ "structure, symlinks the project into that structure at the specified" +:+ nl
  +:+ "input path, and then alters the current session's GOPATH environment" +:+ nl
  +:+ "variable to point to it." +:+ nl +:+ nl
  +:+ "The gofml can be deactivated with 'deactivate'." +:+ nl +:+ nl
  +:+ "Init supports the following options:" +:+ nl +:+ nl
  +:+ "    -n" +:+ nl
  +:+ "         the name of the environment, defaulting to the name" +:+ nl
  +:+ "         of the current working directory." +:+ nl +:+ nl
  +:+ "    -g" +:+ nl
  +:+ "         the GOPATH to create, defaulting to ~/.gofml/<name>" +:+ nl +:+ nl
  +:+ "    -p" +:+ nl
  +:+ "         the project path, defaulting to the current working" +:+ nl
  +:+ "         directory." +:+ nl.

(** The path of the activation script. *)
Definition envrc (task : InitTask) : string :=
  filepath.Join [GoPath task; ".envrc"].

Definition makeDir (task : InitTask) : IO (option error) :=
  let* err := os_MkdirAll (ProjectPath task) in
  print ("gofml: create project directory " +:+ ProjectPath task +:+ nl);;
  ret err.

Definition writeEnvrc (task : InitTask) : IO (option error) :=
  let buf := template.Execute script task in
  let* _ := os_Remove (envrc task) in
  let* err := ioutil_WriteFile (envrc task) buf in
  print ("gofml: wrote activation script at " +:+ envrc task +:+ nl);;
  ret err.

Definition printHints (task : InitTask) : IO (option error) :=
  print ("gofml: now do `cd " +:+ ProjectPath task
         +:+ "` to goto your project and then `direnv allow` to activate the direnv file. "
         +:+ nl);;
  ret None.

(** [Run] executes the [InitTask]. *)
Definition InitTask_Run (task : InitTask) : IO (option error) :=
  print ("gofml: initializing..." +:+ nl);;
  print ("ImportPath=" +:+ ImportPath task +:+ " " +:+ nl);;
  print ("ProjectName=" +:+ ProjectName task +:+ " " +:+ nl);;
  print ("ProjectPath=" +:+ ProjectPath task +:+ " " +:+ nl);;
  print ("GoPath=" +:+ GoPath task +:+ " " +:+ nl);;
  let* err := makeDir task in
  match err with
  | Some e => ret (Some e)
  | None =>
      let* err := writeEnvrc task in
      match err with
      | Some e => ret (Some e)
      | None =>
          let* err := printHints task in
          match err with
          | Some e => ret (Some e)
          | None =>
              print ("gofml: done" +:+ nl);;
              ret None
          end
      end
  end.

#[global] Instance InitTask_Task : Task InitTask := {| Run := InitTask_Run |}.

(** [NewInitTask] returns a new [InitTask] created with the specified
    command-line args. *)
Definition NewInitTask (args : list string) : IO (Proc TaskResult) :=
  let flags := flag.NewFlagSet "init" in
  let flags := flag.String flags "g" "" in
  let flags := flag.String flags "n" "" in
  let flags := flag.String flags "p" "" in
  let* parsed := flag.Parse flags args in
  match parsed with
  | Exit code => ret (Exit code)
  | Return flags =>
      match flag.Args flags with
      | [] => ret (Return (NotBuilt (errorString "no import path specified")))
      | arg0 :: _ =>
          let task := mkInitTask (flag.deref flags "g") arg0
                                 (flag.deref flags "n") (flag.deref flags "p") in
          let task :=
            if String.eqb (ProjectName task) ""
            then set_ProjectName (filepath.Base (ImportPath task)) task else task in
          let task :=
            if String.eqb (GoPath task) ""
            then set_GoPath (filepath.Join ["/work/gofml"; ProjectName task]) task
            else task in
          let task :=
            if String.eqb (ProjectPath task) ""
            then set_ProjectPath
                   (filepath.Join [GoPath task; "src"; ImportPath task]) task
            else task in
          ret (Return (Built (asTask task)))
      end
  end.

Definition initCommand : Command :=
  mkCommand "init" "init [-g][-p][-n] [import path]" "initialize a gofml"
            initCommand_Long NewInitTask.

End InitGoPath.

(** ** [main.go]: the registry and the dispatcher *)

Section Dispatcher.
Import Bytes.

(** The [init] command: one of the two variants of [init.go]. *)
Variable initCommand : Command.

(** The texts and the task factory of the help command, and the text
    that [fmt] prints for the code address of a function value. *)
Variables (helpUsage helpShort helpLong : string).
Variable helpGetTask : list string -> IO (Proc TaskResult).
Variable funcAddress : Command -> string.

(** Modelled from the spec: [helpCommand] is declared in a file that
    is not under [src/]; its name is the literal help keyword, and its
    other fields are the parameters above. *)
Definition helpCommand : Command :=
  mkCommand "help" helpUsage helpShort helpLong helpGetTask.

(** The map of command names to commands, as [init] fills it. *)
Definition commands : gmap string Command :=
  let commandList := [initCommand; helpCommand] in
  fold_left (fun m cmd => <[Name cmd := cmd]> m) commandList ∅.

(** The entries of a map in the order of their keys, the order in
    which a template ranges over a map. *)
Fixpoint insertSorted (kv : string * Command) (l : list (string * Command))
  : list (string * Command) :=
  match l with
  | [] => [kv]
  | kv' :: l' =>
      if String.leb kv.1 kv'.1 then kv :: l else kv' :: insertSorted kv l'
  end.

Definition sortedEntries (m : gmap string Command) : list (string * Command) :=
  fold_right insertSorted [] (map_to_list m).

(** [printf "%-8s"]: the name, padded with spaces on the right to
    eight bytes. *)
Definition pad8 (s : string) : string :=
  s +:+ text (repeat (ascii_of_nat 32) (8 - String.length s)).

(** [usageTemplate], trimmed and followed by two line feeds, executed
    on the map of commands. *)
Definition usageText : string :=
  "GoFML helps organize go projects." +:+ nl +:+ nl
  +:+ "Usage:" +:+ nl +:+ nl
  +:+ "    gofml [command] [arguments]" +:+ nl +:+ nl
  +:+ "Commands:" +:+ nl
  +:+ String.concat ""
        (map (fun kv => nl +:+ "    " +:+ pad8 (Name kv.2) +:+ " " +:+ Short kv.2)
             (sortedEntries commands))
  +:+ nl +:+ nl
  +:+ "Use " +:+ dq +:+ "gofml help [command]" +:+ dq
  +:+ " for command-specific information." +:+ nl +:+ nl.

Definition usage : IO unit := eprint (Text usageText).

(** What the verb [%s] prints for a [*Command]: the fields between
    [&{] and [}]; a function value is a bad operand of the verb. *)
Definition formatCommand (cmd : Command) : string :=
  "&{" +:+ Name cmd +:+ " " +:+ Usage cmd +:+ " " +:+ Short cmd +:+ " " +:+ Long cmd
  +:+ " %!s(func([]string) (gofml.Task, error)=" +:+ funcAddress cmd +:+ ")}".

(** [flag.CommandLine]: no flag is defined on it, and its usage is
    [flag.Usage], which [Main] sets. *)
Definition CommandLine : flag.FlagSet :=
  flag.mkFlagSet "gofml" usage [] ∅ ∅ [].

(** [Main], on the arguments of the process after its name; the
    result is the exit status. *)
Definition Main (argv : list string) : IO nat :=
  let* parsed := flag.Parse CommandLine argv in
  match parsed with
  | Exit code => ret code
  | Return flags =>
      let args := flag.Args flags in
      if Nat.ltb (List.length args) 1
         || (Nat.eqb (List.length args) 1 && String.eqb (hd "" args) "help")
      then usage;; ret 1
      else
        match commands !! hd "" args with
        | None =>
            eprint (Text ("gofml: unrecognized command " +:+ hd "" args +:+ nl));;
            usage;;
            ret 1
        | Some cmd =>
            let* built := GetTask cmd (tl args) in
            match built with
            | Exit code => ret code
            | Return (NotBuilt err) =>
                eprint (Text ("gofml: failed to parse command " +:+ formatCommand cmd +:+ nl));;
                ret 1
            | Return (Built task) =>
                let* err := runTask task in
                match err with
                | Some e =>
                    eprint (Text ("gofml: error running command: " +:+ Error e +:+ nl));;
                    ret 1
                | None => ret 0
                end
            end
        end
  end.

End Dispatcher.

(** The process with the variant of [init.go] that has a root
    directory: the package variable [GOFMLROOT] is set first. *)
Definition MainRoot (helpUsage helpShort helpLong : string)
           (helpGetTask : list string -> IO (Proc TaskResult))
           (funcAddress : Command -> string) (argv : list string) : IO nat :=
  let* GOFMLROOT := InitRoot.getGofmlRoot in
  Main (InitRoot.initCommand GOFMLROOT) helpUsage helpShort helpLong helpGetTask
       funcAddress argv.

(** The process with the variant of [init.go] that has a GOPATH. *)
Definition MainGoPath (helpUsage helpShort helpLong : string)
           (helpGetTask : list string -> IO (Proc TaskResult))
           (funcAddress : Command -> string) (argv : list string) : IO nat :=
  Main InitGoPath.initCommand helpUsage helpShort helpLong helpGetTask
       funcAddress argv.

(** A world to run examples in: the root and the working directory
    exist and can be written to. *)
Definition emptyWorld : World :=
  mkWorld {[ "/" := Directory true; "." := Directory true ]} ∅ [] [] [].

Definition noHelp : list string -> IO (Proc TaskResult) :=
  fun _ => ret (Return (NotBuilt (errorString "help"))).

(** ** Definitions for the statements and the proofs *)

Section Auxiliary.
Import Bytes.

(** The last piece that is not empty, [d] when there is none. *)
Fixpoint lastNonEmpty (l : list (list ascii)) (d : list ascii) : list ascii :=
  match l with
  | [] => d
  | e :: l' => lastNonEmpty l' (match e with [] => d | _ => e end)
  end.

(** The final path component in the words of the specification: the
    last element between separators that is not empty; a path of
    separators only has the separator for it, the empty path the
    dot. *)
Definition finalComponent (p : string) : string :=
  match lastNonEmpty (split slash [] (chars p)) [] with
  | [] => if String.eqb p "" then "." else "/"
  | e => text e
  end.

Definition notSeparator (c : ascii) : bool := negb (IsPathSeparator c).

(** The last element as [Base] finds it. *)
Definition lastElement (cs : list ascii) : list ascii :=
  rev (takeWhile notSeparator (dropWhile IsPathSeparator (rev cs))).

(** The root that [getGofmlRoot] returns in a world. *)
Definition rootOf (w : World) : string :=
  let root := os.Getenv "GOFMLROOT" (environ w) in
  if String.eqb root "" then "~/gofml" else root.

(** The strings of the flags before the arguments are parsed. *)
Definition InitRoot_values (root : string) : gmap string string :=
  <["n" := ""]> (<["g" := root]> ∅).

Definition InitGoPath_values : gmap string string :=
  <["p" := ""]> (<["n" := ""]> (<["g" := ""]> ∅)).

(** The flags of the two variants, parsed. *)
Definition InitRoot_parse (w : World) (args : list string) : flag.Parsed :=
  flag.parseAll ["g"; "n"] (InitRoot_values (rootOf w)) ∅ args.

Definition InitGoPath_parse (args : list string) : flag.Parsed :=
  flag.parseAll ["g"; "n"; "p"] InitGoPath_values ∅ args.

(** The value that a flag holds. *)
Definition held (values : gmap string string) (flagname : string) : string :=
  default "" (values !! flagname).

(** The task that the variant with a root derives from what [-g] and
    [-n] hold and from the import path. *)
Definition InitRoot_task (g n p : string) : InitRoot.InitTask :=
  let name := if String.eqb n "" then filepath.Base p else n in
  let workspace := filepath.Join [g; name] in
  InitRoot.mkInitTask g p name workspace (filepath.Join [workspace; "src"; p]).

(** The task that the variant with a GOPATH derives from what [-g],
    [-n] and [-p] hold and from the import path. *)
Definition InitGoPath_task (g n pp p : string) : InitGoPath.InitTask :=
  let name := if String.eqb n "" then filepath.Base p else n in
  let gopath := if String.eqb g "" then filepath.Join ["/work/gofml"; name] else g in
  InitGoPath.mkInitTask gopath p name
    (if String.eqb pp "" then filepath.Join [gopath; "src"; p] else pp).

(** The world after texts were written to standard error. *)
Definition withStderr (w : World) (out : list Output) : World :=
  mkWorld (files w) (environ w) (stdout w) (stderr w ++ out) (calls w).

(** What the [flag] package writes when the parsing of the flags of
    [init] fails, and the status it ends the process with. *)
Definition flagFailure (err : flag.ParseError) : list Output * nat :=
  match err with
  | flag.ErrHelp =>
      ([Text ("Usage of init:" +:+ Bytes.nl); PrintDefaults "init"], 0)
  | flag.ErrFlag msg =>
      ([Text (msg +:+ Bytes.nl); Text ("Usage of init:" +:+ Bytes.nl); PrintDefaults "init"], 2)
  end.

(** What is parsed apart from the set of the flags that were set. *)
Definition outcome (p : flag.Parsed) : (gmap string string * list string) + flag.ParseError :=
  match p with
  | flag.Flags values _ rest => inl (values, rest)
  | flag.Failed err => inr err
  end.

(** The arguments that set flags to values, each flag in its own
    argument followed by its value. *)
Definition flagArgs (l : list (string * string)) : list string :=
  flat_map (fun kv => ["-" +:+ kv.1; kv.2]) l.

(** The flags of [init] other than [-n]. *)
Definition pathFlag (k : string) : Prop := k = "g" ∨ k = "p".

(** The result of [Run], the files after it and the calls it makes,
    from the project path, the path of the script and its text. *)
Definition runFiles (projectPath script data : string) (fs : gmap string Node)
  : option error * gmap string Node * list (Call * option error) :=
  let (fs1, r1) := os.MkdirAll projectPath fs in
  match r1 with
  | Some err => (Some err, fs1, [(CallMkdirAll projectPath, Some err)])
  | None =>
      let (fs2, r2) := os.Remove script fs1 in
      let (fs3, r3) := os.WriteFile script data fs2 in
      (r3, fs3, [(CallMkdirAll projectPath, None); (CallRemove script, r2);
                 (CallWriteFile script data, r3)])
  end.

Definition lineFeed : ascii := ascii_of_nat 10.

(** The text of the script for an import path and a workspace path:
    its three export lines. *)
Definition scriptText (importPath workspace : string) : string :=
  nl +:+ ("export GOFML=" +:+ importPath) +:+ nl
  +:+ ("export GOPATH=" +:+ workspace) +:+ nl
  +:+ ("export PATH=" +:+ dq +:+ "$GOPATH/bin:$PATH" +:+ dq) +:+ nl.

(** The lines of a text, and those that begin with [export]. *)
Definition lines (s : string) : list string :=
  map text (split lineFeed [] (chars s)).

Definition exportLines (s : string) : list string :=
  List.filter (String.prefix "export ") (lines s).

(** The text holds no line feed. *)
Definition oneLine (s : string) : bool :=
  forallb (fun c => negb (Ascii.eqb c lineFeed)) (chars s).

(** A world in which [GOFMLROOT] has the value [v]. *)
Definition worldWithRoot (v : string) : World :=
  mkWorld (files emptyWorld) {[ "GOFMLROOT" := v ]} [] [] [].

(** The texts written to a stream, one after the other. *)
Definition textOf (out : list Output) : string :=
  String.concat "" (map (fun o => match o with Text s => s | PrintDefaults _ => "" end) out).

(** A world in which a regular file stands where the project directory
    is to be made. *)
Definition blockedWorld : World :=
  mkWorld {[ "/" := Directory true; "/srv" := Directory true;
             "/srv/foo" := Regular true "" ]} ∅ [] [] [].

(** A world in which the script is there and can be written to, in a
    workspace directory that cannot. *)
Definition lockedWorld : World :=
  mkWorld {[ "/" := Directory true; "/srv" := Directory true;
             "/srv/foo" := Directory false;
             "/srv/foo/src" := Directory true;
             "/srv/foo/src/example.com" := Directory true;
             "/srv/foo/src/example.com/foo" := Directory true;
             "/srv/foo/.envrc" := Regular true "old" ]} ∅ [] [] [].

(** A world in which an older script is in the workspace. *)
Definition usedWorld : World :=
  mkWorld {[ "/" := Directory true; "/srv" := Directory true;
             "/srv/foo" := Directory true;
             "/srv/foo/.envrc" := Regular true "export GOFML=old" ]} ∅ [] [] [].

(** The lines that [Run] prints. *)
Definition createLine (projectPath : string) : Output :=
  Text ("gofml: create project directory " +:+ projectPath +:+ nl).

Definition wroteLine (script : string) : Output :=
  Text ("gofml: wrote activation script at " +:+ script +:+ nl).

Definition hintLine (projectPath : string) : Output :=
  Text ("gofml: now do `cd " +:+ projectPath
        +:+ "` to goto your project and then `direnv allow` to activate the direnv file. "
        +:+ nl).

Definition doneLine : Output := Text ("gofml: done" +:+ nl).

(** The lines with which [Run] starts, in the two variants. *)
Definition InitRoot_header (t : InitRoot.InitTask) : list Output :=
  [ Text ("gofml: initializing..." +:+ nl);
    Text ("GoFmlRoot=" +:+ InitRoot.GoFmlRoot t +:+ " " +:+ nl);
    Text ("ImportPath=" +:+ InitRoot.ImportPath t +:+ " " +:+ nl);
    Text ("ProjectName=" +:+ InitRoot.ProjectName t +:+ " " +:+ nl);
    Text ("GoFmlPath=" +:+ InitRoot.GoFmlPath t +:+ " " +:+ nl);
    Text ("ProjectPath=" +:+ InitRoot.ProjectPath t +:+ " " +:+ nl) ].

Definition InitGoPath_header (t : InitGoPath.InitTask) : list Output :=
  [ Text ("gofml: initializing..." +:+ nl);
    Text ("ImportPath=" +:+ InitGoPath.ImportPath t +:+ " " +:+ nl);
    Text ("ProjectName=" +:+ InitGoPath.ProjectName t +:+ " " +:+ nl);
    Text ("ProjectPath=" +:+ InitGoPath.ProjectPath t +:+ " " +:+ nl);
    Text ("GoPath=" +:+ InitGoPath.GoPath t +:+ " " +:+ nl) ].

(** The lines that [Run] prints after its first ones, from the results
    of the calls it makes. *)
Definition runOutput (projectPath script data : string) (fs : gmap string Node)
  : list Output :=
  let (fs1, r1) := os.MkdirAll projectPath fs in
  createLine projectPath ::
  match r1 with
  | Some _ => []
  | None =>
      let (fs2, _) := os.Remove script fs1 in
      let (_, r3) := os.WriteFile script data fs2 in
      wroteLine script ::
      match r3 with
      | Some _ => []
      | None => [hintLine projectPath; doneLine]
      end
  end.

(** The exit status of [Main] and the world it leaves, from the result
    of the task it ran. *)
Definition exitAfter (r : option error * World) : nat * World :=
  match r.1 with
  | None => (0, r.2)
  | Some e =>
      (1, withStderr r.2 [Text ("gofml: error running command: " +:+ Error e +:+ nl)])
  end.

(** The entries are in the order of their keys. *)
Fixpoint sortedByKey (l : list (string * Command)) : Prop :=
  match l with
  | [] => True
  | kv :: l' =>
      match l' with
      | [] => True
      | kv' :: _ => String.leb kv.1 kv'.1 = true
      end ∧ sortedByKey l'
  end.

(** A world in which the script cannot be written: a directory that
    is not empty stands in its place. *)
Definition scriptBlockedWorld : World :=
  mkWorld {[ "/" := Directory true; "/srv" := Directory true;
             "/srv/foo" := Directory true;
             "/srv/foo/.envrc" := Directory true;
             "/srv/foo/.envrc/keep" := Regular true "" ]} ∅ [] [] [].

(** The element holds no separator. *)
Definition noSlash (e : list ascii) : Prop :=
  Forall (fun c => IsPathSeparator c = false) e.

(** A real path element: not empty, not [.], not [..], no separator. *)
Definition realElement (e : list ascii) : Prop :=
  e ≠ [] ∧ filepath.isDot e = false ∧ filepath.isDotDot e = false ∧ noSlash e.

(** The buffer of [Clean] as it is between two turns of its loop: real
    elements above the [..] elements, and no [..] element in a rooted
    path. *)
Definition stackOk (rooted : bool) (out : list (list ascii)) : Prop :=
  ∃ reals dds,
    out = reals ++ dds
    ∧ Forall realElement reals
    ∧ Forall (fun e => filepath.isDotDot e = true) dds
    ∧ (rooted = true → dds = []).

(** The path that [Clean] returns for a buffer. *)
Definition render (rooted : bool) (out : list (list ascii)) : string :=
  let body := filepath.joinElements (rev out) in
  if rooted then text (slash :: body)
  else match body with
       | [] => "."
       | _ => text body
       end.

(** The path begins at the root. *)
Definition rootedPath (p : string) : bool :=
  match chars p with
  | c :: _ => IsPathSeparator c
  | [] => false
  end.



(** The bytes written to a stream. *)
Definition bytesOf (out : list Output) : list ascii :=
  flat_map (fun o => match o with Text s => chars s | PrintDefaults _ => [] end) out.

(** The last line of bytes that end with a line feed. *)
Definition lastLineOf (bytes : list ascii) : list ascii :=
  List.last (removelast (split lineFeed [] bytes)) [].

(** The last line of what was written to a stream. *)
Definition lastLine (out : list Output) : string := text (lastLineOf (bytesOf out)).

(** The arguments [pre] are all read as flags, and the flags hold
    [values'] after them. *)
Definition readAsFlags (formal : list string) (values : gmap string string)
           (pre : list string) (values' : gmap string string) : Prop :=
  ∀ (rest : list string) (actual : gset string),
    ∃ actual', flag.parseAll formal values actual (pre ++ rest)
               = flag.parseAll formal values' actual' rest.

End Auxiliary.

(** Reduces the field accesses and updates of a task, then decides the
    next test of a field against the empty string. *)
Ltac task_fields :=
  cbv zeta;
  cbn [InitRoot.ProjectName InitRoot.GoFmlPath InitRoot.ProjectPath InitRoot.ImportPath
       InitRoot.GoFmlRoot InitRoot.set_ProjectName InitRoot.set_GoFmlPath
       InitRoot.set_ProjectPath
       InitGoPath.ProjectName InitGoPath.GoPath InitGoPath.ProjectPath
       InitGoPath.ImportPath InitGoPath.set_ProjectName InitGoPath.set_GoPath
       InitGoPath.set_ProjectPath String.eqb].

Ltac task_test :=
  task_fields;
  match goal with
  | |- context [if String.eqb ?x "" then _ else _] =>
      lazymatch x with
      | context [if _ then _ else _] => fail
      | _ => destruct (String.eqb x "") eqn:?
      end
  end.

Ltac run_unfold :=
  unfold runFiles, bind, ret, print, os_MkdirAll, os_Remove, ioutil_WriteFile, syscall;
  cbn [files environ stdout stderr calls fst snd].

(** Decides a closed statement. *)
Ltac decided := compute_done.

(** * Properties *)

(** ** Examples of the path functions and of the flag syntax *)

Example Clean_ex1 : filepath.Clean "/work//gofml/./foo/../bar/" = "/work/gofml/bar".
Proof. reflexivity. Qed.
Example Clean_ex2 : filepath.Clean "a/../../b" = "../b".
Proof. reflexivity. Qed.
Example Clean_ex3 : filepath.Clean "/../a/.." = "/".
Proof. reflexivity. Qed.
Example Clean_ex4 : filepath.Clean "a/.." = ".".
Proof. reflexivity. Qed.
Example Clean_ex5 : filepath.Clean "../../a/../.." = "../../..".
Proof. reflexivity. Qed.
Example Join_ex1 : filepath.Join ["~/gofml"; "foo"] = "~/gofml/foo".
Proof. reflexivity. Qed.
Example Join_ex2 : filepath.Join [""; "foo"; ""] = "foo".
Proof. reflexivity. Qed.
Example Join_ex3 : filepath.Join [""; ""] = "".
Proof. reflexivity. Qed.
Example Base_ex1 : filepath.Base "example.com/foo" = "foo".
Proof. reflexivity. Qed.
Example Base_ex2 : filepath.Base "///" = "/".
Proof. reflexivity. Qed.
Example Base_ex3 : filepath.Base "a/b//" = "b".
Proof. reflexivity. Qed.
Example Dir_ex1 : filepath.Dir "/work/gofml/foo/.envrc" = "/work/gofml/foo".
Proof. reflexivity. Qed.
Example Dir_ex2 : filepath.Dir "foo" = ".".
Proof. reflexivity. Qed.
Example Dir_ex3 : filepath.Dir "/foo" = "/".
Proof. reflexivity. Qed.

Example classify_ex1 : flag.classify "-n=foo" = flag.IsFlag "n" (Some "foo").
Proof. reflexivity. Qed.
Example classify_ex2 : flag.classify "--g" = flag.IsFlag "g" None.
Proof. reflexivity. Qed.
Example classify_ex3 : flag.classify "-" = flag.NonFlag.
Proof. reflexivity. Qed.
Example classify_ex4 : flag.classify "---x" = flag.BadSyntax.
Proof. reflexivity. Qed.
Example classify_ex5 : flag.classify "-n=" = flag.IsFlag "n" (Some "").
Proof. reflexivity. Qed.

(** The example of the specification: with the import path
    [example.com/foo] and the root [/work/gofml] the project path is
    [/work/gofml/foo/src/example.com/foo]. *)
Example NewInitTask_ex1 :
  ∃ t, InitGoPath.NewInitTask ["example.com/foo"] emptyWorld
       = (Return (Built (asTask t)), emptyWorld)
       ∧ InitGoPath.ProjectName t = "foo"
       ∧ InitGoPath.GoPath t = "/work/gofml/foo"
       ∧ InitGoPath.ProjectPath t = "/work/gofml/foo/src/example.com/foo".
Proof. eexists. split; [vm_compute; reflexivity|]. repeat split. Qed.

Example NewInitTask_ex2 :
  ∃ t, InitRoot.NewInitTask ["-g"; "/work/gofml"; "example.com/foo"] emptyWorld
       = (Return (Built (asTask t)), emptyWorld)
       ∧ InitRoot.ProjectName t = "foo"
       ∧ InitRoot.GoFmlPath t = "/work/gofml/foo"
       ∧ InitRoot.ProjectPath t = "/work/gofml/foo/src/example.com/foo".
Proof. eexists. split; [vm_compute; reflexivity|]. repeat split. Qed.

(** ** Byte strings and paths *)

Section PathFacts.
Import Bytes.

Lemma text_chars (s : string) : text (chars s) = s.
Proof. apply string_of_list_ascii_of_string. Qed.

Lemma chars_text (l : list ascii) : chars (text l) = l.
Proof. apply list_ascii_of_string_of_list_ascii. Qed.

Lemma chars_app (a b : string) : chars (a +:+ b) = chars a ++ chars b.
Proof. induction a as [|c a IH]; simpl; [reflexivity | now rewrite <- IH]. Qed.

Lemma text_cons_nonempty (c : ascii) (l : list ascii) : text (c :: l) ≠ "".
Proof. discriminate. Qed.

Lemma chars_nil_inv (s : string) : chars s = [] → s = "".
Proof. destruct s; [reflexivity | discriminate]. Qed.

Lemma Clean_nonempty (path : string) : filepath.Clean path ≠ "".
Proof.
  unfold filepath.Clean.
  destruct (chars path) as [|c l]; [discriminate|].
  destruct (IsPathSeparator c); [apply text_cons_nonempty|].
  destruct (filepath.joinElements _); [discriminate | apply text_cons_nonempty].
Qed.

Lemma Base_nonempty (path : string) : filepath.Base path ≠ "".
Proof.
  unfold filepath.Base.
  destruct (String.eqb path ""); [discriminate|].
  destruct (rev _); [discriminate | apply text_cons_nonempty].
Qed.

Lemma Join_cons_nonempty (e : string) (rest : list string) :
  e ≠ "" → filepath.Join (e :: rest) = filepath.Clean (joinWith "/" (e :: rest)).
Proof.
  intros He. cbn [filepath.Join].
  destruct (String.eqb_spec e ""); [contradiction | reflexivity].
Qed.

Lemma Join_cons_empty (rest : list string) :
  filepath.Join ("" :: rest) = filepath.Join rest.
Proof. reflexivity. Qed.

(** A join that has an element that is not empty is not empty. *)
Lemma Join_nonempty (elem : list string) :
  Exists (fun e => e ≠ "") elem → filepath.Join elem ≠ "".
Proof.
  induction elem as [|e rest IH]; intros H.
  - inversion H.
  - destruct (String.eqb_spec e "") as [->|Hne].
    + rewrite Join_cons_empty. apply IH.
      inversion H; subst; [congruence | assumption].
    + rewrite Join_cons_nonempty by assumption. apply Clean_nonempty.
Qed.

(** Joining with ["src"] and the import path is joining with
    ["src/<import path>"]. *)
Lemma Join_src (dir importPath : string) :
  filepath.Join [dir; "src"; importPath] = filepath.Join [dir; "src/" +:+ importPath].
Proof.
  destruct (String.eqb_spec dir "") as [->|Hne].
  - reflexivity.
  - rewrite !Join_cons_nonempty by assumption. reflexivity.
Qed.

End PathFacts.

(** ** The final component of a path *)

Section FinalComponent.
Import Bytes.

Lemma split_snoc_sep (sep : ascii) (l acc : list ascii) :
  split sep acc (l ++ [sep]) = split sep acc l ++ [[]].
Proof.
  revert acc. induction l as [|c l IH]; intros acc; simpl.
  - now rewrite Ascii.eqb_refl.
  - destruct (Ascii.eqb c sep); simpl; now rewrite IH.
Qed.

Lemma split_nonnil (sep : ascii) (l acc : list ascii) : split sep acc l ≠ [].
Proof.
  revert acc. induction l as [|c l IH]; intros acc; simpl; [discriminate|].
  destruct (Ascii.eqb c sep); [discriminate | apply IH].
Qed.

Lemma split_snoc_other (sep c : ascii) (l acc : list ascii) :
  Ascii.eqb c sep = false →
  split sep acc (l ++ [c]) =
  removelast (split sep acc l) ++ [List.last (split sep acc l) [] ++ [c]].
Proof.
  intros Hc. revert acc. induction l as [|x l IH]; intros acc.
  - simpl. now rewrite Hc.
  - cbn [app split]. destruct (Ascii.eqb x sep).
    + rewrite IH. pose proof (split_nonnil sep l []) as Hn.
      destruct (split sep [] l) as [|y ys] eqn:E; [contradiction|].
      reflexivity.
    + apply IH.
Qed.

Lemma lastNonEmpty_snoc_nil (l : list (list ascii)) (d : list ascii) :
  lastNonEmpty (l ++ [[]]) d = lastNonEmpty l d.
Proof. revert d. induction l as [|e l IH]; intros d; simpl; [reflexivity | apply IH]. Qed.

Lemma lastNonEmpty_snoc (l : list (list ascii)) (x : ascii) (e d : list ascii) :
  lastNonEmpty (l ++ [x :: e]) d = x :: e.
Proof. revert d. induction l as [|y l IH]; intros d; simpl; [reflexivity | apply IH]. Qed.

Lemma split_last_piece (cs : list ascii) :
  List.last (split slash [] cs) [] = rev (takeWhile notSeparator (rev cs))
  ∧ lastNonEmpty (split slash [] cs) [] = lastElement cs.
Proof.
  unfold lastElement.
  induction cs as [|c cs [IH1 IH2]] using rev_ind; [split; reflexivity|].
  rewrite rev_unit. cbn [takeWhile dropWhile].
  unfold notSeparator at 1 3. unfold IsPathSeparator in *.
  destruct (Ascii.eqb c slash) eqn:Hc; cbn [negb].
  - apply Ascii.eqb_eq in Hc. subst c.
    rewrite split_snoc_sep, lastNonEmpty_snoc_nil, last_last. auto.
  - rewrite split_snoc_other by assumption.
    rewrite last_last. cbn [takeWhile]. rewrite Hc. cbn [negb rev].
    change (fun c0 : ascii => negb (Ascii.eqb c0 slash)) with notSeparator.
    rewrite IH1. split; [reflexivity|].
    destruct (rev (takeWhile notSeparator (rev cs))) as [|y ys];
      simpl; apply lastNonEmpty_snoc.
Qed.

(** [filepath.Base] computes the final path component. *)
Lemma Base_finalComponent (p : string) : filepath.Base p = finalComponent p.
Proof.
  unfold filepath.Base, finalComponent.
  rewrite (proj2 (split_last_piece (chars p))).
  fold notSeparator. fold (lastElement (chars p)).
  destruct (String.eqb_spec p "") as [->|Hne]; [reflexivity|].
  now destruct (lastElement (chars p)).
Qed.

End FinalComponent.

Example finalComponent_ex1 : finalComponent "example.com/foo" = "foo".
Proof. reflexivity. Qed.
Example finalComponent_ex2 : finalComponent "a//b///" = "b".
Proof. reflexivity. Qed.
Example finalComponent_ex3 : finalComponent "//" = "/".
Proof. reflexivity. Qed.

(** ** What [NewInitTask] computes *)

Lemma withStderr_app (w : World) (a b : list Output) :
  withStderr (withStderr w a) b = withStderr w (a ++ b).
Proof. unfold withStderr; simpl. now rewrite <- app_assoc. Qed.

Lemma eprint_eq (o : Output) (w : World) : eprint o w = (tt, withStderr w [o]).
Proof. reflexivity. Qed.

Lemma InitRoot_NewInitTask_eq (args : list string) (w : World) :
  InitRoot.NewInitTask args w =
  match InitRoot_parse w args with
  | flag.Flags values _ [] =>
      (Return (NotBuilt (errorString "no import path specified")), w)
  | flag.Flags values _ (p :: _) =>
      (Return (Built (asTask (InitRoot_task (held values "g") (held values "n") p))), w)
  | flag.Failed err =>
      (Exit (flagFailure err).2, withStderr w (flagFailure err).1)
  end.
Proof.
  unfold InitRoot.NewInitTask, InitRoot_parse, InitRoot.getGofmlRoot, os_Getenv, bind, ret.
  fold (rootOf w). unfold flag.Parse. cbn [flag.formal flag.values flag.actual flag.String
    flag.NewFlagSet flag.name flag.Usage app].
  change (<["n":=""]> (<["g":=rootOf w]> ∅)) with (InitRoot_values (rootOf w)).
  destruct (flag.parseAll _ _ _ _) as [values act rest|[|msg]].
  - unfold ret. cbn [flag.Args flag.args]. destruct rest as [|p rest]; [reflexivity|].
    unfold flag.deref. cbn [flag.values]. fold (held values "g") (held values "n").
    unfold InitRoot_task. repeat task_test; reflexivity.
  - unfold withStderr. cbn. now rewrite <- ?app_assoc.
  - unfold withStderr. cbn. now rewrite <- ?app_assoc.
Qed.

Lemma InitGoPath_NewInitTask_eq (args : list string) (w : World) :
  InitGoPath.NewInitTask args w =
  match InitGoPath_parse args with
  | flag.Flags values _ [] =>
      (Return (NotBuilt (errorString "no import path specified")), w)
  | flag.Flags values _ (p :: _) =>
      (Return (Built (asTask (InitGoPath_task (held values "g") (held values "n")
                                              (held values "p") p))), w)
  | flag.Failed err =>
      (Exit (flagFailure err).2, withStderr w (flagFailure err).1)
  end.
Proof.
  unfold InitGoPath.NewInitTask, InitGoPath_parse, bind, ret.
  unfold flag.Parse. cbn [flag.formal flag.values flag.actual flag.String
    flag.NewFlagSet flag.name flag.Usage app].
  change (<["p":=""]> (<["n":=""]> (<["g":=""]> ∅))) with InitGoPath_values.
  destruct (flag.parseAll _ _ _ _) as [values act rest|[|msg]].
  - unfold ret. cbn [flag.Args flag.args]. destruct rest as [|p rest]; [reflexivity|].
    unfold flag.deref. cbn [flag.values].
    fold (held values "g") (held values "n") (held values "p").
    unfold InitGoPath_task. repeat task_test; reflexivity.
  - unfold withStderr. cbn. now rewrite <- ?app_assoc.
  - unfold withStderr. cbn. now rewrite <- ?app_assoc.
Qed.

(** ** The parsing of flags *)

Section ParseFacts.

(** Induction for a loop that takes one or two arguments per turn. *)
Lemma list_ind_two {A} (P : list A → Prop) :
  P [] → (∀ x l, P l → (∀ y l', l = y :: l' → P l') → P (x :: l)) → ∀ l, P l.
Proof.
  intros Hnil Hstep l.
  assert (H : P l ∧ ∀ y l', l = y :: l' → P l'); [|exact (proj1 H)].
  induction l as [|x l [IH1 IH2]].
  - split; [assumption | discriminate].
  - split; [now apply Hstep|]. intros y l' [= -> ->]. assumption.
Qed.

(** A flag that was not set holds what it held before. *)
Lemma parseAll_unset (formal : list string) (flagname : string) (args : list string) :
  ∀ values actual values' actual' rest,
    flag.parseAll formal values actual args = flag.Flags values' actual' rest →
    flagname ∉ actual' →
    values' !! flagname = values !! flagname ∧ flagname ∉ actual.
Proof.
  induction args as [|s args IH1 IH2] using list_ind_two;
    intros values actual values' actual' rest Hp Hnot.
  - injection Hp as <- <- <-. auto.
  - cbn [flag.parseAll] in Hp.
    destruct (flag.classify s) as [| | |name [v|]].
    + injection Hp as <- <- <-. auto.
    + injection Hp as <- <- <-. auto.
    + discriminate.
    + destruct (existsb _ _); [|destruct (_ || _); discriminate].
      destruct (IH1 _ _ _ _ _ Hp Hnot) as [Hv Ha].
      apply not_elem_of_union in Ha as [Hne Ha].
      apply not_elem_of_singleton in Hne.
      rewrite lookup_insert_ne in Hv by congruence. auto.
    + destruct (existsb _ _); [|destruct (_ || _); discriminate].
      destruct args as [|v args']; [discriminate|].
      destruct (IH2 v args' eq_refl _ _ _ _ _ Hp Hnot) as [Hv Ha].
      apply not_elem_of_union in Ha as [Hne Ha].
      apply not_elem_of_singleton in Hne.
      rewrite lookup_insert_ne in Hv by congruence. auto.
Qed.

(** The set of the flags that were set has no part in the parsing. *)
Lemma parseAll_actual (formal : list string) (args : list string) :
  ∀ values a1 a2,
    outcome (flag.parseAll formal values a1 args)
    = outcome (flag.parseAll formal values a2 args).
Proof.
  induction args as [|s args IH1 IH2] using list_ind_two; intros values a1 a2.
  - reflexivity.
  - cbn [flag.parseAll].
    destruct (flag.classify s) as [| | |name [v|]]; try reflexivity.
    + destruct (existsb _ _); [apply IH1|]. now destruct (_ || _).
    + destruct (existsb _ _); [|now destruct (_ || _)].
      destruct args as [|v args']; [reflexivity|]. now apply (IH2 v args').
Qed.

Lemma parseAll_flagArgs (formal : list string) (l : list (string * string)) :
  Forall (fun kv => pathFlag kv.1 ∧ existsb (String.eqb kv.1) formal = true) l →
  ∀ values actual,
    values !! "n" = Some "" →
    ∃ values' actual',
      values' !! "n" = Some ""
      ∧ ∀ rest, flag.parseAll formal values actual (flagArgs l ++ rest)
                = flag.parseAll formal values' actual' rest.
Proof.
  induction 1 as [|[k v] l [Hk Hf] Hl IH]; intros values actual Hn.
  - exists values, actual. auto.
  - cbn [fst] in Hk, Hf.
    destruct (IH (<[k := v]> values) ({[k]} ∪ actual)) as (values' & actual' & Hn' & Hp).
    { rewrite lookup_insert_ne; [assumption|]. destruct Hk; subst; discriminate. }
    exists values', actual'. split; [assumption|]. intros rest.
    rewrite <- Hp. cbn [flagArgs flat_map app fst snd]. fold (flagArgs l).
    destruct Hk; subst k; cbn [flag.parseAll].
    + change (flag.classify ("-" +:+ "g")) with (flag.IsFlag "g" None).
      cbv iota beta. now rewrite Hf.
    + change (flag.classify ("-" +:+ "p")) with (flag.IsFlag "p" None).
      cbv iota beta. now rewrite Hf.
Qed.

(** Setting [-n] to the empty string when it holds the empty string
    changes nothing in what is parsed. *)
Lemma parseAll_empty_name (formal : list string) (values : gmap string string)
      (a1 a2 : gset string) (rest : list string) :
  existsb (String.eqb "n") formal = true →
  values !! "n" = Some "" →
  outcome (flag.parseAll formal values a1 ("-n" :: "" :: rest))
  = outcome (flag.parseAll formal values a2 rest)
  ∧ outcome (flag.parseAll formal values a1 ("-n=" :: rest))
    = outcome (flag.parseAll formal values a2 rest).
Proof.
  intros Hf Hn. cbn [flag.parseAll].
  change (flag.classify "-n") with (flag.IsFlag "n" None).
  change (flag.classify "-n=") with (flag.IsFlag "n" (Some "")).
  cbv iota beta. rewrite Hf, insert_id by assumption.
  split; apply parseAll_actual.
Qed.

End ParseFacts.

(** ** The file operations *)

Section FileFacts.
Import Bytes.

Lemma length_chars (s : string) : List.length (chars s) = String.length s.
Proof. induction s as [|c s IH]; simpl; [reflexivity | now rewrite IH]. Qed.

Lemma length_text (l : list ascii) : String.length (text l) = List.length l.
Proof. induction l as [|c l IH]; simpl; [reflexivity | now rewrite IH]. Qed.

Lemma length_dropWhile {A} (p : A → bool) (l : list A) :
  (List.length (dropWhile p l) <= List.length l)%nat.
Proof. induction l as [|x l IH]; simpl; [lia|]. destruct (p x); simpl; lia. Qed.

(** The path that [MkdirAll] creates first is shorter than its path. *)
Lemma MkdirAll_parent_shorter (path dir : string) :
  os.MkdirAll_parent path = Some dir → (String.length dir < String.length path)%nat.
Proof.
  unfold os.MkdirAll_parent.
  set (r1 := dropWhile IsPathSeparator (rev (chars path))).
  pose proof (length_dropWhile (fun c => negb (IsPathSeparator c)) r1) as H2.
  pose proof (length_dropWhile IsPathSeparator (rev (chars path))) as H1.
  fold r1 in H1. rewrite length_rev, length_chars in H1.
  destruct (dropWhile _ r1) as [|c [|d before]]; try discriminate.
  intros [= <-]. rewrite length_text, length_app, length_rev. simpl in *. lia.
Qed.

(** The bound on the recursion of [MkdirAll] is never reached: any
    bound from the length of the path on gives the same result. *)
Lemma MkdirAll_rec_bound (n m : nat) :
  ∀ path fs, (String.length path <= n)%nat → (String.length path <= m)%nat →
             os.MkdirAll_rec n path fs = os.MkdirAll_rec m path fs.
Proof.
  revert m. induction n as [|n IH]; intros m path fs Hn Hm.
  - destruct m as [|m]; [reflexivity|].
    simpl. destruct (fs !! path) as [[]|]; try reflexivity.
    destruct (os.MkdirAll_parent path) as [dir|] eqn:E; [|reflexivity].
    apply MkdirAll_parent_shorter in E. lia.
  - destruct m as [|m].
    + simpl. destruct (fs !! path) as [[]|]; try reflexivity.
      destruct (os.MkdirAll_parent path) as [dir|] eqn:E; [|reflexivity].
      apply MkdirAll_parent_shorter in E. lia.
    + simpl. destruct (fs !! path) as [[]|]; try reflexivity.
      destruct (os.MkdirAll_parent path) as [dir|] eqn:E; [|reflexivity].
      apply MkdirAll_parent_shorter in E. rewrite (IH m dir fs) by lia. reflexivity.
Qed.


Lemma Mkdir_made (path : string) (fs fs' : gmap string Node) :
  os.Mkdir path fs = (fs', None) → fs' !! path = Some (Directory true).
Proof.
  unfold os.Mkdir. destruct (fs !! path); [discriminate|].
  destruct (fs !! os.parent path) as [[[]|]|]; try discriminate.
  intros [= <-]. apply lookup_insert_eq.
Qed.

(** After [MkdirAll] has returned nil the path is a directory. *)
Lemma MkdirAll_made (path : string) (fs fs' : gmap string Node) :
  os.MkdirAll path fs = (fs', None) → ∃ w, fs' !! path = Some (Directory w).
Proof.
  unfold os.MkdirAll. generalize (String.length path) as n. intros n.
  destruct n as [|n]; simpl.
  - destruct (fs !! path) as [[w|]|] eqn:E.
    + intros [= <-]. eauto.
    + discriminate.
    + destruct (os.MkdirAll_parent path);
        (destruct (os.Mkdir path fs) as [fs2 [e|]] eqn:Em;
         [ destruct (fs2 !! path) as [[w|]|] eqn:E2; try discriminate;
           intros [= <-]; eauto
         | intros [= <-]; apply Mkdir_made in Em; eauto ]).
  - destruct (fs !! path) as [[w|]|] eqn:E.
    + intros [= <-]. eauto.
    + discriminate.
    + destruct (match os.MkdirAll_parent path with
                | Some dir => os.MkdirAll_rec n dir fs
                | None => (fs, None)
                end) as [fs1 [err|]]; [discriminate|].
      destruct (os.Mkdir path fs1) as [fs2 [e|]] eqn:Em.
      * destruct (fs2 !! path) as [[w|]|] eqn:E2; try discriminate.
        intros [= <-]. eauto.
      * intros [= <-]. apply Mkdir_made in Em. eauto.
Qed.

(** [WriteFile] returns nil only when the file holds the data. *)
Lemma WriteFile_written (name data : string) (fs fs' : gmap string Node) :
  os.WriteFile name data fs = (fs', None) → fs' = <[name := Regular true data]> fs.
Proof.
  unfold os.WriteFile.
  destruct (fs !! name) as [[|[]]|]; try discriminate.
  - now intros [= <-].
  - destruct (fs !! os.parent name) as [[[]|]|]; try discriminate. now intros [= <-].
Qed.

(** A failure leaves the files as they were. *)
Lemma WriteFile_failed (name data : string) (fs fs' : gmap string Node) (err : error) :
  os.WriteFile name data fs = (fs', Some err) → fs' = fs.
Proof.
  unfold os.WriteFile.
  destruct (fs !! name) as [[|[]]|]; try (now intros [= <-]).
  destruct (fs !! os.parent name) as [[[]|]|]; try discriminate; now intros [= <-].
Qed.

(** [Remove] removes the entry, which then is not its own directory,
    or fails and leaves the files as they were. *)
Lemma Remove_cases (name : string) (fs : gmap string Node) :
  (os.Remove name fs = (delete name fs, None)
   ∧ fs !! os.parent name = Some (Directory true) ∧ is_Some (fs !! name))
  ∨ (∃ err, os.Remove name fs = (fs, Some err)
            ∧ (fs !! name = None ∨ fs !! os.parent name ≠ Some (Directory true)
               ∨ ∃ w, fs !! name = Some (Directory w))).
Proof.
  unfold os.Remove.
  destruct (fs !! name) as [[w|w d]|] eqn:E.
  - destruct (os.hasEntries name fs); [right; eauto 8|].
    destruct (fs !! os.parent name) as [[[]|]|] eqn:Ep; eauto 8;
      right; eexists; (split; [reflexivity|]); right; left; congruence.
  - destruct (fs !! os.parent name) as [[[]|]|] eqn:Ep; eauto 8;
      right; eexists; (split; [reflexivity|]); right; left; congruence.
  - right. eauto.
Qed.

End FileFacts.

(** ** What [Run] does to the files *)

Lemma InitRoot_Run_files (t : InitRoot.InitTask) (w : World) :
  let r := InitRoot.InitTask_Run t w in
  let o := runFiles (InitRoot.ProjectPath t) (InitRoot.envrc t)
                    (template.Execute InitRoot.script t) (files w) in
  r.1 = o.1.1 ∧ files r.2 = o.1.2 ∧ calls r.2 = calls w ++ o.2
  ∧ environ r.2 = environ w ∧ stderr r.2 = stderr w.
Proof.
  unfold InitRoot.InitTask_Run, InitRoot.makeDir, InitRoot.writeEnvrc, InitRoot.printHints.
  run_unfold.
  destruct (os.MkdirAll _ _) as [fs1 [e1|]]; cbn [files environ stdout stderr calls fst snd].
  - auto.
  - destruct (os.Remove _ _) as [fs2 r2]; cbn [files environ stdout stderr calls fst snd].
    destruct (os.WriteFile _ _ _) as [fs3 [e3|]];
      cbn [files environ stdout stderr calls fst snd];
      rewrite <- ?app_assoc; auto.
Qed.

Lemma InitGoPath_Run_files (t : InitGoPath.InitTask) (w : World) :
  let r := InitGoPath.InitTask_Run t w in
  let o := runFiles (InitGoPath.ProjectPath t) (InitGoPath.envrc t)
                    (template.Execute InitGoPath.script t) (files w) in
  r.1 = o.1.1 ∧ files r.2 = o.1.2 ∧ calls r.2 = calls w ++ o.2
  ∧ environ r.2 = environ w ∧ stderr r.2 = stderr w.
Proof.
  unfold InitGoPath.InitTask_Run, InitGoPath.makeDir, InitGoPath.writeEnvrc,
    InitGoPath.printHints.
  run_unfold.
  destruct (os.MkdirAll _ _) as [fs1 [e1|]]; cbn [files environ stdout stderr calls fst snd].
  - auto.
  - destruct (os.Remove _ _) as [fs2 r2]; cbn [files environ stdout stderr calls fst snd].
    destruct (os.WriteFile _ _ _) as [fs3 [e3|]];
      cbn [files environ stdout stderr calls fst snd];
      rewrite <- ?app_assoc; auto.
Qed.

(** A first failure of [MkdirAll] is the result, and nothing else is
    called. *)
Lemma runFiles_mkdir_failed (pp e c : string) (fs fs1 : gmap string Node) (err : error) :
  os.MkdirAll pp fs = (fs1, Some err) →
  runFiles pp e c fs = (Some err, fs1, [(CallMkdirAll pp, Some err)]).
Proof. unfold runFiles. now intros ->. Qed.

(** After [MkdirAll], whatever [Remove] returns, the result is that of
    [WriteFile]. *)
Lemma runFiles_written (pp e c : string) (fs fs1 fs2 fs3 : gmap string Node)
      (r2 r3 : option error) :
  os.MkdirAll pp fs = (fs1, None) →
  os.Remove e fs1 = (fs2, r2) →
  os.WriteFile e c fs2 = (fs3, r3) →
  runFiles pp e c fs
  = (r3, fs3, [(CallMkdirAll pp, None); (CallRemove e, r2); (CallWriteFile e c, r3)]).
Proof. unfold runFiles. now intros -> -> ->. Qed.

(** A run that returns nil has made the three calls and left the
    script with its text. *)
Lemma runFiles_success (pp e c : string) (fs fs' : gmap string Node)
      (log : list (Call * option error)) :
  runFiles pp e c fs = (None, fs', log) →
  fs' !! e = Some (Regular true c)
  ∧ (∃ r2, log = [(CallMkdirAll pp, None); (CallRemove e, r2); (CallWriteFile e c, None)])
  ∧ (pp ≠ e → ∃ w, fs' !! pp = Some (Directory w)).
Proof.
  unfold runFiles.
  destruct (os.MkdirAll pp fs) as [fs1 [e1|]] eqn:E1; [discriminate|].
  destruct (os.Remove e fs1) as [fs2 r2] eqn:E2.
  destruct (os.WriteFile e c fs2) as [fs3 [e3|]] eqn:E3; [discriminate|].
  intros [= <- <-]. apply WriteFile_written in E3. subst fs3.
  split; [apply lookup_insert_eq|]. split; [eauto|].
  intros Hne. apply MkdirAll_made in E1 as [w Hw]. exists w.
  rewrite lookup_insert_ne by congruence.
  destruct (Remove_cases e fs1) as [(Hr & _ & _)|(err & Hr & _)];
    rewrite Hr in E2; injection E2 as <- <-; [|assumption].
  rewrite lookup_delete_ne by congruence. assumption.
Qed.


(** ** The text of the script *)

Section ScriptFacts.
Import Bytes.

Lemma InitRoot_script_text (t : InitRoot.InitTask) :
  template.Execute InitRoot.script t
  = scriptText (InitRoot.ImportPath t) (InitRoot.GoFmlPath t).
Proof.
  unfold InitRoot.script, scriptText. cbn [template.Execute].
  generalize (InitRoot.ImportPath t) (InitRoot.GoFmlPath t). intros p g.
  cbn. reflexivity.
Qed.

Lemma InitGoPath_script_text (t : InitGoPath.InitTask) :
  template.Execute InitGoPath.script t
  = scriptText (InitGoPath.ImportPath t) (InitGoPath.GoPath t).
Proof.
  unfold InitGoPath.script, scriptText. cbn [template.Execute].
  generalize (InitGoPath.ImportPath t) (InitGoPath.GoPath t). intros p g.
  cbn. reflexivity.
Qed.

Lemma split_line (a l acc : list ascii) :
  forallb (fun c => negb (Ascii.eqb c lineFeed)) a = true →
  split lineFeed acc (a ++ lineFeed :: l) = (rev acc ++ a) :: split lineFeed [] l.
Proof.
  revert acc. induction a as [|c a IH]; intros acc Ha.
  - simpl. now rewrite app_nil_r.
  - simpl in Ha. apply andb_true_iff in Ha as [Hc Ha].
    apply negb_true_iff in Hc. cbn [app split]. rewrite Hc.
    rewrite IH by assumption. simpl. now rewrite <- app_assoc.
Qed.

(** With an import path and a workspace path of one line each, the
    lines of the script that begin with [export] are its three. *)
Lemma exportLines_scriptText (importPath workspace : string) :
  oneLine importPath = true → oneLine workspace = true →
  exportLines (scriptText importPath workspace)
  = [ "export GOFML=" +:+ importPath;
      "export GOPATH=" +:+ workspace;
      "export PATH=" +:+ dq +:+ "$GOPATH/bin:$PATH" +:+ dq ].
Proof.
  unfold oneLine, exportLines, lines, scriptText. intros Hp Hg.
  rewrite !chars_app.
  change (chars nl) with [lineFeed]. cbn [app].
  cbn [split]. change (Ascii.eqb lineFeed lineFeed) with true. cbv iota.
  rewrite <- !app_assoc. cbn [app].
  rewrite (app_assoc (chars "export GOFML=") (chars importPath)).
  rewrite (split_line (chars "export GOFML=" ++ chars importPath)).
  2:{ rewrite forallb_app, Hp. reflexivity. }
  rewrite (app_assoc (chars "export GOPATH=") (chars workspace)).
  rewrite (split_line (chars "export GOPATH=" ++ chars workspace)).
  2:{ rewrite forallb_app, Hg. reflexivity. }
  cbn [rev app map]. rewrite <- !chars_app, !text_chars.
  reflexivity.
Qed.

End ScriptFacts.

(** ** The dispatcher *)

Section DispatcherFacts.
Import Bytes.

Variable initCommand : Command.
Variables (helpUsage helpShort helpLong : string).
Variable helpGetTask : list string -> IO (Proc TaskResult).
Variable funcAddress : Command -> string.

Local Abbreviation commands' := (commands initCommand helpUsage helpShort helpLong helpGetTask).
Local Abbreviation usageText' := (usageText initCommand helpUsage helpShort helpLong helpGetTask).
Local Abbreviation Main' :=
  (Main initCommand helpUsage helpShort helpLong helpGetTask funcAddress).

Lemma commands_help :
  commands' !! "help" = Some (helpCommand helpUsage helpShort helpLong helpGetTask).
Proof. unfold commands. cbn [fold_left]. apply lookup_insert_eq. Qed.

Lemma commands_init :
  Name initCommand = "init" → commands' !! "init" = Some initCommand.
Proof.
  intros Hn. unfold commands. cbn [fold_left].
  rewrite lookup_insert_ne by discriminate. rewrite Hn. apply lookup_insert_eq.
Qed.

(** [Main] once the command is found. *)
Lemma Main_found (argv : list string) (w : World) (values : gmap string string)
      (actual : gset string) (c : string) (rest : list string) (cmd : Command) :
  flag.parseAll [] ∅ ∅ argv = flag.Flags values actual (c :: rest) →
  commands' !! c = Some cmd →
  (rest = [] → c ≠ "help") →
  Main' argv w =
  let (built, w1) := GetTask cmd rest w in
  match built with
  | Exit code => (code, w1)
  | Return (NotBuilt err) =>
      (1, withStderr w1
            [Text ("gofml: failed to parse command " +:+ formatCommand funcAddress cmd +:+ nl)])
  | Return (Built task) =>
      let (err, w2) := runTask task w1 in
      match err with
      | Some e =>
          (1, withStderr w2 [Text ("gofml: error running command: " +:+ Error e +:+ nl)])
      | None => (0, w2)
      end
  end.
Proof.
  intros Hparse Hcmd Hhelp.
  unfold Main, bind, flag.Parse. cbn [flag.formal flag.values flag.actual CommandLine].
  rewrite Hparse. unfold ret at 1. cbn [flag.Args flag.args hd tl List.length].
  replace (Nat.ltb (S (List.length rest)) 1
           || Nat.eqb (S (List.length rest)) 1 && String.eqb c "help") with false.
  2:{ destruct rest as [|x rest]; [|reflexivity]. cbn.
      symmetry. apply String.eqb_neq. auto. }
  rewrite Hcmd.
  destruct (GetTask cmd rest w) as [[[task|err]|code] w1]; try reflexivity.
  destruct (runTask task w1) as [[e|] w2]; reflexivity.
Qed.

(** [Main] when the command is not in the registry. *)
Lemma Main_not_found (argv : list string) (w : World) (values : gmap string string)
      (actual : gset string) (c : string) (rest : list string) :
  flag.parseAll [] ∅ ∅ argv = flag.Flags values actual (c :: rest) →
  commands' !! c = None →
  Main' argv w
  = (1, withStderr w [Text ("gofml: unrecognized command " +:+ c +:+ nl);
                      Text usageText']).
Proof.
  intros Hparse Hcmd.
  assert (Hhelp : c ≠ "help").
  { intros ->. rewrite commands_help in Hcmd. discriminate. }
  unfold Main, bind, flag.Parse. cbn [flag.formal flag.values flag.actual CommandLine].
  rewrite Hparse. unfold ret at 1. cbn [flag.Args flag.args hd tl List.length].
  replace (Nat.ltb (S (List.length rest)) 1
           || Nat.eqb (S (List.length rest)) 1 && String.eqb c "help") with false.
  2:{ destruct rest as [|x rest]; [|reflexivity]. cbn.
      symmetry. now apply String.eqb_neq. }
  rewrite Hcmd. unfold usage, ret. rewrite !eprint_eq, withStderr_app. reflexivity.
Qed.

End DispatcherFacts.

(** What the flags hold before the arguments are parsed. *)
Lemma InitRoot_values_g (root : string) : InitRoot_values root !! "g" = Some root.
Proof.
  unfold InitRoot_values. rewrite lookup_insert_ne by discriminate. apply lookup_insert_eq.
Qed.

Lemma InitRoot_values_n (root : string) : InitRoot_values root !! "n" = Some "".
Proof. apply lookup_insert_eq. Qed.

Lemma InitGoPath_values_g : InitGoPath_values !! "g" = Some "".
Proof.
  unfold InitGoPath_values. rewrite !lookup_insert_ne by discriminate. apply lookup_insert_eq.
Qed.

Lemma InitGoPath_values_n : InitGoPath_values !! "n" = Some "".
Proof.
  unfold InitGoPath_values. rewrite lookup_insert_ne by discriminate. apply lookup_insert_eq.
Qed.

(** The process with the variant with a root directory is [Main] on
    the [init] command whose help names the root of the world. *)
Lemma MainRoot_eq (helpUsage helpShort helpLong : string)
      (helpGetTask : list string -> IO (Proc TaskResult))
      (funcAddress : Command -> string) (argv : list string) (w : World) :
  MainRoot helpUsage helpShort helpLong helpGetTask funcAddress argv w
  = Main (InitRoot.initCommand (rootOf w)) helpUsage helpShort helpLong helpGetTask
         funcAddress argv w.
Proof. reflexivity. Qed.

(** What [Main] does with [init] and its arguments, from what the
    task factory returns. *)
Lemma MainRoot_init_eq (helpUsage helpShort helpLong : string)
      (helpGetTask : list string -> IO (Proc TaskResult))
      (funcAddress : Command -> string) (args : list string) (w : World) :
  MainRoot helpUsage helpShort helpLong helpGetTask funcAddress ("init" :: args) w
  = match InitRoot.NewInitTask args w with
    | (Exit code, w1) => (code, w1)
    | (Return (NotBuilt _), w1) =>
        (1, withStderr w1
              [Text ("gofml: failed to parse command "
                     +:+ formatCommand funcAddress (InitRoot.initCommand (rootOf w))
                     +:+ Bytes.nl)])
    | (Return (Built task), w1) => exitAfter (runTask task w1)
    end.
Proof.
  rewrite MainRoot_eq.
  rewrite (Main_found _ _ _ _ _ _ ("init" :: args) w ∅ ∅ "init" args
             (InitRoot.initCommand (rootOf w)));
    [| reflexivity | now apply commands_init | discriminate].
  cbn [GetTask InitRoot.initCommand].
  destruct (InitRoot.NewInitTask args w) as [[[task|err]|code] w1]; try reflexivity.
  unfold exitAfter. destruct (runTask task w1) as [[e|] w2]; reflexivity.
Qed.

Lemma MainGoPath_init_eq (helpUsage helpShort helpLong : string)
      (helpGetTask : list string -> IO (Proc TaskResult))
      (funcAddress : Command -> string) (args : list string) (w : World) :
  MainGoPath helpUsage helpShort helpLong helpGetTask funcAddress ("init" :: args) w
  = match InitGoPath.NewInitTask args w with
    | (Exit code, w1) => (code, w1)
    | (Return (NotBuilt _), w1) =>
        (1, withStderr w1
              [Text ("gofml: failed to parse command "
                     +:+ formatCommand funcAddress InitGoPath.initCommand
                     +:+ Bytes.nl)])
    | (Return (Built task), w1) => exitAfter (runTask task w1)
    end.
Proof.
  unfold MainGoPath.
  rewrite (Main_found _ _ _ _ _ _ ("init" :: args) w ∅ ∅ "init" args
             InitGoPath.initCommand);
    [| reflexivity | now apply commands_init | discriminate].
  cbn [GetTask InitGoPath.initCommand].
  destruct (InitGoPath.NewInitTask args w) as [[[task|err]|code] w1]; try reflexivity.
  unfold exitAfter. destruct (runTask task w1) as [[e|] w2]; reflexivity.
Qed.

(** The fields of a task that is built are not empty. *)
Lemma InitRoot_task_nonempty (g n p : string) :
  let t := InitRoot_task g n p in
  InitRoot.ProjectName t ≠ "" ∧ InitRoot.GoFmlPath t ≠ "" ∧ InitRoot.ProjectPath t ≠ "".
Proof.
  unfold InitRoot_task.
  cbn [InitRoot.ProjectName InitRoot.GoFmlPath InitRoot.ProjectPath].
  assert (Hname : (if String.eqb n "" then filepath.Base p else n) ≠ "").
  { destruct (String.eqb_spec n ""); [apply Base_nonempty | assumption]. }
  split; [assumption|]. split; apply Join_nonempty.
  - apply Exists_cons_tl, Exists_cons_hd. assumption.
  - apply Exists_cons_tl, Exists_cons_hd. discriminate.
Qed.

Lemma InitGoPath_task_nonempty (g n pp p : string) :
  let t := InitGoPath_task g n pp p in
  InitGoPath.ProjectName t ≠ "" ∧ InitGoPath.GoPath t ≠ "" ∧ InitGoPath.ProjectPath t ≠ "".
Proof.
  unfold InitGoPath_task.
  cbn [InitGoPath.ProjectName InitGoPath.GoPath InitGoPath.ProjectPath].
  assert (Hname : (if String.eqb n "" then filepath.Base p else n) ≠ "").
  { destruct (String.eqb_spec n ""); [apply Base_nonempty | assumption]. }
  split; [assumption|]. split.
  - destruct (String.eqb_spec g ""); [|assumption].
    apply Join_nonempty, Exists_cons_hd. discriminate.
  - destruct (String.eqb_spec pp ""); [|assumption].
    apply Join_nonempty, Exists_cons_tl, Exists_cons_hd. discriminate.
Qed.

(** Setting [-n] to the empty string with two dashes. *)
Lemma parseAll_empty_name_dashes (formal : list string) (values : gmap string string)
      (a1 a2 : gset string) (rest : list string) :
  existsb (String.eqb "n") formal = true →
  values !! "n" = Some "" →
  outcome (flag.parseAll formal values a1 ("--n" :: "" :: rest))
  = outcome (flag.parseAll formal values a2 rest)
  ∧ outcome (flag.parseAll formal values a1 ("--n=" :: rest))
    = outcome (flag.parseAll formal values a2 rest).
Proof.
  intros Hf Hn. cbn [flag.parseAll].
  change (flag.classify "--n") with (flag.IsFlag "n" None).
  change (flag.classify "--n=") with (flag.IsFlag "n" (Some "")).
  cbv iota beta. rewrite Hf, insert_id by assumption.
  split; apply parseAll_actual.
Qed.

(** [NewInitTask] depends on the parsing through its outcome only. *)
Lemma InitRoot_NewInitTask_outcome (a b : list string) (w : World) :
  outcome (InitRoot_parse w a) = outcome (InitRoot_parse w b) →
  InitRoot.NewInitTask a w = InitRoot.NewInitTask b w.
Proof.
  intros H. rewrite !InitRoot_NewInitTask_eq.
  destruct (InitRoot_parse w a), (InitRoot_parse w b);
    cbn in H; try discriminate; injection H as <-; try subst; reflexivity.
Qed.

Lemma InitGoPath_NewInitTask_outcome (a b : list string) (w : World) :
  outcome (InitGoPath_parse a) = outcome (InitGoPath_parse b) →
  InitGoPath.NewInitTask a w = InitGoPath.NewInitTask b w.
Proof.
  intros H. rewrite !InitGoPath_NewInitTask_eq.
  destruct (InitGoPath_parse a), (InitGoPath_parse b);
    cbn in H; try discriminate; injection H as <-; try subst; reflexivity.
Qed.

(** After arguments that are read as flags and leave [-n] empty, the
    four ways to give [-n] the empty string are as giving nothing. *)
Lemma readAsFlags_empty_name (formal : list string) (values values' : gmap string string)
      (pre rest : list string) (more : list string) :
  existsb (String.eqb "n") formal = true →
  readAsFlags formal values pre values' →
  values' !! "n" = Some "" →
  In more [["-n"; ""]; ["-n="]; ["--n"; ""]; ["--n="]] →
  outcome (flag.parseAll formal values ∅ (pre ++ more ++ rest))
  = outcome (flag.parseAll formal values ∅ (pre ++ rest)).
Proof.
  intros Hf Hpre Hn Hin.
  destruct (Hpre (more ++ rest) ∅) as [a1 ->].
  destruct (Hpre rest ∅) as [a2 ->].
  destruct (parseAll_empty_name formal values' a1 a2 rest Hf Hn) as [H1 H2].
  destruct (parseAll_empty_name_dashes formal values' a1 a2 rest Hf Hn) as [H3 H4].
  cbn [In] in Hin. destruct Hin as [<-|[<-|[<-|[<-|[]]]]]; assumption.
Qed.

(** * The claims *)

(** C1 (amended): in the variant with a root directory, for every import
    path and every combination of the overrides [-g] and [-n], the task
    that [NewInitTask] builds has its workspace path equal to the root
    joined with the project name, and its project path equal to the
    workspace path joined with [src/<import path>].  In the variant with
    a GOPATH, [-g] replaces the workspace path itself and [-p] the
    project path; when they hold nothing the workspace path is
    [/work/gofml] joined with the project name and the project path is
    the workspace path joined with [src/<import path>]. *)
Theorem C1_derived_paths :
  (∀ (args : list string) (w : World) values actual p rest,
      InitRoot_parse w args = flag.Flags values actual (p :: rest) →
      ∃ t, InitRoot.NewInitTask args w = (Return (Built (asTask t)), w)
           ∧ InitRoot.ImportPath t = p
           ∧ InitRoot.GoFmlRoot t = held values "g"
           ∧ InitRoot.ProjectName t
             = (if String.eqb (held values "n") "" then filepath.Base p
                else held values "n")
           ∧ InitRoot.GoFmlPath t
             = filepath.Join [InitRoot.GoFmlRoot t; InitRoot.ProjectName t]
           ∧ InitRoot.ProjectPath t
             = filepath.Join [InitRoot.GoFmlPath t; "src/" +:+ p])
  ∧ (∀ (args : list string) (w : World) values actual p rest,
      InitGoPath_parse args = flag.Flags values actual (p :: rest) →
      ∃ t, InitGoPath.NewInitTask args w = (Return (Built (asTask t)), w)
           ∧ InitGoPath.ImportPath t = p
           ∧ InitGoPath.ProjectName t
             = (if String.eqb (held values "n") "" then filepath.Base p
                else held values "n")
           ∧ InitGoPath.GoPath t
             = (if String.eqb (held values "g") ""
                then filepath.Join ["/work/gofml"; InitGoPath.ProjectName t]
                else held values "g")
           ∧ InitGoPath.ProjectPath t
             = (if String.eqb (held values "p") ""
                then filepath.Join [InitGoPath.GoPath t; "src/" +:+ p]
                else held values "p")).
Proof.
  split; intros args w values actual p rest Hparse.
  - eexists. rewrite InitRoot_NewInitTask_eq, Hparse.
    split; [reflexivity|]. unfold InitRoot_task.
    cbn [InitRoot.ImportPath InitRoot.ProjectName InitRoot.GoFmlRoot InitRoot.GoFmlPath
         InitRoot.ProjectPath].
    repeat split; apply Join_src.
  - eexists. rewrite InitGoPath_NewInitTask_eq, Hparse.
    split; [reflexivity|]. unfold InitGoPath_task.
    cbn [InitGoPath.ImportPath InitGoPath.ProjectName InitGoPath.GoPath
         InitGoPath.ProjectPath].
    repeat split; destruct (String.eqb (held values "p") ""); solve [apply Join_src | reflexivity].
Qed.

Lemma C1_witness :
  ∃ t, InitRoot.NewInitTask ["-g"; "/srv/ws"; "-n"; "bar"; "example.com/foo"] emptyWorld
       = (Return (Built (asTask t)), emptyWorld)
       ∧ InitRoot.ImportPath t = "example.com/foo"
       ∧ InitRoot.GoFmlRoot t = "/srv/ws"
       ∧ InitRoot.ProjectName t = "bar"
       ∧ InitRoot.GoFmlPath t = "/srv/ws/bar"
       ∧ InitRoot.ProjectPath t = "/srv/ws/bar/src/example.com/foo".
Proof.
  destruct (proj1 C1_derived_paths
              ["-g"; "/srv/ws"; "-n"; "bar"; "example.com/foo"] emptyWorld
              (<["n" := "bar"]> (<["g" := "/srv/ws"]> (InitRoot_values "~/gofml")))
              ({["n"]} ∪ ({["g"]} ∪ ∅)) "example.com/foo" [] eq_refl)
    as (t & Hnew & Hp & Hg & Hn & Hws & Hpp).
  exists t. split; [exact Hnew|]. split; [exact Hp|]. split; [exact Hg|].
  split; [exact Hn|]. rewrite Hpp, Hws, Hg, Hn. repeat split.
Defined.

(** In the variant with a GOPATH, [-g /x] makes [/x] the workspace path,
    not [/x] joined with the project name. *)
Lemma C1_counterexample :
  ∃ t, InitGoPath.NewInitTask ["-g"; "/x"; "example.com/foo"] emptyWorld
       = (Return (Built (asTask t)), emptyWorld)
       ∧ InitGoPath.ProjectName t = "foo"
       ∧ InitGoPath.GoPath t = "/x"
       ∧ InitGoPath.GoPath t ≠ filepath.Join ["/x"; InitGoPath.ProjectName t].
Proof.
  eexists. split; [vm_compute; reflexivity|]. repeat split. discriminate.
Qed.

(** C2 (amended): when [-g] is not given, the root of the variant with
    a root directory is the value of the environment variable
    [GOFMLROOT] when that value is not empty, and the fixed path
    [~/gofml] when the variable is unset or empty; the variant with a
    GOPATH reads no environment variable and its workspace path is
    [/work/gofml] joined with the project name. *)
Theorem C2_default_root :
  (∀ (args : list string) (w : World) values actual p rest,
      InitRoot_parse w args = flag.Flags values actual (p :: rest) →
      "g" ∉ actual →
      ∃ t, InitRoot.NewInitTask args w = (Return (Built (asTask t)), w)
           ∧ InitRoot.GoFmlRoot t
             = match environ w !! "GOFMLROOT" with
               | Some value => if String.eqb value "" then "~/gofml" else value
               | None => "~/gofml"
               end)
  ∧ (∀ (args : list string) (w : World) values actual p rest,
      InitGoPath_parse args = flag.Flags values actual (p :: rest) →
      "g" ∉ actual →
      ∃ t, InitGoPath.NewInitTask args w = (Return (Built (asTask t)), w)
           ∧ InitGoPath.GoPath t
             = filepath.Join ["/work/gofml"; InitGoPath.ProjectName t]).
Proof.
  split; intros args w values actual p rest Hparse Hg.
  - eexists. rewrite InitRoot_NewInitTask_eq, Hparse. split; [reflexivity|].
    unfold InitRoot_task. cbn [InitRoot.GoFmlRoot].
    destruct (parseAll_unset _ "g" _ _ _ _ _ _ Hparse Hg) as [Hv _].
    unfold held. rewrite Hv, InitRoot_values_g.
    cbn [default]. unfold rootOf, os.Getenv.
    destruct (environ w !! "GOFMLROOT"); reflexivity.
  - eexists. rewrite InitGoPath_NewInitTask_eq, Hparse. split; [reflexivity|].
    unfold InitGoPath_task. cbn [InitGoPath.GoPath InitGoPath.ProjectName].
    destruct (parseAll_unset _ "g" _ _ _ _ _ _ Hparse Hg) as [Hv _].
    unfold held. rewrite Hv, InitGoPath_values_g. reflexivity.
Qed.

Lemma C2_witness :
  ∃ t, InitRoot.NewInitTask ["-n"; "bar"; "example.com/foo"] (worldWithRoot "/srv/ws")
       = (Return (Built (asTask t)), worldWithRoot "/srv/ws")
       ∧ InitRoot.GoFmlRoot t = "/srv/ws".
Proof.
  refine (proj1 C2_default_root ["-n"; "bar"; "example.com/foo"] (worldWithRoot "/srv/ws")
            (<["n" := "bar"]> (InitRoot_values "/srv/ws")) ({["n"]} ∪ ∅)
            "example.com/foo" [] eq_refl _).
  decided.
Defined.

(** With [GOFMLROOT] set to the empty string the variable is set, and
    the root is the fixed path, not the value of the variable. *)
Lemma C2_counterexample :
  environ (worldWithRoot "") !! "GOFMLROOT" = Some ""
  ∧ ∃ t, InitRoot.NewInitTask ["example.com/foo"] (worldWithRoot "")
         = (Return (Built (asTask t)), worldWithRoot "")
         ∧ InitRoot.GoFmlRoot t = "~/gofml"
         ∧ InitRoot.GoFmlRoot t ≠ "".
Proof.
  split; [reflexivity|]. eexists. split; [vm_compute; reflexivity|].
  split; [reflexivity | discriminate].
Qed.

(** C3: for every import path [p], when no [-n] is given, the project
    name that [NewInitTask] derives is the final path component of [p],
    in both variants. *)
Theorem C3_project_name :
  (∀ (args : list string) (w : World) values actual p rest,
      InitRoot_parse w args = flag.Flags values actual (p :: rest) →
      "n" ∉ actual →
      ∃ t, InitRoot.NewInitTask args w = (Return (Built (asTask t)), w)
           ∧ InitRoot.ImportPath t = p
           ∧ InitRoot.ProjectName t = finalComponent p)
  ∧ (∀ (args : list string) (w : World) values actual p rest,
      InitGoPath_parse args = flag.Flags values actual (p :: rest) →
      "n" ∉ actual →
      ∃ t, InitGoPath.NewInitTask args w = (Return (Built (asTask t)), w)
           ∧ InitGoPath.ImportPath t = p
           ∧ InitGoPath.ProjectName t = finalComponent p).
Proof.
  split; intros args w values actual p rest Hparse Hn;
    destruct (parseAll_unset _ "n" _ _ _ _ _ _ Hparse Hn) as [Hv _].
  - eexists. rewrite InitRoot_NewInitTask_eq, Hparse. split; [reflexivity|].
    unfold InitRoot_task. cbn [InitRoot.ImportPath InitRoot.ProjectName].
    split; [reflexivity|]. unfold held. rewrite Hv, InitRoot_values_n.
    apply Base_finalComponent.
  - eexists. rewrite InitGoPath_NewInitTask_eq, Hparse. split; [reflexivity|].
    unfold InitGoPath_task. cbn [InitGoPath.ImportPath InitGoPath.ProjectName].
    split; [reflexivity|]. unfold held. rewrite Hv, InitGoPath_values_n.
    apply Base_finalComponent.
Qed.

Lemma C3_witness :
  ∃ t, InitRoot.NewInitTask ["-g"; "/srv/ws"; "example.com/foo"] emptyWorld
       = (Return (Built (asTask t)), emptyWorld)
       ∧ InitRoot.ImportPath t = "example.com/foo"
       ∧ InitRoot.ProjectName t = finalComponent "example.com/foo".
Proof.
  refine (proj1 C3_project_name ["-g"; "/srv/ws"; "example.com/foo"] emptyWorld
            (<["g" := "/srv/ws"]> (InitRoot_values "~/gofml")) ({["g"]} ∪ ∅)
            "example.com/foo" [] eq_refl _).
  decided.
Defined.

(** C4 (amended): for every run of the task that returns no error, the
    one file written is [.envrc] in the workspace path, whatever was
    there before, and its text is the three export lines of the script:
    [GOFML] set to the import path, [GOPATH] set to the workspace path,
    and [PATH] with the [bin] directory of [GOPATH] in front.  When the
    import path and the workspace path hold no line feed, these are the
    only lines of the file that begin with [export].  This holds in
    both variants. *)
Theorem C4_envrc_written :
  (∀ (t : InitRoot.InitTask) (w w' : World),
      InitRoot.InitTask_Run t w = (None, w') →
      let name := filepath.Join [InitRoot.GoFmlPath t; ".envrc"] in
      let data := scriptText (InitRoot.ImportPath t) (InitRoot.GoFmlPath t) in
      files w' !! name = Some (Regular true data)
      ∧ (∃ r2, calls w' = calls w ++ [(CallMkdirAll (InitRoot.ProjectPath t), None);
                                      (CallRemove name, r2);
                                      (CallWriteFile name data, None)])
      ∧ (oneLine (InitRoot.ImportPath t) = true →
         oneLine (InitRoot.GoFmlPath t) = true →
         exportLines data
         = [ "export GOFML=" +:+ InitRoot.ImportPath t;
             "export GOPATH=" +:+ InitRoot.GoFmlPath t;
             "export PATH=" +:+ Bytes.dq +:+ "$GOPATH/bin:$PATH" +:+ Bytes.dq ]))
  ∧ (∀ (t : InitGoPath.InitTask) (w w' : World),
      InitGoPath.InitTask_Run t w = (None, w') →
      let name := filepath.Join [InitGoPath.GoPath t; ".envrc"] in
      let data := scriptText (InitGoPath.ImportPath t) (InitGoPath.GoPath t) in
      files w' !! name = Some (Regular true data)
      ∧ (∃ r2, calls w' = calls w ++ [(CallMkdirAll (InitGoPath.ProjectPath t), None);
                                      (CallRemove name, r2);
                                      (CallWriteFile name data, None)])
      ∧ (oneLine (InitGoPath.ImportPath t) = true →
         oneLine (InitGoPath.GoPath t) = true →
         exportLines data
         = [ "export GOFML=" +:+ InitGoPath.ImportPath t;
             "export GOPATH=" +:+ InitGoPath.GoPath t;
             "export PATH=" +:+ Bytes.dq +:+ "$GOPATH/bin:$PATH" +:+ Bytes.dq ])).
Proof.
  split; intros t w w' Hrun name data; subst name data.
  - destruct (InitRoot_Run_files t w) as (Hr & Hf & Hc & _). rewrite Hrun in Hr, Hf, Hc.
    cbn [fst snd] in Hr, Hf, Hc.
    destruct (runFiles _ _ _ (files w)) as [[r fs'] log] eqn:E1.
    cbn [fst snd] in Hr, Hf, Hc. subst r fs'.
    destruct (runFiles_success _ _ _ _ _ _ E1) as (He & [r2 Hlog] & _).
    rewrite InitRoot_script_text in He, Hlog. fold (InitRoot.envrc t).
    split; [exact He|]. split; [exists r2; now rewrite Hc, Hlog|].
    apply exportLines_scriptText.
  - destruct (InitGoPath_Run_files t w) as (Hr & Hf & Hc & _). rewrite Hrun in Hr, Hf, Hc.
    cbn [fst snd] in Hr, Hf, Hc.
    destruct (runFiles _ _ _ (files w)) as [[r fs'] log] eqn:E1.
    cbn [fst snd] in Hr, Hf, Hc. subst r fs'.
    destruct (runFiles_success _ _ _ _ _ _ E1) as (He & [r2 Hlog] & _).
    rewrite InitGoPath_script_text in He, Hlog. fold (InitGoPath.envrc t).
    split; [exact He|]. split; [exists r2; now rewrite Hc, Hlog|].
    apply exportLines_scriptText.
Qed.

Lemma C4_witness :
  let t := InitRoot_task "/srv" "" "example.com/foo" in
  let w' := (InitRoot.InitTask_Run t usedWorld).2 in
  let data := scriptText "example.com/foo" "/srv/foo" in
  files w' !! "/srv/foo/.envrc" = Some (Regular true data)
  ∧ (∃ r2, calls w' = calls usedWorld
                      ++ [(CallMkdirAll "/srv/foo/src/example.com/foo", None);
                          (CallRemove "/srv/foo/.envrc", r2);
                          (CallWriteFile "/srv/foo/.envrc" data, None)])
  ∧ exportLines data
    = [ "export GOFML=example.com/foo";
        "export GOPATH=/srv/foo";
        "export PATH=" +:+ Bytes.dq +:+ "$GOPATH/bin:$PATH" +:+ Bytes.dq ].
Proof.
  intros t w' data.
  destruct (proj1 C4_envrc_written t usedWorld w') as (Hfile & Hcalls & Hlines).
  - vm_compute. reflexivity.
  - split; [exact Hfile|]. split; [exact Hcalls|].
    apply Hlines; vm_compute; reflexivity.
Defined.

(** An import path that holds a line feed followed by an export
    statement: the run succeeds and the script has four lines that
    begin with [export]. *)
Lemma C4_counterexample :
  let importPath := "x" +:+ Bytes.nl +:+ "export EVIL=1/foo" in
  let r := MainRoot "help [command]" "show help" "" noHelp (fun _ => "0x4a5b20")
                    ["init"; importPath] emptyWorld in
  r.1 = 0
  ∧ ∃ data, files r.2 !! "~/gofml/foo/.envrc" = Some (Regular true data)
            ∧ exportLines data
              = [ "export GOFML=x";
                  "export EVIL=1/foo";
                  "export GOPATH=~/gofml/foo";
                  "export PATH=" +:+ Bytes.dq +:+ "$GOPATH/bin:$PATH" +:+ Bytes.dq ].
Proof.
  split; [vm_compute; reflexivity|].
  eexists. split; vm_compute; reflexivity.
Qed.

(** C5 (amended): what [init] does without an import path depends on
    how its flags parse.  When the flags parse and no argument is left
    after them, [NewInitTask] returns the error [no import path
    specified] and no task; [Main] then writes one message on standard
    error, which begins with [gofml: failed to parse command] and ends
    the line, and nothing else (the usage is not rendered), exits with
    status 1, and makes no call on the file system.  When the flags do
    not parse ([-n] without a value, a flag that is not defined, [-h]),
    the [flag] package ends the process inside [NewInitTask]: its
    message and the usage of the [init] flags are on standard error,
    the status is 2, or 0 when help was asked for, and no call is made
    on the file system.  In every other case an argument is left and a
    task is built.  This holds in both variants. *)
Theorem C5_missing_import_path :
  (∀ (helpUsage helpShort helpLong : string)
     (helpGetTask : list string -> IO (Proc TaskResult))
     (funcAddress : Command -> string)
     (args : list string) (w : World),
      match InitRoot_parse w args with
      | flag.Flags _ _ [] =>
          InitRoot.NewInitTask args w
          = (Return (NotBuilt (errorString "no import path specified")), w)
          ∧ ∃ shown,
              MainRoot helpUsage helpShort helpLong helpGetTask funcAddress ("init" :: args) w
              = (1, withStderr w
                      [Text ("gofml: failed to parse command " +:+ shown +:+ Bytes.nl)])
      | flag.Flags _ _ (_ :: _) =>
          ∃ t : InitRoot.InitTask,
            InitRoot.NewInitTask args w = (Return (Built (asTask t)), w)
      | flag.Failed err =>
          let code := match err with flag.ErrHelp => 0 | flag.ErrFlag _ => 2 end in
          InitRoot.NewInitTask args w = (Exit code, withStderr w (flagFailure err).1)
          ∧ MainRoot helpUsage helpShort helpLong helpGetTask funcAddress ("init" :: args) w
            = (code, withStderr w (flagFailure err).1)
      end)
  ∧ (∀ (helpUsage helpShort helpLong : string)
       (helpGetTask : list string -> IO (Proc TaskResult))
       (funcAddress : Command -> string)
       (args : list string) (w : World),
      match InitGoPath_parse args with
      | flag.Flags _ _ [] =>
          InitGoPath.NewInitTask args w
          = (Return (NotBuilt (errorString "no import path specified")), w)
          ∧ ∃ shown,
              MainGoPath helpUsage helpShort helpLong helpGetTask funcAddress ("init" :: args) w
              = (1, withStderr w
                      [Text ("gofml: failed to parse command " +:+ shown +:+ Bytes.nl)])
      | flag.Flags _ _ (_ :: _) =>
          ∃ t : InitGoPath.InitTask,
            InitGoPath.NewInitTask args w = (Return (Built (asTask t)), w)
      | flag.Failed err =>
          let code := match err with flag.ErrHelp => 0 | flag.ErrFlag _ => 2 end in
          InitGoPath.NewInitTask args w = (Exit code, withStderr w (flagFailure err).1)
          ∧ MainGoPath helpUsage helpShort helpLong helpGetTask funcAddress ("init" :: args) w
            = (code, withStderr w (flagFailure err).1)
      end).
Proof.
  split; intros helpUsage helpShort helpLong helpGetTask funcAddress args w.
  - rewrite MainRoot_init_eq, InitRoot_NewInitTask_eq.
    destruct (InitRoot_parse w args) as [values actual [|p rest]|[|msg]].
    + split; [reflexivity|]. eexists. reflexivity.
    + eexists. reflexivity.
    + split; reflexivity.
    + split; reflexivity.
  - rewrite MainGoPath_init_eq, InitGoPath_NewInitTask_eq.
    destruct (InitGoPath_parse args) as [values actual [|p rest]|[|msg]].
    + split; [reflexivity|]. eexists. reflexivity.
    + eexists. reflexivity.
    + split; reflexivity.
    + split; reflexivity.
Qed.

(** With [-n bar] and nothing after it, and with [-n] alone. *)
Lemma C5_witness :
  (InitRoot.NewInitTask ["-n"; "bar"] emptyWorld
   = (Return (NotBuilt (errorString "no import path specified")), emptyWorld)
   ∧ ∃ shown,
       MainRoot "help [command]" "show help" "" noHelp (fun _ => "0x4a5b20")
                ["init"; "-n"; "bar"] emptyWorld
       = (1, withStderr emptyWorld
               [Text ("gofml: failed to parse command " +:+ shown +:+ Bytes.nl)]))
  ∧ (InitGoPath.NewInitTask ["-n"] emptyWorld
     = (Exit 2, withStderr emptyWorld
                  [Text ("flag needs an argument: -n" +:+ Bytes.nl);
                   Text ("Usage of init:" +:+ Bytes.nl); PrintDefaults "init"])
     ∧ MainGoPath "help [command]" "show help" "" noHelp (fun _ => "0x4a5b20")
                  ["init"; "-n"] emptyWorld
       = (2, withStderr emptyWorld
               [Text ("flag needs an argument: -n" +:+ Bytes.nl);
                Text ("Usage of init:" +:+ Bytes.nl); PrintDefaults "init"])).
Proof.
  split.
  - exact (proj1 C5_missing_import_path "help [command]" "show help" "" noHelp
             (fun _ => "0x4a5b20") ["-n"; "bar"] emptyWorld).
  - exact (proj2 C5_missing_import_path "help [command]" "show help" "" noHelp
             (fun _ => "0x4a5b20") ["-n"] emptyWorld).
Defined.

(** With [init] alone the process exits with status 1, and what it
    wrote on standard error does not hold the usage text. *)
Lemma C5_counterexample :
  let r := MainRoot "help [command]" "show help" "" noHelp (fun _ => "0x4a5b20")
                    ["init"] emptyWorld in
  r.1 = 1
  ∧ Bytes.contains
      (usageText (InitRoot.initCommand (rootOf emptyWorld)) "help [command]" "show help" ""
                 noHelp)
      (textOf (stderr r.2)) = false.
Proof. vm_compute. split; reflexivity. Qed.

(** C6 (amended): during [Run], a failure of [MkdirAll] ends the task
    with that error before any other call is made, and otherwise the
    result is that of [WriteFile]; the files stay as the last call left
    them, with no rollback.  What [Remove] returns is dropped whatever
    the failure is, "file does not exist" or another: the script is
    written next in every case.  This holds in both variants. *)
Theorem C6_failures :
  (∀ (t : InitRoot.InitTask) (w : World),
      let r := InitRoot.InitTask_Run t w in
      (∀ fs1 err,
          os.MkdirAll (InitRoot.ProjectPath t) (files w) = (fs1, Some err) →
          r.1 = Some err ∧ files r.2 = fs1
          ∧ calls r.2 = calls w ++ [(CallMkdirAll (InitRoot.ProjectPath t), Some err)])
      ∧ (∀ fs1 fs2 fs3 r2 r3,
          os.MkdirAll (InitRoot.ProjectPath t) (files w) = (fs1, None) →
          os.Remove (InitRoot.envrc t) fs1 = (fs2, r2) →
          os.WriteFile (InitRoot.envrc t) (template.Execute InitRoot.script t) fs2
          = (fs3, r3) →
          r.1 = r3 ∧ files r.2 = fs3
          ∧ calls r.2
            = calls w ++ [(CallMkdirAll (InitRoot.ProjectPath t), None);
                          (CallRemove (InitRoot.envrc t), r2);
                          (CallWriteFile (InitRoot.envrc t)
                                         (template.Execute InitRoot.script t), r3)]))
  ∧ (∀ (t : InitGoPath.InitTask) (w : World),
      let r := InitGoPath.InitTask_Run t w in
      (∀ fs1 err,
          os.MkdirAll (InitGoPath.ProjectPath t) (files w) = (fs1, Some err) →
          r.1 = Some err ∧ files r.2 = fs1
          ∧ calls r.2 = calls w ++ [(CallMkdirAll (InitGoPath.ProjectPath t), Some err)])
      ∧ (∀ fs1 fs2 fs3 r2 r3,
          os.MkdirAll (InitGoPath.ProjectPath t) (files w) = (fs1, None) →
          os.Remove (InitGoPath.envrc t) fs1 = (fs2, r2) →
          os.WriteFile (InitGoPath.envrc t) (template.Execute InitGoPath.script t) fs2
          = (fs3, r3) →
          r.1 = r3 ∧ files r.2 = fs3
          ∧ calls r.2
            = calls w ++ [(CallMkdirAll (InitGoPath.ProjectPath t), None);
                          (CallRemove (InitGoPath.envrc t), r2);
                          (CallWriteFile (InitGoPath.envrc t)
                                         (template.Execute InitGoPath.script t), r3)])).
Proof.
  split; intros t w r; subst r.
  - destruct (InitRoot_Run_files t w) as (Hr & Hf & Hc & _).
    split.
    + intros fs1 err H1. rewrite (runFiles_mkdir_failed _ _ _ _ _ _ H1) in Hr, Hf, Hc. auto.
    + intros fs1 fs2 fs3 r2 r3 H1 H2 H3.
      rewrite (runFiles_written _ _ _ _ _ _ _ _ _ H1 H2 H3) in Hr, Hf, Hc. auto.
  - destruct (InitGoPath_Run_files t w) as (Hr & Hf & Hc & _).
    split.
    + intros fs1 err H1. rewrite (runFiles_mkdir_failed _ _ _ _ _ _ H1) in Hr, Hf, Hc. auto.
    + intros fs1 fs2 fs3 r2 r3 H1 H2 H3.
      rewrite (runFiles_written _ _ _ _ _ _ _ _ _ H1 H2 H3) in Hr, Hf, Hc. auto.
Qed.

Lemma C6_witness :
  let t := InitRoot_task "/srv" "" "example.com/foo" in
  (let r := InitRoot.InitTask_Run t blockedWorld in
   r.1 = Some (PathError "mkdir" "/srv/foo" ENOTDIR)
   ∧ files r.2 = files blockedWorld
   ∧ calls r.2
     = calls blockedWorld
       ++ [(CallMkdirAll (InitRoot.ProjectPath t),
            Some (PathError "mkdir" "/srv/foo" ENOTDIR))])
  ∧ (let r := InitRoot.InitTask_Run t emptyWorld in
     let made := (os.MkdirAll (InitRoot.ProjectPath t) (files emptyWorld)).1 in
     let written := <[InitRoot.envrc t := Regular true (template.Execute InitRoot.script t)]>
                      made in
     r.1 = None
     ∧ files r.2 = written
     ∧ calls r.2
       = calls emptyWorld
         ++ [(CallMkdirAll (InitRoot.ProjectPath t), None);
             (CallRemove (InitRoot.envrc t),
              Some (PathError "remove" (InitRoot.envrc t) ENOENT));
             (CallWriteFile (InitRoot.envrc t) (template.Execute InitRoot.script t),
              None)]).
Proof.
  intros t. split.
  - apply (proj1 (proj1 C6_failures t blockedWorld) (files blockedWorld)
                 (PathError "mkdir" "/srv/foo" ENOTDIR)).
    vm_compute. reflexivity.
  - intros r made written.
    apply (proj2 (proj1 C6_failures t emptyWorld) made made written
                 (Some (PathError "remove" (InitRoot.envrc t) ENOENT)) None);
      vm_compute; reflexivity.
Defined.

(** Removing the previous script fails with "permission denied", which
    is not "file does not exist"; the task goes on, writes the script
    and returns no error. *)
Lemma C6_counterexample :
  let t := InitRoot_task "/srv" "" "example.com/foo" in
  let r := InitRoot.InitTask_Run t lockedWorld in
  r.1 = None
  ∧ calls r.2
    = [(CallMkdirAll "/srv/foo/src/example.com/foo", None);
       (CallRemove "/srv/foo/.envrc", Some (PathError "remove" "/srv/foo/.envrc" EACCES));
       (CallWriteFile "/srv/foo/.envrc" (scriptText "example.com/foo" "/srv/foo"), None)].
Proof. vm_compute. split; reflexivity. Qed.




(** C8 (amended): for every argument vector from which the parsing of
    the flags of the process, [flag.Parse], leaves a first argument
    that is not a registered command name, [Main] prints an error that
    names the unrecognized command, renders the usage, both on standard
    error, exits with status 1, and leaves the files untouched: it makes
    no call on the file system. *)
Theorem C8_unrecognized_command
        (initCommand : Command) (helpUsage helpShort helpLong : string)
        (helpGetTask : list string -> IO (Proc TaskResult))
        (funcAddress : Command -> string)
        (argv : list string) (values : gmap string string) (actual : gset string)
        (c : string) (rest : list string) (w : World) :
  flag.parseAll [] ∅ ∅ argv = flag.Flags values actual (c :: rest) →
  commands initCommand helpUsage helpShort helpLong helpGetTask !! c = None →
  let r := Main initCommand helpUsage helpShort helpLong helpGetTask funcAddress argv w in
  r.1 = 1
  ∧ stderr r.2
    = stderr w ++ [Text ("gofml: unrecognized command " +:+ c +:+ Bytes.nl);
                   Text (usageText initCommand helpUsage helpShort helpLong helpGetTask)]
  ∧ files r.2 = files w
  ∧ calls r.2 = calls w
  ∧ stdout r.2 = stdout w.
Proof.
  intros Hparse Hcmd r. subst r.
  rewrite (Main_not_found _ _ _ _ _ _ argv w values actual c rest Hparse Hcmd).
  cbn [fst snd withStderr stderr files calls stdout]. auto.
Qed.

Lemma C8_witness :
  let r := Main (InitRoot.initCommand "~/gofml") "help [command]" "show help" "" noHelp
                (fun _ => "0x4a5b20") ["bogus"; "example.com/foo"] emptyWorld in
  r.1 = 1
  ∧ stderr r.2
    = stderr emptyWorld
      ++ [Text ("gofml: unrecognized command " +:+ "bogus" +:+ Bytes.nl);
          Text (usageText (InitRoot.initCommand "~/gofml") "help [command]" "show help" ""
                          noHelp)]
  ∧ files r.2 = files emptyWorld
  ∧ calls r.2 = calls emptyWorld
  ∧ stdout r.2 = stdout emptyWorld.
Proof.
  apply (C8_unrecognized_command (InitRoot.initCommand "~/gofml") "help [command]"
           "show help" "" noHelp (fun _ => "0x4a5b20") ["bogus"; "example.com/foo"]
           ∅ ∅ "bogus" ["example.com/foo"] emptyWorld).
  - reflexivity.
  - vm_compute. reflexivity.
Defined.

(** The first argument [--] is not a registered command name, and yet
    [init] runs: the parsing of the flags drops [--], the process exits
    with status 0, nothing is on standard error, and the three calls on
    the file system are made.  With [-x] first the status is 2, and no
    line names an unrecognized command. *)
Lemma C8_counterexample :
  let main := MainRoot "help [command]" "show help" "" noHelp (fun _ => "0x4a5b20") in
  let r := main ["--"; "init"; "example.com/foo"] emptyWorld in
  let r' := main ["-x"; "example.com/foo"] emptyWorld in
  commands (InitRoot.initCommand "~/gofml") "help [command]" "show help" "" noHelp !! "--"
  = None
  ∧ r.1 = 0
  ∧ stderr r.2 = []
  ∧ map fst (calls r.2)
    = [CallMkdirAll "~/gofml/foo/src/example.com/foo";
       CallRemove "~/gofml/foo/.envrc";
       CallWriteFile "~/gofml/foo/.envrc" (scriptText "example.com/foo" "~/gofml/foo")]
  ∧ r'.1 = 2
  ∧ Bytes.contains "unrecognized command" (textOf (stderr r'.2)) = false.
Proof. vm_compute. repeat split. Qed.

(** C9 (amended): whenever [NewInitTask] returns a task, the project
    name, the workspace path and the project path of the task are not
    empty; it returns an error only when the flags parse and no import
    path is left after them, and the error is that no import path was
    specified.  The construction fails in one more way, import path or
    not: when the flags do not parse, the [flag] package ends the
    process inside [NewInitTask], with status 2, or 0 when help was
    asked for.  This holds in both variants. *)
Theorem C9_fields_nonempty :
  (∀ (args : list string) (w : World),
      match InitRoot.NewInitTask args w with
      | (Return (Built task), w') =>
          w' = w
          ∧ (∃ values actual p rest,
                InitRoot_parse w args = flag.Flags values actual (p :: rest))
          ∧ ∃ t, task = asTask t
                 ∧ InitRoot.ProjectName t ≠ ""
                 ∧ InitRoot.GoFmlPath t ≠ ""
                 ∧ InitRoot.ProjectPath t ≠ ""
      | (Return (NotBuilt err), w') =>
          w' = w
          ∧ err = errorString "no import path specified"
          ∧ ∃ values actual, InitRoot_parse w args = flag.Flags values actual []
      | (Exit code, w') =>
          ∃ err, InitRoot_parse w args = flag.Failed err
                 ∧ code = match err with flag.ErrHelp => 0 | flag.ErrFlag _ => 2 end
                 ∧ w' = withStderr w (flagFailure err).1
      end)
  ∧ (∀ (args : list string) (w : World),
      match InitGoPath.NewInitTask args w with
      | (Return (Built task), w') =>
          w' = w
          ∧ (∃ values actual p rest,
                InitGoPath_parse args = flag.Flags values actual (p :: rest))
          ∧ ∃ t, task = asTask t
                 ∧ InitGoPath.ProjectName t ≠ ""
                 ∧ InitGoPath.GoPath t ≠ ""
                 ∧ InitGoPath.ProjectPath t ≠ ""
      | (Return (NotBuilt err), w') =>
          w' = w
          ∧ err = errorString "no import path specified"
          ∧ ∃ values actual, InitGoPath_parse args = flag.Flags values actual []
      | (Exit code, w') =>
          ∃ err, InitGoPath_parse args = flag.Failed err
                 ∧ code = match err with flag.ErrHelp => 0 | flag.ErrFlag _ => 2 end
                 ∧ w' = withStderr w (flagFailure err).1
      end).
Proof.
  split; intros args w.
  - rewrite InitRoot_NewInitTask_eq.
    destruct (InitRoot_parse w args) as [values actual [|p rest]|[|msg]].
    + split; [reflexivity|]. split; [reflexivity|]. eauto.
    + split; [reflexivity|]. split; [eauto|].
      eexists. split; [reflexivity|]. apply InitRoot_task_nonempty.
    + eexists. split; [reflexivity|]. split; reflexivity.
    + eexists. split; [reflexivity|]. split; reflexivity.
  - rewrite InitGoPath_NewInitTask_eq.
    destruct (InitGoPath_parse args) as [values actual [|p rest]|[|msg]].
    + split; [reflexivity|]. split; [reflexivity|]. eauto.
    + split; [reflexivity|]. split; [eauto|].
      eexists. split; [reflexivity|]. apply InitGoPath_task_nonempty.
    + eexists. split; [reflexivity|]. split; reflexivity.
    + eexists. split; [reflexivity|]. split; reflexivity.
Qed.

Lemma C9_witness :
  emptyWorld = emptyWorld
  ∧ (∃ values actual p rest,
        InitRoot_parse emptyWorld ["example.com/foo"] = flag.Flags values actual (p :: rest))
  ∧ ∃ t, asTask (InitRoot_task "~/gofml" "" "example.com/foo") = asTask t
         ∧ InitRoot.ProjectName t ≠ ""
         ∧ InitRoot.GoFmlPath t ≠ ""
         ∧ InitRoot.ProjectPath t ≠ "".
Proof.
  exact (proj1 C9_fields_nonempty ["example.com/foo"] emptyWorld).
Defined.

(** With [-z example.com/foo] an import path is given, and the
    construction fails all the same: the flag is not defined, and the
    process ends with status 2 in both variants. *)
Lemma C9_counterexample :
  InitRoot.NewInitTask ["-z"; "example.com/foo"] emptyWorld
  = (Exit 2, withStderr emptyWorld
               [Text ("flag provided but not defined: -z" +:+ Bytes.nl);
                Text ("Usage of init:" +:+ Bytes.nl); PrintDefaults "init"])
  ∧ InitGoPath.NewInitTask ["-z"; "example.com/foo"] emptyWorld
    = (Exit 2, withStderr emptyWorld
                 [Text ("flag provided but not defined: -z" +:+ Bytes.nl);
                  Text ("Usage of init:" +:+ Bytes.nl); PrintDefaults "init"]).
Proof. vm_compute. split; reflexivity. Qed.

(** C10: passing [-n] with the empty string as its value gives the same
    result of [NewInitTask], and so the same task fields, as leaving it
    out: the empty string stands for "not set".  This holds wherever
    [-n] stands among the flags, that is after any arguments that are
    read as flags and leave [-n] empty, whatever follows, and for each
    way to write it: [-n ""], [-n=], [--n ""] and [--n=].  And whatever
    the arguments are, a task that is built has a project name that is
    not empty.  This holds in both variants. *)
Theorem C10_empty_name_is_unset :
  (∀ (pre rest more : list string) (values' : gmap string string) (w : World),
      readAsFlags ["g"; "n"] (InitRoot_values (rootOf w)) pre values' →
      values' !! "n" = Some "" →
      In more [["-n"; ""]; ["-n="]; ["--n"; ""]; ["--n="]] →
      InitRoot.NewInitTask (pre ++ more ++ rest) w = InitRoot.NewInitTask (pre ++ rest) w)
  ∧ (∀ (pre rest more : list string) (values' : gmap string string) (w : World),
      readAsFlags ["g"; "n"; "p"] InitGoPath_values pre values' →
      values' !! "n" = Some "" →
      In more [["-n"; ""]; ["-n="]; ["--n"; ""]; ["--n="]] →
      InitGoPath.NewInitTask (pre ++ more ++ rest) w = InitGoPath.NewInitTask (pre ++ rest) w)
  ∧ (∀ (args : list string) (w w' : World) (task : TaskValue),
      InitRoot.NewInitTask args w = (Return (Built task), w') →
      ∃ t, task = asTask t ∧ InitRoot.ProjectName t ≠ "")
  ∧ (∀ (args : list string) (w w' : World) (task : TaskValue),
      InitGoPath.NewInitTask args w = (Return (Built task), w') →
      ∃ t, task = asTask t ∧ InitGoPath.ProjectName t ≠ "").
Proof.
  split; [|split; [|split]].
  - intros pre rest more values' w Hpre Hn Hin.
    apply InitRoot_NewInitTask_outcome. unfold InitRoot_parse.
    now apply (readAsFlags_empty_name _ _ values').
  - intros pre rest more values' w Hpre Hn Hin.
    apply InitGoPath_NewInitTask_outcome. unfold InitGoPath_parse.
    now apply (readAsFlags_empty_name _ _ values').
  - intros args w w' task H. rewrite InitRoot_NewInitTask_eq in H.
    destruct (InitRoot_parse w args) as [values actual [|p rest]|err]; try discriminate.
    injection H as <- <-. eexists. split; [reflexivity|].
    apply InitRoot_task_nonempty.
  - intros args w w' task H. rewrite InitGoPath_NewInitTask_eq in H.
    destruct (InitGoPath_parse args) as [values actual [|p rest]|err]; try discriminate.
    injection H as <- <-. eexists. split; [reflexivity|].
    apply InitGoPath_task_nonempty.
Qed.

(** After [-g=/srv/ws --g /srv/x], and on the task that [-n ""] gives. *)
Lemma C10_witness :
  InitRoot.NewInitTask (["-g=/srv/ws"; "--g"; "/srv/x"] ++ ["-n"; ""] ++ ["example.com/foo"])
                       emptyWorld
  = InitRoot.NewInitTask (["-g=/srv/ws"; "--g"; "/srv/x"] ++ ["example.com/foo"]) emptyWorld
  ∧ ∃ t, asTask (InitRoot_task "~/gofml" "" "example.com/foo") = asTask t
         ∧ InitRoot.ProjectName t ≠ "".
Proof.
  split.
  - apply (proj1 C10_empty_name_is_unset ["-g=/srv/ws"; "--g"; "/srv/x"]
             ["example.com/foo"] ["-n"; ""]
             (<["g" := "/srv/x"]> (<["g" := "/srv/ws"]> (InitRoot_values "~/gofml")))
             emptyWorld).
    + intros rest actual. eexists. reflexivity.
    + reflexivity.
    + left. reflexivity.
  - apply (proj1 (proj2 (proj2 C10_empty_name_is_unset)) ["-n"; ""; "example.com/foo"]
             emptyWorld emptyWorld).
    reflexivity.
Defined.

(** * Further properties of the code *)

(** ** What [Run] prints *)

Lemma InitRoot_Run_stdout (t : InitRoot.InitTask) (w : World) :
  stdout (InitRoot.InitTask_Run t w).2
  = stdout w ++ InitRoot_header t
    ++ runOutput (InitRoot.ProjectPath t) (InitRoot.envrc t)
                 (template.Execute InitRoot.script t) (files w).
Proof.
  unfold InitRoot.InitTask_Run, InitRoot.makeDir, InitRoot.writeEnvrc, InitRoot.printHints,
    InitRoot_header, runOutput, createLine, wroteLine, hintLine, doneLine.
  run_unfold.
  destruct (os.MkdirAll _ _) as [fs1 [e1|]]; cbn [files environ stdout stderr calls fst snd].
  - now rewrite <- !app_assoc.
  - destruct (os.Remove _ _) as [fs2 r2]; cbn [files environ stdout stderr calls fst snd].
    destruct (os.WriteFile _ _ _) as [fs3 [e3|]];
      cbn [files environ stdout stderr calls fst snd]; now rewrite <- !app_assoc.
Qed.

Lemma InitGoPath_Run_stdout (t : InitGoPath.InitTask) (w : World) :
  stdout (InitGoPath.InitTask_Run t w).2
  = stdout w ++ InitGoPath_header t
    ++ runOutput (InitGoPath.ProjectPath t) (InitGoPath.envrc t)
                 (template.Execute InitGoPath.script t) (files w).
Proof.
  unfold InitGoPath.InitTask_Run, InitGoPath.makeDir, InitGoPath.writeEnvrc,
    InitGoPath.printHints,
    InitGoPath_header, runOutput, createLine, wroteLine, hintLine, doneLine.
  run_unfold.
  destruct (os.MkdirAll _ _) as [fs1 [e1|]]; cbn [files environ stdout stderr calls fst snd].
  - now rewrite <- !app_assoc.
  - destruct (os.Remove _ _) as [fs2 r2]; cbn [files environ stdout stderr calls fst snd].
    destruct (os.WriteFile _ _ _) as [fs3 [e3|]];
      cbn [files environ stdout stderr calls fst snd]; now rewrite <- !app_assoc.
Qed.

Lemma runOutput_cases (pp e c : string) (fs : gmap string Node) :
  match runFiles pp e c fs with
  | (Some _, _, [_]) => runOutput pp e c fs = [createLine pp]
  | (Some _, _, [_; _; _]) => runOutput pp e c fs = [createLine pp; wroteLine e]
  | (None, _, [_; _; _]) =>
      runOutput pp e c fs = [createLine pp; wroteLine e; hintLine pp; doneLine]
  | _ => False
  end.
Proof.
  unfold runFiles, runOutput.
  destruct (os.MkdirAll pp fs) as [fs1 [e1|]]; [reflexivity|].
  destruct (os.Remove e fs1) as [fs2 r2].
  destruct (os.WriteFile e c fs2) as [fs3 [e3|]]; reflexivity.
Qed.

(** *** The last line of what was written *)

Section LastLine.
Import Bytes.

Lemma bytesOf_app (a b : list Output) : bytesOf (a ++ b) = bytesOf a ++ bytesOf b.
Proof. apply flat_map_app. Qed.

Lemma split_last_line (X L : list ascii) :
  forallb (fun c => negb (Ascii.eqb c lineFeed)) L = true →
  List.last (split lineFeed [] (X ++ lineFeed :: L)) [] = L.
Proof.
  induction L as [|c L IH] using rev_ind; intros HL.
  - change (X ++ [lineFeed]) with (X ++ [lineFeed]).
    now rewrite split_snoc_sep, last_last.
  - rewrite forallb_app in HL. apply andb_prop in HL as [HL Hc].
    cbn [forallb] in Hc. rewrite andb_true_r in Hc. apply negb_true_iff in Hc.
    rewrite app_comm_cons, app_assoc.
    rewrite split_snoc_other by assumption.
    now rewrite last_last, IH.
Qed.

Lemma lastLineOf_line (X L : list ascii) :
  forallb (fun c => negb (Ascii.eqb c lineFeed)) L = true →
  lastLineOf (X ++ lineFeed :: L ++ [lineFeed]) = L.
Proof.
  intros HL. unfold lastLineOf.
  rewrite app_comm_cons, app_assoc, split_snoc_sep, removelast_last.
  now apply split_last_line.
Qed.

(** The text ends with a line feed. *)
Lemma endsLine_nl : ∃ X, chars nl = X ++ [lineFeed].
Proof. now exists []. Qed.

Lemma endsLine_app (a b : string) :
  (∃ X, chars b = X ++ [lineFeed]) → ∃ X, chars (a +:+ b) = X ++ [lineFeed].
Proof.
  intros [X HX]. exists (chars a ++ X). now rewrite chars_app, HX, app_assoc.
Qed.

(** After a text that ends a line, a line without a line feed in it is
    the last line. *)
Lemma lastLine_snoc (out : list Output) (prev s : string) :
  (∃ X, chars prev = X ++ [lineFeed]) →
  oneLine s = true →
  lastLine (out ++ [Text prev; Text (s +:+ nl)]) = s.
Proof.
  intros [X HX] Hs. unfold lastLine.
  rewrite bytesOf_app. unfold bytesOf at 2. cbn [flat_map].
  rewrite app_nil_r, HX, chars_app.
  change (chars nl) with [lineFeed].
  rewrite <- (app_assoc X), app_assoc. cbn [app].
  rewrite lastLineOf_line by exact Hs. apply text_chars.
Qed.

Lemma oneLine_app (a b : string) : oneLine (a +:+ b) = oneLine a && oneLine b.
Proof. unfold oneLine. now rewrite chars_app, forallb_app. Qed.

(** The last line after a run: [gofml: done] when the run has
    succeeded, and only then when no path holds a line feed. *)
Lemma runOutput_last_line (pre : list Output) (prev pp e c : string)
      (fs : gmap string Node) :
  (∃ X, chars prev = X ++ [lineFeed]) →
  let out := pre ++ Text prev :: runOutput pp e c fs in
  ((runFiles pp e c fs).1.1 = None → lastLine out = "gofml: done")
  ∧ (oneLine pp = true → oneLine e = true →
     lastLine out = "gofml: done" → (runFiles pp e c fs).1.1 = None).
Proof.
  intros Hprev out. subst out. unfold runFiles, runOutput.
  destruct (os.MkdirAll pp fs) as [fs1 [e1|]].
  - cbn [fst]. split; [discriminate|]. intros Hpp _.
    unfold createLine.
    change (Text ("gofml: create project directory " +:+ pp +:+ nl))
      with (Text (("gofml: create project directory " +:+ pp) +:+ nl)).
    rewrite lastLine_snoc; [discriminate | assumption |].
    rewrite oneLine_app, Hpp. reflexivity.
  - destruct (os.Remove e fs1) as [fs2 r2].
    destruct (os.WriteFile e c fs2) as [fs3 [e3|]]; cbn [fst].
    + split; [discriminate|]. intros _ He.
      change (pre ++ [Text prev; createLine pp; wroteLine e])
        with (pre ++ [Text prev] ++ [createLine pp; wroteLine e]).
      rewrite app_assoc. unfold createLine, wroteLine.
      change (Text ("gofml: wrote activation script at " +:+ e +:+ nl))
        with (Text (("gofml: wrote activation script at " +:+ e) +:+ nl)).
      rewrite lastLine_snoc; [discriminate | |].
      * do 2 apply endsLine_app. apply endsLine_nl.
      * rewrite oneLine_app, He. reflexivity.
    + assert (H : lastLine (pre ++ [Text prev; createLine pp; wroteLine e;
                                    hintLine pp; doneLine]) = "gofml: done").
      { change (pre ++ [Text prev; createLine pp; wroteLine e; hintLine pp; doneLine])
          with (pre ++ [Text prev; createLine pp; wroteLine e] ++ [hintLine pp; doneLine]).
        rewrite app_assoc. unfold hintLine, doneLine.
        rewrite lastLine_snoc; [reflexivity | | reflexivity].
        do 3 apply endsLine_app. apply endsLine_nl. }
      split; intros; [exact H | reflexivity].
Qed.

End LastLine.

Lemma InitRoot_Run_last_line (t : InitRoot.InitTask) (w : World) :
  let r := InitRoot.InitTask_Run t w in
  (r.1 = None → lastLine (stdout r.2) = "gofml: done")
  ∧ (oneLine (InitRoot.ProjectPath t) = true →
     oneLine (InitRoot.envrc t) = true →
     lastLine (stdout r.2) = "gofml: done" → r.1 = None).
Proof.
  intros r; subst r.
  destruct (InitRoot_Run_files t w) as (Hr & _).
  rewrite Hr, InitRoot_Run_stdout. unfold InitRoot_header.
  match goal with
  | |- context [stdout w ++ [?a; ?b; ?c; ?d; ?e; Text ?f] ++ ?R] =>
      change (stdout w ++ [a; b; c; d; e; Text f] ++ R)
        with (stdout w ++ [a; b; c; d; e] ++ Text f :: R);
      rewrite (app_assoc (stdout w) [a; b; c; d; e] (Text f :: R))
  end.
  apply runOutput_last_line.
  do 3 apply endsLine_app. apply endsLine_nl.
Qed.

Lemma InitGoPath_Run_last_line (t : InitGoPath.InitTask) (w : World) :
  let r := InitGoPath.InitTask_Run t w in
  (r.1 = None → lastLine (stdout r.2) = "gofml: done")
  ∧ (oneLine (InitGoPath.ProjectPath t) = true →
     oneLine (InitGoPath.envrc t) = true →
     lastLine (stdout r.2) = "gofml: done" → r.1 = None).
Proof.
  intros r; subst r.
  destruct (InitGoPath_Run_files t w) as (Hr & _).
  rewrite Hr, InitGoPath_Run_stdout. unfold InitGoPath_header.
  match goal with
  | |- context [stdout w ++ [?a; ?b; ?c; ?d; Text ?f] ++ ?R] =>
      change (stdout w ++ [a; b; c; d; Text f] ++ R)
        with (stdout w ++ [a; b; c; d] ++ Text f :: R);
      rewrite (app_assoc (stdout w) [a; b; c; d] (Text f :: R))
  end.
  apply runOutput_last_line.
  do 3 apply endsLine_app. apply endsLine_nl.
Qed.

(** X1: a run that returns no error ends its output with the line
    [gofml: done]; and when the project path and the path of the script
    hold no line feed, a run whose output ends with the line [gofml:
    done] has returned no error.  The lines are those of the bytes
    written on standard output.  This holds in both variants. *)
Theorem X1_done_iff_success :
  (∀ (t : InitRoot.InitTask) (w : World),
      let r := InitRoot.InitTask_Run t w in
      (r.1 = None → lastLine (stdout r.2) = "gofml: done")
      ∧ (oneLine (InitRoot.ProjectPath t) = true →
         oneLine (InitRoot.envrc t) = true →
         lastLine (stdout r.2) = "gofml: done" → r.1 = None))
  ∧ (∀ (t : InitGoPath.InitTask) (w : World),
      let r := InitGoPath.InitTask_Run t w in
      (r.1 = None → lastLine (stdout r.2) = "gofml: done")
      ∧ (oneLine (InitGoPath.ProjectPath t) = true →
         oneLine (InitGoPath.envrc t) = true →
         lastLine (stdout r.2) = "gofml: done" → r.1 = None)).
Proof.
  split; intros t w.
  - apply InitRoot_Run_last_line.
  - apply InitGoPath_Run_last_line.
Qed.

(** X2: the lines [gofml: create project directory] and [gofml: wrote
    activation script at] are printed whether or not the call they
    report has failed: when [MkdirAll] fails the output ends with the
    first, when [WriteFile] fails it ends with the second, and [Run]
    returns the error; only a run without error goes on to the hint and
    to [gofml: done].  This holds in both variants. *)
Theorem X2_progress_lines :
  (∀ (t : InitRoot.InitTask) (w : World),
      let r := InitRoot.InitTask_Run t w in
      let pp := InitRoot.ProjectPath t in
      let e := InitRoot.envrc t in
      (∀ fs1 err,
          os.MkdirAll pp (files w) = (fs1, Some err) →
          r.1 = Some err
          ∧ stdout r.2 = stdout w ++ InitRoot_header t ++ [createLine pp])
      ∧ (∀ fs1 fs2 r2 fs3 r3,
          os.MkdirAll pp (files w) = (fs1, None) →
          os.Remove e fs1 = (fs2, r2) →
          os.WriteFile e (template.Execute InitRoot.script t) fs2 = (fs3, r3) →
          r.1 = r3
          ∧ stdout r.2
            = stdout w ++ InitRoot_header t ++ [createLine pp; wroteLine e]
              ++ match r3 with
                 | Some _ => []
                 | None => [hintLine pp; doneLine]
                 end))
  ∧ (∀ (t : InitGoPath.InitTask) (w : World),
      let r := InitGoPath.InitTask_Run t w in
      let pp := InitGoPath.ProjectPath t in
      let e := InitGoPath.envrc t in
      (∀ fs1 err,
          os.MkdirAll pp (files w) = (fs1, Some err) →
          r.1 = Some err
          ∧ stdout r.2 = stdout w ++ InitGoPath_header t ++ [createLine pp])
      ∧ (∀ fs1 fs2 r2 fs3 r3,
          os.MkdirAll pp (files w) = (fs1, None) →
          os.Remove e fs1 = (fs2, r2) →
          os.WriteFile e (template.Execute InitGoPath.script t) fs2 = (fs3, r3) →
          r.1 = r3
          ∧ stdout r.2
            = stdout w ++ InitGoPath_header t ++ [createLine pp; wroteLine e]
              ++ match r3 with
                 | Some _ => []
                 | None => [hintLine pp; doneLine]
                 end)).
Proof.
  split; intros t w r pp e; subst r pp e.
  - destruct (InitRoot_Run_files t w) as (Hr & _).
    rewrite Hr, InitRoot_Run_stdout. unfold runFiles, runOutput. split.
    + intros fs1 err ->. auto.
    + intros fs1 fs2 r2 fs3 r3 -> -> ->. split; [reflexivity|]. now destruct r3.
  - destruct (InitGoPath_Run_files t w) as (Hr & _).
    rewrite Hr, InitGoPath_Run_stdout. unfold runFiles, runOutput. split.
    + intros fs1 err ->. auto.
    + intros fs1 fs2 r2 fs3 r3 -> -> ->. split; [reflexivity|]. now destruct r3.
Qed.

Lemma X2_witness :
  let t := InitRoot_task "/srv" "" "example.com/foo" in
  (let r := InitRoot.InitTask_Run t blockedWorld in
   r.1 = Some (PathError "mkdir" "/srv/foo" ENOTDIR)
   ∧ stdout r.2
     = stdout blockedWorld ++ InitRoot_header t
       ++ [createLine "/srv/foo/src/example.com/foo"])
  ∧ (let r := InitRoot.InitTask_Run t scriptBlockedWorld in
     r.1 = Some (PathError "open" "/srv/foo/.envrc" EISDIR)
     ∧ stdout r.2
       = stdout scriptBlockedWorld ++ InitRoot_header t
         ++ [createLine "/srv/foo/src/example.com/foo"; wroteLine "/srv/foo/.envrc"] ++ []).
Proof.
  intros t. split.
  - apply (proj1 (proj1 X2_progress_lines t blockedWorld) (files blockedWorld)).
    vm_compute. reflexivity.
  - set (made := (os.MkdirAll (InitRoot.ProjectPath t) (files scriptBlockedWorld)).1).
    apply (proj2 (proj1 X2_progress_lines t scriptBlockedWorld) made made
                 (Some (PathError "remove" "/srv/foo/.envrc" ENOTEMPTY)) made
                 (Some (PathError "open" "/srv/foo/.envrc" EISDIR)));
      vm_compute; reflexivity.
Defined.

(** ** What [Run] does not touch *)

Lemma runFiles_log (pp e c : string) (fs : gmap string Node) :
  (List.length (runFiles pp e c fs).2 <= 3)%nat
  ∧ Forall (fun cr => cr.1 = CallMkdirAll pp ∨ cr.1 = CallRemove e
                      ∨ cr.1 = CallWriteFile e c)
           (runFiles pp e c fs).2.
Proof.
  unfold runFiles.
  destruct (os.MkdirAll pp fs) as [fs1 [e1|]]; cbn [snd List.length].
  - split; [lia|]. repeat first [apply List.Forall_nil | apply List.Forall_cons; [cbn [fst]; auto|]].
  - destruct (os.Remove e fs1) as [fs2 r2]. destruct (os.WriteFile e c fs2) as [fs3 r3].
    cbn [snd List.length]. split; [lia|].
    repeat first [apply List.Forall_nil | apply List.Forall_cons; [cbn [fst]; auto|]].
Qed.

(** X3: [Run] writes nothing to standard error and leaves the
    environment as it is; it makes at most three calls on the file
    system, each of them [MkdirAll] on the project path, or [Remove] or
    [WriteFile] on the [.envrc] of the workspace path.  This holds in
    both variants. *)
Theorem X3_run_footprint :
  (∀ (t : InitRoot.InitTask) (w : World),
      let r := InitRoot.InitTask_Run t w in
      environ r.2 = environ w ∧ stderr r.2 = stderr w
      ∧ ∃ log, calls r.2 = calls w ++ log
               ∧ (List.length log <= 3)%nat
               ∧ Forall (fun cr =>
                           cr.1 = CallMkdirAll (InitRoot.ProjectPath t)
                           ∨ cr.1 = CallRemove (filepath.Join [InitRoot.GoFmlPath t; ".envrc"])
                           ∨ cr.1 = CallWriteFile
                                      (filepath.Join [InitRoot.GoFmlPath t; ".envrc"])
                                      (template.Execute InitRoot.script t)) log)
  ∧ (∀ (t : InitGoPath.InitTask) (w : World),
      let r := InitGoPath.InitTask_Run t w in
      environ r.2 = environ w ∧ stderr r.2 = stderr w
      ∧ ∃ log, calls r.2 = calls w ++ log
               ∧ (List.length log <= 3)%nat
               ∧ Forall (fun cr =>
                           cr.1 = CallMkdirAll (InitGoPath.ProjectPath t)
                           ∨ cr.1 = CallRemove (filepath.Join [InitGoPath.GoPath t; ".envrc"])
                           ∨ cr.1 = CallWriteFile
                                      (filepath.Join [InitGoPath.GoPath t; ".envrc"])
                                      (template.Execute InitGoPath.script t)) log).
Proof.
  split; intros t w r; subst r.
  - destruct (InitRoot_Run_files t w) as (_ & _ & Hc & He & Hs).
    split; [exact He|]. split; [exact Hs|]. eexists. split; [exact Hc|].
    apply runFiles_log.
  - destruct (InitGoPath_Run_files t w) as (_ & _ & Hc & He & Hs).
    split; [exact He|]. split; [exact Hs|]. eexists. split; [exact Hc|].
    apply runFiles_log.
Qed.

(** ** What [NewInitTask] does not touch, and what it ignores *)

(** X4: [NewInitTask] makes no call on the file system, prints nothing
    on standard output and leaves the environment as it is; when it
    returns, with a task or with an error, it has written nothing at
    all.  This holds in both variants. *)
Theorem X4_construction_is_pure :
  (∀ (args : list string) (w : World),
      let r := InitRoot.NewInitTask args w in
      files r.2 = files w ∧ calls r.2 = calls w ∧ stdout r.2 = stdout w
      ∧ environ r.2 = environ w
      ∧ ∀ result, r.1 = Return result → r.2 = w)
  ∧ (∀ (args : list string) (w : World),
      let r := InitGoPath.NewInitTask args w in
      files r.2 = files w ∧ calls r.2 = calls w ∧ stdout r.2 = stdout w
      ∧ environ r.2 = environ w
      ∧ ∀ result, r.1 = Return result → r.2 = w).
Proof.
  split; intros args w r; subst r.
  - rewrite InitRoot_NewInitTask_eq.
    destruct (InitRoot_parse w args) as [values actual [|p rest]|err];
      cbn [fst snd withStderr files calls stdout environ]; repeat split; auto; discriminate.
  - rewrite InitGoPath_NewInitTask_eq.
    destruct (InitGoPath_parse args) as [values actual [|p rest]|err];
      cbn [fst snd withStderr files calls stdout environ]; repeat split; auto; discriminate.
Qed.

(** X5: what follows the import path is ignored, further import paths
    and flags alike: after flags [-g] or [-p] with their values, the
    arguments [p :: rest] build the task that [p] alone builds, when
    [p] does not read as a flag.  This holds in both variants. *)
Theorem X5_rest_ignored :
  (∀ (l : list (string * string)) (p : string) (rest : list string) (w : World),
      Forall (fun kv => kv.1 = "g") l →
      flag.classify p = flag.NonFlag →
      InitRoot.NewInitTask (flagArgs l ++ p :: rest) w
      = InitRoot.NewInitTask (flagArgs l ++ [p]) w)
  ∧ (∀ (l : list (string * string)) (p : string) (rest : list string) (w : World),
      Forall (fun kv => pathFlag kv.1) l →
      flag.classify p = flag.NonFlag →
      InitGoPath.NewInitTask (flagArgs l ++ p :: rest) w
      = InitGoPath.NewInitTask (flagArgs l ++ [p]) w).
Proof.
  split; intros l p rest w Hl Hp.
  - rewrite !InitRoot_NewInitTask_eq. unfold InitRoot_parse.
    destruct (parseAll_flagArgs ["g"; "n"] l) with
      (values := InitRoot_values (rootOf w)) (actual := (∅ : gset string))
      as (values' & actual' & Hn & Hparse).
    { eapply Forall_impl; [exact Hl|]. intros [k v] Hk. cbn in Hk. subst k.
      split; [now left | reflexivity]. }
    { apply InitRoot_values_n. }
    rewrite !Hparse. cbn [flag.parseAll]. rewrite Hp. reflexivity.
  - rewrite !InitGoPath_NewInitTask_eq. unfold InitGoPath_parse.
    destruct (parseAll_flagArgs ["g"; "n"; "p"] l) with
      (values := InitGoPath_values) (actual := (∅ : gset string))
      as (values' & actual' & Hn & Hparse).
    { eapply Forall_impl; [exact Hl|]. intros [k v] Hk. cbn in Hk.
      split; [assumption|]. destruct Hk; subst k; reflexivity. }
    { apply InitGoPath_values_n. }
    rewrite !Hparse. cbn [flag.parseAll]. rewrite Hp. reflexivity.
Qed.

Lemma X5_witness :
  InitRoot.NewInitTask ["-g"; "/srv/ws"; "example.com/foo"; "-n"; "bar"; "other"] emptyWorld
  = InitRoot.NewInitTask ["-g"; "/srv/ws"; "example.com/foo"] emptyWorld.
Proof.
  apply (proj1 X5_rest_ignored [("g", "/srv/ws")] "example.com/foo" ["-n"; "bar"; "other"]
               emptyWorld).
  - repeat constructor.
  - reflexivity.
Defined.

(** X6: in the variant with a GOPATH the empty string stands for "not
    set" for [-g] and [-p] too: [-g ""] or [-p ""] in front of the
    arguments gives the result that the arguments alone give. *)
Theorem X6_empty_gopath_is_unset (args : list string) (w : World) :
  InitGoPath.NewInitTask ("-g" :: "" :: args) w = InitGoPath.NewInitTask args w
  ∧ InitGoPath.NewInitTask ("-p" :: "" :: args) w = InitGoPath.NewInitTask args w.
Proof.
  rewrite !InitGoPath_NewInitTask_eq. unfold InitGoPath_parse.
  assert (Hg : <["g" := ""]> InitGoPath_values = InitGoPath_values)
    by (apply insert_id, InitGoPath_values_g).
  assert (Hp : <["p" := ""]> InitGoPath_values = InitGoPath_values)
    by (apply insert_id; apply lookup_insert_eq).
  cbn [flag.parseAll].
  change (flag.classify "-g") with (flag.IsFlag "g" None).
  change (flag.classify "-p") with (flag.IsFlag "p" None).
  cbn [existsb String.eqb Ascii.eqb Bool.eqb orb]. cbv iota beta. rewrite Hg, Hp.
  pose proof (parseAll_actual ["g"; "n"; "p"] args InitGoPath_values ({["g"]} ∪ ∅) ∅) as H1.
  pose proof (parseAll_actual ["g"; "n"; "p"] args InitGoPath_values ({["p"]} ∪ ∅) ∅) as H2.
  split.
  - destruct (flag.parseAll _ _ ({["g"]} ∪ ∅) args), (flag.parseAll _ _ ∅ args);
      cbn in H1; try discriminate; injection H1 as <-; try subst; reflexivity.
  - destruct (flag.parseAll _ _ ({["p"]} ∪ ∅) args), (flag.parseAll _ _ ∅ args);
      cbn in H2; try discriminate; injection H2 as <-; try subst; reflexivity.
Qed.

(** ** The dispatcher and the exit status *)

(** X8: with no argument, or with [help] as the only one, [Main]
    renders the usage on standard error and exits with status 1; it
    calls no command and touches nothing else. *)
Theorem X8_usage_only
        (initCommand : Command) (helpUsage helpShort helpLong : string)
        (helpGetTask : list string -> IO (Proc TaskResult))
        (funcAddress : Command -> string)
        (argv : list string) (values : gmap string string) (actual : gset string)
        (args : list string) (w : World) :
  flag.parseAll [] ∅ ∅ argv = flag.Flags values actual args →
  args = [] ∨ args = ["help"] →
  Main initCommand helpUsage helpShort helpLong helpGetTask funcAddress argv w
  = (1, withStderr w [Text (usageText initCommand helpUsage helpShort helpLong helpGetTask)]).
Proof.
  intros Hparse Hargs.
  unfold Main, bind, flag.Parse. cbn [flag.formal flag.values flag.actual CommandLine].
  rewrite Hparse. unfold ret at 1. cbn [flag.Args flag.args].
  destruct Hargs as [-> | ->]; reflexivity.
Qed.

Lemma X8_witness :
  Main (InitRoot.initCommand "~/gofml") "help [command]" "show help" "" noHelp
       (fun _ => "0x4a5b20") ["--"; "help"] emptyWorld
  = (1, withStderr emptyWorld
          [Text (usageText (InitRoot.initCommand "~/gofml") "help [command]" "show help" ""
                           noHelp)]).
Proof.
  apply (X8_usage_only (InitRoot.initCommand "~/gofml") "help [command]" "show help" ""
           noHelp (fun _ => "0x4a5b20") ["--"; "help"] ∅ ∅ ["help"] emptyWorld).
  - reflexivity.
  - right. reflexivity.
Defined.

(** X9: [init] with an import path exits with the status that the run
    of the task gives: 0 when [Run] returns no error, with nothing on
    standard error, and 1 when it returns one, with the line
    [gofml: error running command:] and the text of the error.  This
    holds in both variants. *)
Theorem X9_init_exit_status :
  (∀ (helpUsage helpShort helpLong : string)
     (helpGetTask : list string -> IO (Proc TaskResult))
     (funcAddress : Command -> string)
     (args : list string) (w : World) values actual p rest,
      InitRoot_parse w args = flag.Flags values actual (p :: rest) →
      MainRoot helpUsage helpShort helpLong helpGetTask funcAddress ("init" :: args) w
      = exitAfter (InitRoot.InitTask_Run
                     (InitRoot_task (held values "g") (held values "n") p) w))
  ∧ (∀ (helpUsage helpShort helpLong : string)
       (helpGetTask : list string -> IO (Proc TaskResult))
       (funcAddress : Command -> string)
       (args : list string) (w : World) values actual p rest,
      InitGoPath_parse args = flag.Flags values actual (p :: rest) →
      MainGoPath helpUsage helpShort helpLong helpGetTask funcAddress ("init" :: args) w
      = exitAfter (InitGoPath.InitTask_Run
                     (InitGoPath_task (held values "g") (held values "n")
                                      (held values "p") p) w)).
Proof.
  split; intros helpUsage helpShort helpLong helpGetTask funcAddress
                args w values actual p rest Hp.
  - rewrite MainRoot_eq.
    rewrite (Main_found _ _ _ _ _ _ ("init" :: args) w ∅ ∅ "init" args
               (InitRoot.initCommand (rootOf w)));
      [| reflexivity | now apply commands_init | discriminate].
    cbn [GetTask InitRoot.initCommand]. rewrite InitRoot_NewInitTask_eq, Hp.
    unfold runTask, exitAfter. cbn [dynamicType dynamicTask dynamicValue Run
      InitRoot.InitTask_Task].
    destruct (InitRoot.InitTask_Run _ w) as [[e|] w2]; reflexivity.
  - unfold MainGoPath.
    rewrite (Main_found _ _ _ _ _ _ ("init" :: args) w ∅ ∅ "init" args
               InitGoPath.initCommand);
      [| reflexivity | now apply commands_init | discriminate].
    cbn [GetTask InitGoPath.initCommand]. rewrite InitGoPath_NewInitTask_eq, Hp.
    unfold runTask, exitAfter. cbn [dynamicType dynamicTask dynamicValue Run
      InitGoPath.InitTask_Task].
    destruct (InitGoPath.InitTask_Run _ w) as [[e|] w2]; reflexivity.
Qed.

Lemma X9_witness :
  MainRoot "help [command]" "show help" "" noHelp (fun _ => "0x4a5b20")
           ["init"; "-g"; "/srv"; "example.com/foo"] blockedWorld
  = exitAfter (InitRoot.InitTask_Run (InitRoot_task "/srv" "" "example.com/foo")
                                     blockedWorld).
Proof.
  exact (proj1 X9_init_exit_status "help [command]" "show help" "" noHelp
           (fun _ => "0x4a5b20") ["-g"; "/srv"; "example.com/foo"] blockedWorld
           (<["g" := "/srv"]> (InitRoot_values "~/gofml")) ({["g"]} ∪ ∅)
           "example.com/foo" [] eq_refl).
Defined.

(** X10: a flag that [init] does not define, other than [-h] and
    [-help], ends the process inside [NewInitTask] with status 2: the
    [flag] package names the flag on standard error and prints the
    usage of [init]; [Main] adds nothing, and no call is made on the
    file system.  The variant with a root defines [-g] and [-n], the
    variant with a GOPATH [-p] too. *)
Theorem X10_undefined_flag :
  (∀ (helpUsage helpShort helpLong : string)
     (helpGetTask : list string -> IO (Proc TaskResult))
     (funcAddress : Command -> string)
     (s name : string) (value : option string) (rest : list string) (w : World),
      flag.classify s = flag.IsFlag name value →
      existsb (String.eqb name) ["g"; "n"; "help"; "h"] = false →
      MainRoot helpUsage helpShort helpLong helpGetTask funcAddress
               ("init" :: s :: rest) w
      = (2, withStderr w
              [Text ("flag provided but not defined: -" +:+ name +:+ Bytes.nl);
               Text ("Usage of init:" +:+ Bytes.nl); PrintDefaults "init"]))
  ∧ (∀ (helpUsage helpShort helpLong : string)
       (helpGetTask : list string -> IO (Proc TaskResult))
       (funcAddress : Command -> string)
       (s name : string) (value : option string) (rest : list string) (w : World),
      flag.classify s = flag.IsFlag name value →
      existsb (String.eqb name) ["g"; "n"; "p"; "help"; "h"] = false →
      MainGoPath helpUsage helpShort helpLong helpGetTask funcAddress
                 ("init" :: s :: rest) w
      = (2, withStderr w
              [Text ("flag provided but not defined: -" +:+ name +:+ Bytes.nl);
               Text ("Usage of init:" +:+ Bytes.nl); PrintDefaults "init"])).
Proof.
  split; intros helpUsage helpShort helpLong helpGetTask funcAddress
                s name value rest w Hs Hname;
    cbn [existsb] in Hname; repeat (apply orb_false_elim in Hname as [? Hname]).
  - rewrite MainRoot_eq.
    rewrite (Main_found _ _ _ _ _ _ ("init" :: s :: rest) w ∅ ∅ "init" (s :: rest)
               (InitRoot.initCommand (rootOf w)));
      [| reflexivity | now apply commands_init | discriminate].
    cbn [GetTask InitRoot.initCommand]. rewrite InitRoot_NewInitTask_eq.
    unfold InitRoot_parse. cbn [flag.parseAll existsb]. rewrite Hs.
    repeat match goal with H : String.eqb name _ = false |- _ => rewrite H; clear H end.
    reflexivity.
  - unfold MainGoPath.
    rewrite (Main_found _ _ _ _ _ _ ("init" :: s :: rest) w ∅ ∅ "init" (s :: rest)
               InitGoPath.initCommand);
      [| reflexivity | now apply commands_init | discriminate].
    cbn [GetTask InitGoPath.initCommand]. rewrite InitGoPath_NewInitTask_eq.
    unfold InitGoPath_parse. cbn [flag.parseAll existsb]. rewrite Hs.
    repeat match goal with H : String.eqb name _ = false |- _ => rewrite H; clear H end.
    reflexivity.
Qed.

Lemma X10_witness :
  MainRoot "help [command]" "show help" "" noHelp (fun _ => "0x4a5b20")
           ["init"; "-p=/srv/project"; "example.com/foo"] emptyWorld
  = (2, withStderr emptyWorld
          [Text ("flag provided but not defined: -" +:+ "p" +:+ Bytes.nl);
           Text ("Usage of init:" +:+ Bytes.nl); PrintDefaults "init"]).
Proof.
  apply (proj1 X10_undefined_flag "help [command]" "show help" "" noHelp
               (fun _ => "0x4a5b20") "-p=/srv/project" "p" (Some "/srv/project")
               ["example.com/foo"] emptyWorld); reflexivity.
Defined.

(** X11: [help] followed by arguments is a command like another: [Main]
    hands the arguments after it to the task factory of the help
    command and goes on with what the factory returns; only [help]
    alone is answered by the dispatcher itself. *)
Theorem X11_help_with_arguments
        (initCommand : Command) (helpUsage helpShort helpLong : string)
        (helpGetTask : list string -> IO (Proc TaskResult))
        (funcAddress : Command -> string)
        (x : string) (rest : list string) (w : World) :
  Main initCommand helpUsage helpShort helpLong helpGetTask funcAddress
       ("help" :: x :: rest) w
  = match helpGetTask (x :: rest) w with
    | (Exit code, w1) => (code, w1)
    | (Return (NotBuilt _), w1) =>
        (1, withStderr w1
              [Text ("gofml: failed to parse command "
                     +:+ formatCommand funcAddress
                           (helpCommand helpUsage helpShort helpLong helpGetTask)
                     +:+ Bytes.nl)])
    | (Return (Built task), w1) => exitAfter (runTask task w1)
    end.
Proof.
  rewrite (Main_found _ _ _ _ _ _ ("help" :: x :: rest) w ∅ ∅ "help" (x :: rest)
             (helpCommand helpUsage helpShort helpLong helpGetTask));
    [| reflexivity | apply commands_help | discriminate].
  cbn [GetTask helpCommand].
  destruct (helpGetTask (x :: rest) w) as [[[task|err]|code] w1]; try reflexivity.
  unfold exitAfter. destruct (runTask task w1) as [[e|] w2]; reflexivity.
Qed.

(** X12: the registry that [init] fills holds the help command under
    [help] and the [init] command under its name, and nothing under any
    other name; an [init] command that were named [help] would be
    replaced by the help command, which is put in after it. *)
Theorem X12_registry
        (initCommand : Command) (helpUsage helpShort helpLong : string)
        (helpGetTask : list string -> IO (Proc TaskResult)) (c : string) :
  commands initCommand helpUsage helpShort helpLong helpGetTask !! c
  = if String.eqb c "help"
    then Some (helpCommand helpUsage helpShort helpLong helpGetTask)
    else if String.eqb c (Name initCommand) then Some initCommand else None.
Proof.
  unfold commands. cbn [fold_left helpCommand Name].
  destruct (String.eqb_spec c "help") as [->|Hh].
  - apply lookup_insert_eq.
  - rewrite lookup_insert_ne by congruence.
    destruct (String.eqb_spec c (Name initCommand)) as [->|Hi].
    + apply lookup_insert_eq.
    + rewrite lookup_insert_ne by congruence. apply lookup_empty.
Qed.

(** ** The order of the commands in the usage *)

Lemma insertSorted_Permutation (kv : string * Command) (l : list (string * Command)) :
  Permutation (insertSorted kv l) (kv :: l).
Proof.
  induction l as [|kv' l IH]; cbn [insertSorted]; [reflexivity|].
  destruct (String.leb kv.1 kv'.1); [reflexivity|].
  rewrite IH. apply perm_swap.
Qed.

Lemma insertSorted_sorted (kv : string * Command) (l : list (string * Command)) :
  sortedByKey l → sortedByKey (insertSorted kv l).
Proof.
  induction l as [|kv' l IH]; intros Hs; cbn [insertSorted]; [cbn; auto|].
  destruct (String.leb kv.1 kv'.1) eqn:Hle.
  - cbn [sortedByKey]. auto.
  - assert (Hge : String.leb kv'.1 kv.1 = true).
    { destruct (String.leb_total kv.1 kv'.1); congruence. }
    destruct Hs as [Hhead Htail]. specialize (IH Htail).
    cbn [sortedByKey]. split; [|exact IH].
    destruct l as [|kv'' l]; cbn [insertSorted]; [exact Hge|].
    destruct (String.leb kv.1 kv''.1); assumption.
Qed.

(** X13: the usage ranges over the registry in the order of the command
    names, not in the order in which the commands were put in: the
    entries it prints are those of the map, each once, sorted by
    name. *)
Theorem X13_usage_order (m : gmap string Command) :
  sortedByKey (sortedEntries m)
  ∧ Permutation (sortedEntries m) (map_to_list m)
  ∧ NoDup (sortedEntries m).*1
  ∧ ∀ name cmd, (name, cmd) ∈ sortedEntries m ↔ m !! name = Some cmd.
Proof.
  assert (Hsorted : sortedByKey (sortedEntries m)).
  { unfold sortedEntries. induction (map_to_list m) as [|kv l IH]; [exact I|].
    cbn [fold_right]. now apply insertSorted_sorted. }
  assert (Hperm : Permutation (sortedEntries m) (map_to_list m)).
  { unfold sortedEntries. induction (map_to_list m) as [|kv l IH]; [reflexivity|].
    cbn [fold_right]. rewrite insertSorted_Permutation. now apply perm_skip. }
  split; [exact Hsorted|split; [exact Hperm|split]].
  - rewrite Hperm. apply NoDup_fst_map_to_list.
  - intros name cmd. rewrite Hperm. apply elem_of_map_to_list.
Qed.

(** X14: with the [init] command under its name, the usage lists [help]
    before [init], each with its name padded to eight bytes and its
    short text, between the fixed head and foot of the template. *)
Theorem X14_usage_text
        (initCommand : Command) (helpUsage helpShort helpLong : string)
        (helpGetTask : list string -> IO (Proc TaskResult)) :
  Name initCommand = "init" →
  usageText initCommand helpUsage helpShort helpLong helpGetTask
  = "GoFML helps organize go projects." +:+ Bytes.nl +:+ Bytes.nl
    +:+ "Usage:" +:+ Bytes.nl +:+ Bytes.nl
    +:+ "    gofml [command] [arguments]" +:+ Bytes.nl +:+ Bytes.nl
    +:+ "Commands:" +:+ Bytes.nl
    +:+ (Bytes.nl +:+ "    help     " +:+ helpShort
         +:+ Bytes.nl +:+ "    init     " +:+ Short initCommand)
    +:+ Bytes.nl +:+ Bytes.nl
    +:+ "Use " +:+ Bytes.dq +:+ "gofml help [command]" +:+ Bytes.dq
    +:+ " for command-specific information." +:+ Bytes.nl +:+ Bytes.nl.
Proof.
  intros Hn. unfold usageText.
  assert (Hs : sortedEntries (commands initCommand helpUsage helpShort helpLong helpGetTask)
               = [("help", helpCommand helpUsage helpShort helpLong helpGetTask);
                  ("init", initCommand)]).
  { unfold commands. cbn [fold_left helpCommand Name]. rewrite Hn.
    unfold sortedEntries. vm_compute. reflexivity. }
  rewrite Hs. cbn [map snd Name Short helpCommand String.concat]. rewrite Hn.
  reflexivity.
Qed.

Lemma X14_witness :
  usageText (InitRoot.initCommand "~/gofml") "help [command]" "show help" "" noHelp
  = "GoFML helps organize go projects." +:+ Bytes.nl +:+ Bytes.nl
    +:+ "Usage:" +:+ Bytes.nl +:+ Bytes.nl
    +:+ "    gofml [command] [arguments]" +:+ Bytes.nl +:+ Bytes.nl
    +:+ "Commands:" +:+ Bytes.nl
    +:+ (Bytes.nl +:+ "    help     " +:+ "show help"
         +:+ Bytes.nl +:+ "    init     " +:+ Short (InitRoot.initCommand "~/gofml"))
    +:+ Bytes.nl +:+ Bytes.nl
    +:+ "Use " +:+ Bytes.dq +:+ "gofml help [command]" +:+ Bytes.dq
    +:+ " for command-specific information." +:+ Bytes.nl +:+ Bytes.nl.
Proof.
  apply (X14_usage_text (InitRoot.initCommand "~/gofml") "help [command]" "show help" ""
                        noHelp).
  reflexivity.
Defined.

(** ** [Clean] returns clean paths *)

Section CleanFacts.
Import Bytes.

Lemma split_piece (sep : ascii) (a acc : list ascii) :
  Forall (fun c => Ascii.eqb c sep = false) a →
  split sep acc a = [rev acc ++ a].
Proof.
  revert acc. induction a as [|c a IH]; intros acc Ha.
  - simpl. now rewrite app_nil_r.
  - apply Forall_cons in Ha as [Hc Ha]. cbn [split]. rewrite Hc.
    rewrite IH by assumption. simpl. now rewrite <- app_assoc.
Qed.

Lemma split_at (sep : ascii) (a l acc : list ascii) :
  Forall (fun c => Ascii.eqb c sep = false) a →
  split sep acc (a ++ sep :: l) = (rev acc ++ a) :: split sep [] l.
Proof.
  revert acc. induction a as [|c a IH]; intros acc Ha.
  - simpl. now rewrite Ascii.eqb_refl, app_nil_r.
  - apply Forall_cons in Ha as [Hc Ha]. cbn [app split]. rewrite Hc.
    rewrite IH by assumption. simpl. now rewrite <- app_assoc.
Qed.

(** The pieces that [split] returns hold no separator. *)
Lemma split_pieces (sep : ascii) (l acc : list ascii) :
  Forall (fun c => Ascii.eqb c sep = false) acc →
  Forall (Forall (fun c => Ascii.eqb c sep = false)) (split sep acc l).
Proof.
  revert acc. induction l as [|c l IH]; intros acc Hacc; cbn [split].
  - apply List.Forall_cons; [now apply List.Forall_rev | apply List.Forall_nil].
  - destruct (Ascii.eqb c sep) eqn:Hc.
    + apply List.Forall_cons; [now apply List.Forall_rev|]. apply IH, List.Forall_nil.
    + apply IH. now apply List.Forall_cons.
Qed.

(** Splitting what was joined gives the elements back. *)
Lemma split_joinElements (e : list ascii) (l : list (list ascii)) (acc : list ascii) :
  noSlash e → Forall noSlash l →
  split slash acc (filepath.joinElements (e :: l)) = (rev acc ++ e) :: l.
Proof.
  revert e acc. induction l as [|e' l IH]; intros e acc He Hl.
  - cbn [filepath.joinElements]. now apply split_piece.
  - apply Forall_cons in Hl as [He' Hl].
    change (filepath.joinElements (e :: e' :: l))
      with (e ++ slash :: filepath.joinElements (e' :: l)).
    rewrite split_at by assumption. f_equal. now apply (IH e' []).
Qed.

Lemma dotdot_shape (e : list ascii) :
  filepath.isDotDot e = true → e = [dot; dot].
Proof.
  destruct e as [|c [|d [|x e]]]; try discriminate. cbn.
  intros H. apply andb_true_iff in H as [Hc Hd].
  apply Ascii.eqb_eq in Hc, Hd. now subst.
Qed.

Lemma cleanStep_real (rooted : bool) (out : list (list ascii)) (e : list ascii) :
  realElement e → filepath.cleanStep rooted out e = e :: out.
Proof.
  intros (Hne & Hd & Hdd & _). unfold filepath.cleanStep.
  destruct e as [|c e]; [contradiction|]. now rewrite Hd, Hdd.
Qed.

Lemma cleanStep_dotdot (out : list (list ascii)) (e : list ascii) :
  filepath.isDotDot e = true →
  Forall (fun x => filepath.isDotDot x = true) out →
  filepath.cleanStep false out e = e :: out.
Proof.
  intros He Hout. rewrite (dotdot_shape e He) in *. unfold filepath.cleanStep.
  change (filepath.isDot [dot; dot]) with false.
  change (filepath.isDotDot [dot; dot]) with true. cbv iota.
  destruct out as [|top out]; [reflexivity|].
  apply Forall_cons in Hout as [Htop _]. now rewrite Htop.
Qed.

Lemma cleanStep_ok (rooted : bool) (out : list (list ascii)) (e : list ascii) :
  noSlash e → stackOk rooted out → stackOk rooted (filepath.cleanStep rooted out e).
Proof.
  intros He (reals & dds & -> & Hr & Hd & Hroot).
  unfold filepath.cleanStep.
  destruct e as [|c e']; [exists reals, dds; auto|].
  destruct (filepath.isDot (c :: e')) eqn:Hdot; [exists reals, dds; auto|].
  destruct (filepath.isDotDot (c :: e')) eqn:Hdd.
  - destruct reals as [|top reals].
    + cbn [app]. destruct dds as [|top dds].
      * destruct rooted; [exists [], []; auto|].
        exists [], [c :: e']. repeat split; auto; try discriminate.
      * pose proof Hd as Hd'. apply Forall_cons in Hd' as [Htop _]. rewrite Htop.
        destruct rooted; [exists [], (top :: dds); auto|].
        exists [], ((c :: e') :: top :: dds). repeat split; auto; try discriminate.
    + cbn [app]. apply Forall_cons in Hr as [(_ & _ & Htop & _) Hr]. rewrite Htop.
      exists reals, dds. auto.
  - exists ((c :: e') :: reals), dds. repeat split; auto.
    apply List.Forall_cons; [|assumption]. repeat split; auto; try discriminate.
Qed.

Lemma fold_cleanStep_ok (rooted : bool) (es : list (list ascii)) :
  Forall noSlash es →
  ∀ out, stackOk rooted out → stackOk rooted (fold_left (filepath.cleanStep rooted) es out).
Proof.
  induction 1 as [|e es He Hes IH]; intros out Hout; [exact Hout|].
  cbn [fold_left]. apply IH. now apply cleanStep_ok.
Qed.

Lemma fold_cleanStep_reals (rooted : bool) (l : list (list ascii)) :
  Forall realElement l →
  ∀ out, fold_left (filepath.cleanStep rooted) l out = rev l ++ out.
Proof.
  induction 1 as [|e l He Hl IH]; intros out; [reflexivity|].
  cbn [fold_left rev]. rewrite cleanStep_real by assumption.
  rewrite IH, <- app_assoc. reflexivity.
Qed.

Lemma fold_cleanStep_dotdots (l : list (list ascii)) :
  Forall (fun e => filepath.isDotDot e = true) l →
  ∀ out, Forall (fun e => filepath.isDotDot e = true) out →
         fold_left (filepath.cleanStep false) l out = rev l ++ out.
Proof.
  induction 1 as [|e l He Hl IH]; intros out Hout; [reflexivity|].
  cbn [fold_left rev]. rewrite cleanStep_dotdot by assumption.
  rewrite IH by (now apply List.Forall_cons). rewrite <- app_assoc. reflexivity.
Qed.

(** The loop of [Clean] on the elements of a buffer builds the buffer
    again. *)
Lemma fold_cleanStep_rebuild (rooted : bool) (out : list (list ascii)) :
  stackOk rooted out →
  fold_left (filepath.cleanStep rooted) (rev out) [] = out.
Proof.
  intros (reals & dds & -> & Hr & Hd & Hroot).
  rewrite rev_app_distr, fold_left_app.
  rewrite fold_cleanStep_reals by (now apply List.Forall_rev).
  rewrite rev_involutive. f_equal.
  destruct rooted.
  - rewrite (Hroot eq_refl). reflexivity.
  - rewrite fold_cleanStep_dotdots; [|now apply List.Forall_rev | apply List.Forall_nil].
    now rewrite rev_involutive, app_nil_r.
Qed.

Lemma stackOk_noSlash (rooted : bool) (out : list (list ascii)) :
  stackOk rooted out → Forall noSlash out ∧ Forall (fun e => e ≠ []) out.
Proof.
  intros (reals & dds & -> & Hr & Hd & _). split; apply Forall_app; split.
  - eapply Forall_impl; [exact Hr|]. now intros e (_ & _ & _ & H).
  - eapply Forall_impl; [exact Hd|]. intros e He. rewrite (dotdot_shape e He).
    repeat constructor.
  - eapply Forall_impl; [exact Hr|]. now intros e (H & _).
  - eapply Forall_impl; [exact Hd|]. intros e He. rewrite (dotdot_shape e He).
    discriminate.
Qed.

Lemma Clean_render (path : string) :
  filepath.Clean path
  = match chars path with
    | [] => "."
    | c :: _ =>
        render (IsPathSeparator c)
               (fold_left (filepath.cleanStep (IsPathSeparator c))
                          (filepath.elements (chars path)) [])
    end.
Proof. reflexivity. Qed.

Lemma Clean_stackOk (c : ascii) (cs : list ascii) :
  stackOk (IsPathSeparator c)
          (fold_left (filepath.cleanStep (IsPathSeparator c))
                     (filepath.elements (c :: cs)) []).
Proof.
  apply fold_cleanStep_ok.
  - apply (split_pieces slash (c :: cs) []), List.Forall_nil.
  - exists [], []. repeat split; auto.
Qed.

(** The path of a buffer is clean. *)
Lemma Clean_of_render (rooted : bool) (out : list (list ascii)) :
  stackOk rooted out → filepath.Clean (render rooted out) = render rooted out.
Proof.
  intros Hok. destruct (stackOk_noSlash rooted out Hok) as [Hns Hne].
  pose proof (fold_cleanStep_rebuild rooted out Hok) as Hre.
  apply List.Forall_rev in Hns. apply List.Forall_rev in Hne.
  destruct (rev out) as [|e l] eqn:Hrev.
  - assert (out = []) as -> by (apply (f_equal (@rev _)) in Hrev;
                                now rewrite rev_involutive in Hrev).
    destruct rooted; reflexivity.
  - apply Forall_cons in Hns as [He Hl]. apply Forall_cons in Hne as [Hene _].
    destruct e as [|b e]; [contradiction|].
    assert (Hb : IsPathSeparator b = false) by (now apply Forall_cons in He as [? _]).
    assert (Hbody : ∃ body, filepath.joinElements ((b :: e) :: l) = b :: body).
    { destruct l; cbn [filepath.joinElements app]; eauto. }
    destruct Hbody as [body Hbody].
    rewrite Clean_render. destruct rooted.
    + assert (Hchars : chars (render true out)
                       = slash :: filepath.joinElements ((b :: e) :: l)).
      { unfold render. rewrite Hrev. apply chars_text. }
      rewrite Hchars. change (IsPathSeparator slash) with true.
      unfold filepath.elements. cbn [split].
      change (Ascii.eqb slash slash) with true. cbv iota.
      rewrite split_joinElements by assumption. cbn [rev app].
      change (fold_left (filepath.cleanStep true) ([] :: (b :: e) :: l) [])
        with (fold_left (filepath.cleanStep true) ((b :: e) :: l) []).
      now rewrite Hre.
    + assert (Hchars : chars (render false out) = filepath.joinElements ((b :: e) :: l)).
      { unfold render. rewrite Hrev, Hbody. apply chars_text. }
      rewrite Hchars. rewrite Hbody at 1. rewrite Hb. unfold filepath.elements.
      rewrite split_joinElements by assumption.
      cbn [rev app]. now rewrite Hre.
Qed.

(** [filepath.Clean] is idempotent. *)
Lemma Clean_idempotent (path : string) :
  filepath.Clean (filepath.Clean path) = filepath.Clean path.
Proof.
  rewrite (Clean_render path).
  destruct (chars path) as [|c cs]; [reflexivity|].
  apply Clean_of_render, Clean_stackOk.
Qed.

End CleanFacts.

(** ** A real element under a clean path *)

Section ChildFacts.
Import Bytes.

Lemma joinElements_snoc (l : list (list ascii)) (e : list ascii) :
  l ≠ [] →
  filepath.joinElements (l ++ [e]) = filepath.joinElements l ++ slash :: e.
Proof.
  induction l as [|x l IH]; intros Hne; [contradiction|].
  destruct l as [|y l]; [reflexivity|].
  change (filepath.joinElements ((x :: y :: l) ++ [e]))
    with (x ++ slash :: filepath.joinElements ((y :: l) ++ [e])).
  rewrite IH by discriminate.
  change (filepath.joinElements (x :: y :: l))
    with (x ++ slash :: filepath.joinElements (y :: l)).
  now rewrite <- app_assoc.
Qed.

(** A path that is its own cleaning is the path of a buffer. *)
Lemma clean_shape (path : string) :
  filepath.Clean path = path →
  ∃ rooted out, stackOk rooted out ∧ path = render rooted out.
Proof.
  intros H. rewrite Clean_render in H.
  destruct (chars path) as [|c cs] eqn:E.
  - apply chars_nil_inv in E. subst. discriminate.
  - eexists _, _. split; [apply (Clean_stackOk c cs)|]. now symmetry.
Qed.

(** The bytes of the path of a buffer that is not empty. *)
Lemma chars_render (rooted : bool) (out : list (list ascii)) :
  out ≠ [] → stackOk rooted out →
  chars (render rooted out)
  = (if rooted then [slash] else []) ++ filepath.joinElements (rev out).
Proof.
  intros Hne Hok. destruct (stackOk_noSlash rooted out Hok) as [_ Hn].
  apply List.Forall_rev in Hn. unfold render.
  destruct (rev out) as [|e l] eqn:Hrev.
  - apply (f_equal (@rev _)) in Hrev. rewrite rev_involutive in Hrev. contradiction.
  - destruct rooted; [apply chars_text|].
    apply Forall_cons in Hn as [He _]. destruct e as [|b e]; [contradiction|].
    assert (Hbody : ∃ body, filepath.joinElements ((b :: e) :: l) = b :: body).
    { destruct l; cbn [filepath.joinElements app]; eauto. }
    destruct Hbody as [body Hbody]. rewrite Hbody. apply chars_text.
Qed.

(** Cleaning a clean path followed by a separator and a real element
    puts the element on the buffer. *)
Lemma Clean_child (rooted : bool) (out : list (list ascii)) (e : list ascii) :
  stackOk rooted out → realElement e →
  filepath.Clean (render rooted out +:+ "/" +:+ text e) = render rooted (e :: out).
Proof.
  intros Hok He. pose proof He as (Hene & _ & _ & Hens).
  rewrite Clean_render, !chars_app, chars_text. change (chars "/") with [slash].
  cbn [app].
  destruct out as [|x out'].
  - destruct rooted.
    + change (chars (render true [])) with [slash]. cbn [app].
      change (IsPathSeparator slash) with true.
      unfold filepath.elements. cbn [split]. change (Ascii.eqb slash slash) with true.
      cbv iota. rewrite split_piece by exact Hens. cbn [rev app fold_left].
      change (filepath.cleanStep true [] []) with (@nil (list ascii)).
      now rewrite cleanStep_real.
    + change (chars (render false [])) with [dot]. cbn [app].
      change (IsPathSeparator dot) with false.
      unfold filepath.elements. cbn [split]. change (Ascii.eqb dot slash) with false.
      change (Ascii.eqb slash slash) with true. cbv iota.
      rewrite split_piece by exact Hens. cbn [rev app fold_left].
      change (filepath.cleanStep false [] [dot]) with (@nil (list ascii)).
      now rewrite cleanStep_real.
  - set (out := x :: out') in *.
    assert (Hne : out ≠ []) by discriminate.
    destruct (stackOk_noSlash rooted out Hok) as [Hns Hnn].
    pose proof (fold_cleanStep_rebuild rooted out Hok) as Hre.
    apply List.Forall_rev in Hns. apply List.Forall_rev in Hnn.
    rewrite (chars_render rooted out Hne Hok).
    assert (Hrev : rev out ≠ []).
    { intros H. apply (f_equal (@rev _)) in H. rewrite rev_involutive in H. contradiction. }
    assert (Hall : Forall noSlash (rev out ++ [e])).
    { apply Forall_app. split; [assumption|]. now apply List.Forall_cons. }
    assert (Hfold : fold_left (filepath.cleanStep rooted) (rev out ++ [e]) [] = e :: out).
    { rewrite fold_left_app, Hre. cbn [fold_left]. now apply cleanStep_real. }
    rewrite <- app_assoc, <- joinElements_snoc by assumption.
    destruct (rev out ++ [e]) as [|y l] eqn:Hl.
    { destruct (rev out); discriminate. }
    apply Forall_cons in Hall as [Hy Hl'].
    assert (Hyne : y ≠ []).
    { destruct (rev out) as [|z zs] eqn:Hz; [contradiction|].
      injection Hl as <- _. now apply Forall_cons in Hnn as [? _]. }
    destruct y as [|b y]; [contradiction|].
    assert (Hb : IsPathSeparator b = false) by (now apply Forall_cons in Hy as [? _]).
    assert (Hbody : ∃ body, filepath.joinElements ((b :: y) :: l) = b :: body).
    { destruct l; cbn [filepath.joinElements app]; eauto. }
    destruct Hbody as [body Hbody].
    destruct rooted; cbn [app].
    + change (IsPathSeparator slash) with true.
      unfold filepath.elements. cbn [split]. change (Ascii.eqb slash slash) with true.
      cbv iota. rewrite split_joinElements by assumption. cbn [rev app].
      change (fold_left (filepath.cleanStep true) ([] :: (b :: y) :: l) [])
        with (fold_left (filepath.cleanStep true) ((b :: y) :: l) []).
      now rewrite Hfold.
    + rewrite Hbody at 1. rewrite Hb. unfold filepath.elements.
      rewrite split_joinElements by assumption. cbn [rev app]. now rewrite Hfold.
Qed.

Lemma dropWhile_element (e rest : list ascii) :
  noSlash e →
  dropWhile (fun c => negb (IsPathSeparator c)) (rev e ++ slash :: rest) = slash :: rest.
Proof.
  intros He. apply List.Forall_rev in He.
  induction (rev e) as [|c l IH]; [reflexivity|].
  apply Forall_cons in He as [Hc Hl]. cbn [app dropWhile]. rewrite Hc. cbn [negb].
  now apply IH.
Qed.

Lemma dropWhile_all (e : list ascii) :
  noSlash e → dropWhile (fun c => negb (IsPathSeparator c)) (rev e) = [].
Proof.
  intros He. apply List.Forall_rev in He.
  induction (rev e) as [|c l IH]; [reflexivity|].
  apply Forall_cons in He as [Hc Hl]. cbn [dropWhile]. rewrite Hc. cbn [negb].
  now apply IH.
Qed.

(** A separator at the end of a path changes nothing in its
    cleaning. *)
Lemma Clean_trailing_separator (c : ascii) (cs : list ascii) :
  filepath.Clean (text ((c :: cs) ++ [slash])) = filepath.Clean (text (c :: cs)).
Proof.
  rewrite !Clean_render, !chars_text. cbn [app]. unfold filepath.elements.
  change (c :: cs ++ [slash]) with ((c :: cs) ++ [slash]).
  rewrite split_snoc_sep, fold_left_app. cbn [fold_left].
  reflexivity.
Qed.

(** [Dir] of the path with a real element on the buffer is the path of
    the buffer: the directory of the child is the path it was put
    under. *)
Lemma Dir_child (rooted : bool) (out : list (list ascii)) (e : list ascii) :
  stackOk rooted out → realElement e →
  filepath.Dir (render rooted (e :: out)) = render rooted out.
Proof.
  intros Hok He. pose proof He as (Hene & _ & _ & Hens).
  assert (Hok' : stackOk rooted (e :: out)).
  { rewrite <- (cleanStep_real rooted out e He). now apply cleanStep_ok. }
  unfold filepath.Dir. rewrite (chars_render rooted (e :: out)) by (discriminate || assumption).
  cbn [rev].
  destruct out as [|x out'].
  - cbn [rev app filepath.joinElements].
    destruct rooted; cbn [app].
    + change (rev (slash :: e)) with (rev e ++ [slash]).
      rewrite dropWhile_element by assumption. reflexivity.
    + rewrite dropWhile_all by assumption. reflexivity.
  - set (out := x :: out') in *.
    assert (Hne : out ≠ []) by discriminate.
    assert (Hrev : rev out ≠ []).
    { intros H. apply (f_equal (@rev _)) in H. rewrite rev_involutive in H. contradiction. }
    rewrite joinElements_snoc by assumption.
    rewrite app_assoc, rev_app_distr. cbn [rev].
    rewrite <- app_assoc. cbn [app].
    rewrite dropWhile_element by assumption.
    change (slash :: rev ((if rooted then [slash] else []) ++ filepath.joinElements (rev out)))
      with (rev (((if rooted then [slash] else []) ++ filepath.joinElements (rev out))
                 ++ [slash])) || rewrite <- (rev_unit _ slash).
    rewrite rev_involutive, <- (chars_render rooted out Hne Hok).
    destruct (chars (render rooted out)) as [|c cs] eqn:Hc.
    + apply chars_nil_inv in Hc. pose proof (Clean_of_render rooted out Hok) as H.
      rewrite Hc in H. discriminate.
    + rewrite Clean_trailing_separator, <- Hc, text_chars.
      now apply Clean_of_render.
Qed.

(** The script lies in the workspace directory: for a clean workspace
    path, [Dir] of the path joined with [.envrc] is the workspace
    path. *)
Lemma Dir_envrc (workspace : string) :
  filepath.Clean workspace = workspace →
  filepath.Dir (filepath.Join [workspace; ".envrc"]) = workspace.
Proof.
  intros Hclean.
  assert (Hne : workspace ≠ "") by (rewrite <- Hclean; apply Clean_nonempty).
  assert (He : realElement (chars ".envrc")).
  { repeat split; try discriminate. repeat constructor. }
  destruct (clean_shape workspace Hclean) as (rooted & out & Hok & ->).
  rewrite Join_cons_nonempty by assumption.
  change (joinWith "/" [render rooted out; ".envrc"])
    with (render rooted out +:+ "/" +:+ text (chars ".envrc")).
  rewrite Clean_child by assumption. now apply Dir_child.
Qed.

Lemma Join_clean (elem : list string) :
  Exists (fun e => e ≠ "") elem →
  filepath.Clean (filepath.Join elem) = filepath.Join elem.
Proof.
  induction elem as [|e rest IH]; intros H; [inversion H|].
  destruct (String.eqb_spec e "") as [->|Hne].
  - rewrite Join_cons_empty. apply IH. inversion H; subst; [congruence | assumption].
  - rewrite Join_cons_nonempty by assumption. apply Clean_idempotent.
Qed.

End ChildFacts.

(** ** Paths that begin at the root *)

Section RootedFacts.
Import Bytes.

Lemma rootedPath_render (rooted : bool) (out : list (list ascii)) :
  stackOk rooted out → rootedPath (render rooted out) = rooted.
Proof.
  intros Hok. destruct out as [|x out'].
  - destruct rooted; reflexivity.
  - unfold rootedPath. rewrite chars_render by (discriminate || assumption).
    destruct rooted; [reflexivity|]. cbn [app].
    destruct (stackOk_noSlash false (x :: out') Hok) as [Hns Hne].
    apply List.Forall_rev in Hns. apply List.Forall_rev in Hne.
    destruct (rev (x :: out')) as [|e l] eqn:Hrev.
    + apply (f_equal (@rev _)) in Hrev. rewrite rev_involutive in Hrev. discriminate.
    + apply Forall_cons in Hns as [He _]. apply Forall_cons in Hne as [Hene _].
      destruct e as [|b e]; [contradiction|].
      apply Forall_cons in He as [Hb _].
      destruct l; cbn [filepath.joinElements app]; exact Hb.
Qed.

(** [Clean] keeps a rooted path rooted and a relative path relative. *)
Lemma rootedPath_Clean (path : string) :
  rootedPath (filepath.Clean path) = rootedPath path.
Proof.
  rewrite Clean_render. unfold rootedPath at 2.
  destruct (chars path) as [|c cs] eqn:E; [reflexivity|].
  apply rootedPath_render. rewrite <- E. rewrite E. apply Clean_stackOk.
Qed.

Lemma rootedPath_app (a b : string) : a ≠ "" → rootedPath (a +:+ b) = rootedPath a.
Proof. intros Ha. destruct a; [contradiction | reflexivity]. Qed.

Lemma dropWhile_Exists {A} (f : A → bool) (l : list A) :
  Exists (fun x => f x = false) l →
  ∃ x l', dropWhile f l = x :: l' ∧ f x = false.
Proof.
  induction 1 as [x l Hx|x l _ IH]; cbn [dropWhile].
  - rewrite Hx. eauto.
  - destruct (f x) eqn:Hfx; eauto.
Qed.

Lemma takeWhile_Forall {A} (f : A → bool) (l : list A) :
  Forall (fun x => f x = true) (takeWhile f l).
Proof.
  induction l as [|x l IH]; cbn [takeWhile]; [constructor|].
  destruct (f x) eqn:Hfx; constructor; assumption.
Qed.

(** The final element of a path that has a byte other than the
    separator does not begin at the root. *)
Lemma Base_relative (p : string) :
  Exists (fun c => IsPathSeparator c = false) (chars p) →
  rootedPath (filepath.Base p) = false.
Proof.
  intros Hex. unfold filepath.Base.
  destruct p as [|c0 p0]; [inversion Hex|].
  cbn [String.eqb].
  apply Exists_rev in Hex.
  destruct (dropWhile_Exists _ _ Hex) as (x & l' & -> & Hx).
  cbn [takeWhile]. rewrite Hx. cbn [negb].
  pose proof (takeWhile_Forall (fun c => negb (IsPathSeparator c)) l') as Htw.
  assert (Hall : Forall (fun c => negb (IsPathSeparator c) = true)
                        (rev (x :: takeWhile (fun c => negb (IsPathSeparator c)) l'))).
  { apply List.Forall_rev. constructor; [now rewrite Hx | exact Htw]. }
  destruct (rev (x :: _)) as [|b l] eqn:Hrev.
  - apply (f_equal (@rev _)) in Hrev. rewrite rev_involutive in Hrev. discriminate.
  - apply Forall_cons in Hall as [Hb _]. apply negb_true_iff in Hb.
    unfold rootedPath. rewrite chars_text. exact Hb.
Qed.

End RootedFacts.

(** X7: in the variant with a root directory the empty string is a
    value of [-g] like any other: [-g ""] gives a task with an empty
    root, whatever [GOFMLROOT] holds; its workspace path is the final
    element of the import path, cleaned, and its project path is the
    import path under [src] in it.  Both paths are relative to the
    working directory as soon as the import path has a byte other than
    the separator; for an import path of separators only the final
    element is [/] and the workspace is the root directory. *)
Theorem X7_empty_root_is_kept (p : string) (rest : list string) (w : World) :
  flag.classify p = flag.NonFlag →
  ∃ t, InitRoot.NewInitTask ("-g" :: "" :: p :: rest) w = (Return (Built (asTask t)), w)
       ∧ InitRoot.GoFmlRoot t = ""
       ∧ InitRoot.ProjectName t = filepath.Base p
       ∧ InitRoot.GoFmlPath t = filepath.Clean (filepath.Base p)
       ∧ InitRoot.ProjectPath t
         = filepath.Clean (filepath.Clean (filepath.Base p) +:+ "/src/" +:+ p)
       ∧ (Exists (fun c => Bytes.IsPathSeparator c = false) (Bytes.chars p) →
          rootedPath (InitRoot.GoFmlPath t) = false
          ∧ rootedPath (InitRoot.ProjectPath t) = false)
       ∧ (p ≠ "" → Forall (fun c => Bytes.IsPathSeparator c = true) (Bytes.chars p) →
          InitRoot.GoFmlPath t = "/").
Proof.
  intros Hp. eexists. rewrite InitRoot_NewInitTask_eq. unfold InitRoot_parse.
  cbn [flag.parseAll]. change (flag.classify "-g") with (flag.IsFlag "g" None).
  cbn [existsb String.eqb Ascii.eqb Bool.eqb orb]. cbv iota beta. rewrite Hp.
  split; [reflexivity|].
  unfold held. rewrite lookup_insert_eq.
  rewrite lookup_insert_ne by discriminate. rewrite InitRoot_values_n.
  unfold InitRoot_task. cbn [default String.eqb].
  cbn [InitRoot.GoFmlRoot InitRoot.ProjectName InitRoot.GoFmlPath InitRoot.ProjectPath].
  split; [reflexivity|]. split; [reflexivity|].
  rewrite Join_cons_empty.
  rewrite (Join_cons_nonempty (filepath.Base p)) by apply Base_nonempty.
  split; [reflexivity|].
  rewrite Join_cons_nonempty by apply Clean_nonempty.
  split; [reflexivity|]. split.
  - intros Hex. cbn [Bytes.joinWith]. rewrite !rootedPath_Clean.
    rewrite rootedPath_app by apply Clean_nonempty.
    rewrite rootedPath_Clean. split; now apply Base_relative.
  - intros Hne Hall. cbn [Bytes.joinWith].
    assert (HB : filepath.Base p = "/"); [|now rewrite HB].
    unfold filepath.Base.
    destruct (String.eqb_spec p ""); [contradiction|].
    assert (Hd : Bytes.dropWhile Bytes.IsPathSeparator (rev (Bytes.chars p)) = []).
    { apply List.Forall_rev in Hall.
      induction Hall as [|x l Hx _ IH]; [reflexivity|].
      cbn [Bytes.dropWhile]. now rewrite Hx. }
    now rewrite Hd.
Qed.

Lemma X7_witness :
  ∃ t, InitRoot.NewInitTask ["-g"; ""; "example.com/foo"] (worldWithRoot "/srv/ws")
       = (Return (Built (asTask t)), worldWithRoot "/srv/ws")
       ∧ InitRoot.GoFmlRoot t = ""
       ∧ InitRoot.ProjectName t = filepath.Base "example.com/foo"
       ∧ InitRoot.GoFmlPath t = filepath.Clean (filepath.Base "example.com/foo")
       ∧ InitRoot.ProjectPath t
         = filepath.Clean (filepath.Clean (filepath.Base "example.com/foo")
                           +:+ "/src/" +:+ "example.com/foo")
       ∧ (Exists (fun c => Bytes.IsPathSeparator c = false) (Bytes.chars "example.com/foo") →
          rootedPath (InitRoot.GoFmlPath t) = false
          ∧ rootedPath (InitRoot.ProjectPath t) = false)
       ∧ ("example.com/foo" ≠ "" →
          Forall (fun c => Bytes.IsPathSeparator c = true) (Bytes.chars "example.com/foo") →
          InitRoot.GoFmlPath t = "/").
Proof.
  apply (X7_empty_root_is_kept "example.com/foo" [] (worldWithRoot "/srv/ws")).
  reflexivity.
Defined.


(** ** The paths of a task *)

(** X15: the paths that [NewInitTask] derives are clean, that is, they
    are what [filepath.Clean] returns for them: in the variant with a
    root the workspace path, the project path and the path of the
    script; in the variant with a GOPATH the path of the script, the
    workspace path when [-g] holds nothing and the project path when
    [-p] holds nothing (what [-g] and [-p] hold is kept as it is
    given). *)
Theorem X15_derived_paths_clean :
  (∀ (args : list string) (w : World) values actual p rest,
      InitRoot_parse w args = flag.Flags values actual (p :: rest) →
      ∃ t, InitRoot.NewInitTask args w = (Return (Built (asTask t)), w)
           ∧ filepath.Clean (InitRoot.GoFmlPath t) = InitRoot.GoFmlPath t
           ∧ filepath.Clean (InitRoot.ProjectPath t) = InitRoot.ProjectPath t
           ∧ filepath.Clean (InitRoot.envrc t) = InitRoot.envrc t)
  ∧ (∀ (args : list string) (w : World) values actual p rest,
      InitGoPath_parse args = flag.Flags values actual (p :: rest) →
      ∃ t, InitGoPath.NewInitTask args w = (Return (Built (asTask t)), w)
           ∧ filepath.Clean (InitGoPath.envrc t) = InitGoPath.envrc t
           ∧ (held values "g" = "" →
              filepath.Clean (InitGoPath.GoPath t) = InitGoPath.GoPath t)
           ∧ (held values "p" = "" →
              filepath.Clean (InitGoPath.ProjectPath t) = InitGoPath.ProjectPath t)).
Proof.
  split; intros args w values actual p rest Hparse.
  - eexists. rewrite InitRoot_NewInitTask_eq, Hparse. split; [reflexivity|].
    unfold InitRoot.envrc, InitRoot_task.
    cbn [InitRoot.GoFmlPath InitRoot.ProjectPath].
    assert (Hname : (if String.eqb (held values "n") "" then filepath.Base p
                     else held values "n") ≠ "").
    { destruct (String.eqb_spec (held values "n") ""); [apply Base_nonempty | assumption]. }
    repeat split; apply Join_clean.
    + now apply Exists_cons_tl, Exists_cons_hd.
    + apply Exists_cons_tl, Exists_cons_hd. discriminate.
    + apply Exists_cons_tl, Exists_cons_hd. discriminate.
  - eexists. rewrite InitGoPath_NewInitTask_eq, Hparse. split; [reflexivity|].
    unfold InitGoPath.envrc, InitGoPath_task.
    cbn [InitGoPath.GoPath InitGoPath.ProjectPath].
    split; [|split].
    + apply Join_clean, Exists_cons_tl, Exists_cons_hd. discriminate.
    + intros ->. cbn [String.eqb]. apply Join_clean, Exists_cons_hd. discriminate.
    + intros ->. cbn [String.eqb]. apply Join_clean, Exists_cons_tl, Exists_cons_hd.
      discriminate.
Qed.

Lemma X15_witness :
  ∃ t, InitRoot.NewInitTask ["-g"; "/srv//ws/"; "example.com/../foo/"] emptyWorld
       = (Return (Built (asTask t)), emptyWorld)
       ∧ filepath.Clean (InitRoot.GoFmlPath t) = InitRoot.GoFmlPath t
       ∧ filepath.Clean (InitRoot.ProjectPath t) = InitRoot.ProjectPath t
       ∧ filepath.Clean (InitRoot.envrc t) = InitRoot.envrc t.
Proof.
  exact (proj1 X15_derived_paths_clean ["-g"; "/srv//ws/"; "example.com/../foo/"]
           emptyWorld (<["g" := "/srv//ws/"]> (InitRoot_values "~/gofml")) ({["g"]} ∪ ∅)
           "example.com/../foo/" [] eq_refl).
Defined.

(** X16: the script lies in the workspace directory itself: in the
    variant with a root, the directory of the path of the script, as
    [filepath.Dir] gives it, is the workspace path of the task; in the
    variant with a GOPATH it is so when [-g] holds nothing or holds a
    clean path. *)
Theorem X16_script_directory :
  (∀ (args : list string) (w : World) values actual p rest,
      InitRoot_parse w args = flag.Flags values actual (p :: rest) →
      ∃ t, InitRoot.NewInitTask args w = (Return (Built (asTask t)), w)
           ∧ filepath.Dir (InitRoot.envrc t) = InitRoot.GoFmlPath t)
  ∧ (∀ (args : list string) (w : World) values actual p rest,
      InitGoPath_parse args = flag.Flags values actual (p :: rest) →
      filepath.Clean (held values "g") = held values "g" ∨ held values "g" = "" →
      ∃ t, InitGoPath.NewInitTask args w = (Return (Built (asTask t)), w)
           ∧ filepath.Dir (InitGoPath.envrc t) = InitGoPath.GoPath t).
Proof.
  split.
  - intros args w values actual p rest Hparse.
    eexists. rewrite InitRoot_NewInitTask_eq, Hparse. split; [reflexivity|].
    unfold InitRoot.envrc, InitRoot_task. cbn [InitRoot.GoFmlPath].
    apply Dir_envrc, Join_clean, Exists_cons_tl, Exists_cons_hd.
    destruct (String.eqb_spec (held values "n") ""); [apply Base_nonempty | assumption].
  - intros args w values actual p rest Hparse Hg.
    eexists. rewrite InitGoPath_NewInitTask_eq, Hparse. split; [reflexivity|].
    unfold InitGoPath.envrc, InitGoPath_task. cbn [InitGoPath.GoPath].
    apply Dir_envrc.
    destruct (String.eqb_spec (held values "g") "") as [Hempty|Hne].
    + apply Join_clean, Exists_cons_hd. discriminate.
    + destruct Hg; [assumption | contradiction].
Qed.

Lemma X16_witness :
  ∃ t, InitGoPath.NewInitTask ["-g"; "/srv/ws"; "example.com/foo"] emptyWorld
       = (Return (Built (asTask t)), emptyWorld)
       ∧ filepath.Dir (InitGoPath.envrc t) = InitGoPath.GoPath t.
Proof.
  refine (proj2 X16_script_directory ["-g"; "/srv/ws"; "example.com/foo"] emptyWorld
            (<["g" := "/srv/ws"]> InitGoPath_values) ({["g"]} ∪ ∅)
            "example.com/foo" [] eq_refl _).
  left. reflexivity.
Defined.



(** ** The empty import path *)

Section EmptyImportPath.
Import Bytes.

Lemma chars_inj (a b : string) : chars a = chars b → a = b.
Proof. intros H. rewrite <- (text_chars a), <- (text_chars b). now rewrite H. Qed.

Lemma rootOf_nonempty (w : World) : rootOf w ≠ "".
Proof.
  unfold rootOf. destruct (String.eqb_spec (os.Getenv "GOFMLROOT" (environ w)) "");
    [discriminate | assumption].
Qed.

(** A [.] element at the end of a path changes nothing in its
    cleaning. *)
Lemma Clean_trailing_dot (s : string) :
  s ≠ "" → filepath.Clean (s +:+ "/" +:+ ".") = filepath.Clean s.
Proof.
  intros Hne. rewrite !Clean_render, !chars_app.
  change (chars "/") with [slash]. change (chars ".") with [dot].
  destruct (chars s) as [|c cs] eqn:E; [apply chars_nil_inv in E; contradiction|].
  assert (Hsplit : split slash [] ((c :: cs) ++ [slash] ++ [dot])
                   = split slash [] (c :: cs) ++ [[dot]]).
  { rewrite app_assoc, split_snoc_other by reflexivity.
    now rewrite split_snoc_sep, removelast_last, last_last. }
  unfold filepath.elements. rewrite Hsplit. cbn [app]. rewrite fold_left_app. reflexivity.
Qed.

(** An empty element at the end of a join changes nothing. *)
Lemma Join_trailing_empty (a b : string) :
  a ≠ "" → filepath.Join [a; b; ""] = filepath.Join [a; b].
Proof.
  intros Hne. rewrite !Join_cons_nonempty by assumption.
  cbn [joinWith].
  destruct (chars (a +:+ "/" +:+ b)) as [|c cs] eqn:E.
  { rewrite chars_app in E. destruct (chars a) eqn:Ea; [|discriminate].
    apply chars_nil_inv in Ea. contradiction. }
  rewrite <- (text_chars (a +:+ "/" +:+ b)), E.
  rewrite <- (Clean_trailing_separator c cs). f_equal. apply chars_inj.
  rewrite chars_text, <- E, !chars_app. change (chars "") with (@nil ascii).
  rewrite app_nil_r, <- !app_assoc. reflexivity.
Qed.

End EmptyImportPath.

(** X18: the empty string is an import path like another, not a missing
    one: [NewInitTask] builds a task whose project name is [.], so that
    the workspace path is the root itself, cleaned, and the project path
    is its [src] directory.  In the variant with a GOPATH these are
    [/work/gofml] and [/work/gofml/src]. *)
Theorem X18_empty_import_path (rest : list string) (w : World) :
  (∃ t, InitRoot.NewInitTask ("" :: rest) w = (Return (Built (asTask t)), w)
        ∧ InitRoot.ImportPath t = ""
        ∧ InitRoot.ProjectName t = "."
        ∧ InitRoot.GoFmlRoot t = rootOf w
        ∧ InitRoot.GoFmlPath t = filepath.Clean (rootOf w)
        ∧ InitRoot.ProjectPath t = filepath.Join [InitRoot.GoFmlPath t; "src"])
  ∧ (∃ t, InitGoPath.NewInitTask ("" :: rest) w = (Return (Built (asTask t)), w)
          ∧ InitGoPath.ImportPath t = ""
          ∧ InitGoPath.ProjectName t = "."
          ∧ InitGoPath.GoPath t = "/work/gofml"
          ∧ InitGoPath.ProjectPath t = "/work/gofml/src").
Proof.
  split.
  - eexists. rewrite InitRoot_NewInitTask_eq. unfold InitRoot_parse.
    cbn [flag.parseAll]. change (flag.classify "") with flag.NonFlag. cbv iota.
    split; [reflexivity|].
    unfold held. rewrite InitRoot_values_g, InitRoot_values_n.
    cbn [default from_option]. unfold id.
    unfold InitRoot_task. cbn [String.eqb].
    cbn [InitRoot.ImportPath InitRoot.ProjectName InitRoot.GoFmlRoot InitRoot.GoFmlPath
         InitRoot.ProjectPath].
    change (filepath.Base "") with ".".
    assert (Hws : filepath.Join [rootOf w; "."] = filepath.Clean (rootOf w)).
    { rewrite Join_cons_nonempty by apply rootOf_nonempty.
      apply Clean_trailing_dot, rootOf_nonempty. }
    rewrite Hws. repeat split.
    apply Join_trailing_empty, Clean_nonempty.
  - eexists. split; [vm_compute; reflexivity|]. repeat split.
Qed.

(** ** From the exit status to the files *)

Lemma MainRoot_init (helpUsage helpShort helpLong : string)
      (helpGetTask : list string -> IO (Proc TaskResult))
      (funcAddress : Command -> string)
      (args : list string) (w : World) values actual p rest :
  InitRoot_parse w args = flag.Flags values actual (p :: rest) →
  MainRoot helpUsage helpShort helpLong helpGetTask funcAddress ("init" :: args) w
  = exitAfter (InitRoot.InitTask_Run
                 (InitRoot_task (held values "g") (held values "n") p) w).
Proof.
  intros Hp. rewrite MainRoot_eq.
  rewrite (Main_found _ _ _ _ _ _ ("init" :: args) w ∅ ∅ "init" args
             (InitRoot.initCommand (rootOf w)));
    [| reflexivity | now apply commands_init | discriminate].
  cbn [GetTask InitRoot.initCommand]. rewrite InitRoot_NewInitTask_eq, Hp.
  unfold runTask, exitAfter. cbn [dynamicType dynamicTask dynamicValue Run
    InitRoot.InitTask_Task].
  destruct (InitRoot.InitTask_Run _ w) as [[e|] w2]; reflexivity.
Qed.

Lemma MainGoPath_init (helpUsage helpShort helpLong : string)
      (helpGetTask : list string -> IO (Proc TaskResult))
      (funcAddress : Command -> string)
      (args : list string) (w : World) values actual p rest :
  InitGoPath_parse args = flag.Flags values actual (p :: rest) →
  MainGoPath helpUsage helpShort helpLong helpGetTask funcAddress ("init" :: args) w
  = exitAfter (InitGoPath.InitTask_Run
                 (InitGoPath_task (held values "g") (held values "n")
                                  (held values "p") p) w).
Proof.
  intros Hp. unfold MainGoPath.
  rewrite (Main_found _ _ _ _ _ _ ("init" :: args) w ∅ ∅ "init" args
             InitGoPath.initCommand);
    [| reflexivity | now apply commands_init | discriminate].
  cbn [GetTask InitGoPath.initCommand]. rewrite InitGoPath_NewInitTask_eq, Hp.
  unfold runTask, exitAfter. cbn [dynamicType dynamicTask dynamicValue Run
    InitGoPath.InitTask_Task].
  destruct (InitGoPath.InitTask_Run _ w) as [[e|] w2]; reflexivity.
Qed.

Lemma exitAfter_zero (r : option error * World) (w' : World) :
  exitAfter r = (0, w') → r = (None, w').
Proof.
  unfold exitAfter. destruct r as [[e|] w2]; cbn [fst snd]; [discriminate|].
  now intros [= <-].
Qed.

(** X19: an exit status of 0 from [init] means one of two things.
    Either help was asked for with [-h] or [-help]: the usage of the
    flags of [init] is on standard error, and nothing else has changed,
    no file and no call on the file system.  Or the work is done: the
    flags have parsed with an import path after them, the script is in
    the workspace with the text for the import path, nothing was written
    on standard error, and the last line on standard output is [gofml:
    done].  This holds in both variants. *)
Theorem X19_exit_zero_means_written :
  (∀ (helpUsage helpShort helpLong : string)
     (helpGetTask : list string -> IO (Proc TaskResult))
     (funcAddress : Command -> string)
     (args : list string) (w w' : World),
      MainRoot helpUsage helpShort helpLong helpGetTask funcAddress ("init" :: args) w
      = (0, w') →
      (InitRoot_parse w args = flag.Failed flag.ErrHelp
       ∧ w' = withStderr w [Text ("Usage of init:" +:+ Bytes.nl); PrintDefaults "init"])
      ∨ (∃ values actual p rest (t : InitRoot.InitTask),
            InitRoot_parse w args = flag.Flags values actual (p :: rest)
            ∧ InitRoot.NewInitTask args w = (Return (Built (asTask t)), w)
            ∧ files w' !! InitRoot.envrc t
              = Some (Regular true (scriptText p (InitRoot.GoFmlPath t)))
            ∧ stderr w' = stderr w
            ∧ lastLine (stdout w') = "gofml: done"))
  ∧ (∀ (helpUsage helpShort helpLong : string)
       (helpGetTask : list string -> IO (Proc TaskResult))
       (funcAddress : Command -> string)
       (args : list string) (w w' : World),
      MainGoPath helpUsage helpShort helpLong helpGetTask funcAddress ("init" :: args) w
      = (0, w') →
      (InitGoPath_parse args = flag.Failed flag.ErrHelp
       ∧ w' = withStderr w [Text ("Usage of init:" +:+ Bytes.nl); PrintDefaults "init"])
      ∨ (∃ values actual p rest (t : InitGoPath.InitTask),
            InitGoPath_parse args = flag.Flags values actual (p :: rest)
            ∧ InitGoPath.NewInitTask args w = (Return (Built (asTask t)), w)
            ∧ files w' !! InitGoPath.envrc t
              = Some (Regular true (scriptText p (InitGoPath.GoPath t)))
            ∧ stderr w' = stderr w
            ∧ lastLine (stdout w') = "gofml: done")).
Proof.
  split; intros helpUsage helpShort helpLong helpGetTask funcAddress args w w' Hmain.
  - destruct (InitRoot_parse w args) as [values actual [|p rest]|[|msg]] eqn:Hp.
    + rewrite MainRoot_init_eq, InitRoot_NewInitTask_eq, Hp in Hmain. discriminate.
    + right. exists values, actual, p, rest.
      rewrite (MainRoot_init _ _ _ _ _ _ _ _ _ _ _ Hp) in Hmain.
      apply exitAfter_zero in Hmain.
      eexists. split; [reflexivity|].
      rewrite InitRoot_NewInitTask_eq, Hp. split; [reflexivity|].
      set (t := InitRoot_task (held values "g") (held values "n") p) in *.
      destruct (InitRoot_Run_files t w) as (Hr & Hf & _ & _ & Hs).
      destruct (InitRoot_Run_last_line t w) as [Hout _].
      rewrite Hmain in Hr, Hf, Hs, Hout. cbn [fst snd] in Hr, Hf, Hs, Hout.
      destruct (runFiles _ _ _ (files w)) as [[r fs'] log] eqn:E.
      cbn [fst snd] in Hr, Hf. subst r fs'.
      destruct (runFiles_success _ _ _ _ _ _ E) as (He & _ & _).
      rewrite InitRoot_script_text in He. auto.
    + left. rewrite MainRoot_init_eq, InitRoot_NewInitTask_eq, Hp in Hmain.
      injection Hmain as <-. auto.
    + rewrite MainRoot_init_eq, InitRoot_NewInitTask_eq, Hp in Hmain. discriminate.
  - destruct (InitGoPath_parse args) as [values actual [|p rest]|[|msg]] eqn:Hp.
    + rewrite MainGoPath_init_eq, InitGoPath_NewInitTask_eq, Hp in Hmain. discriminate.
    + right. exists values, actual, p, rest.
      rewrite (MainGoPath_init _ _ _ _ _ _ _ _ _ _ _ Hp) in Hmain.
      apply exitAfter_zero in Hmain.
      eexists. split; [reflexivity|].
      rewrite InitGoPath_NewInitTask_eq, Hp. split; [reflexivity|].
      set (t := InitGoPath_task (held values "g") (held values "n") (held values "p") p)
        in *.
      destruct (InitGoPath_Run_files t w) as (Hr & Hf & _ & _ & Hs).
      destruct (InitGoPath_Run_last_line t w) as [Hout _].
      rewrite Hmain in Hr, Hf, Hs, Hout. cbn [fst snd] in Hr, Hf, Hs, Hout.
      destruct (runFiles _ _ _ (files w)) as [[r fs'] log] eqn:E.
      cbn [fst snd] in Hr, Hf. subst r fs'.
      destruct (runFiles_success _ _ _ _ _ _ E) as (He & _ & _).
      rewrite InitGoPath_script_text in He. auto.
    + left. rewrite MainGoPath_init_eq, InitGoPath_NewInitTask_eq, Hp in Hmain.
      injection Hmain as <-. auto.
    + rewrite MainGoPath_init_eq, InitGoPath_NewInitTask_eq, Hp in Hmain. discriminate.
Qed.

(** With [-g /srv example.com/foo], and with [-h]. *)
Lemma X19_witness :
  let main := MainRoot "help [command]" "show help" "" noHelp (fun _ => "0x4a5b20") in
  let args := ["-g"; "/srv"; "example.com/foo"] in
  let w' := (main ("init" :: args) usedWorld).2 in
  let w'' := (main ["init"; "-h"] usedWorld).2 in
  ((InitRoot_parse usedWorld args = flag.Failed flag.ErrHelp
    ∧ w' = withStderr usedWorld [Text ("Usage of init:" +:+ Bytes.nl); PrintDefaults "init"])
   ∨ (∃ values actual p rest (t : InitRoot.InitTask),
         InitRoot_parse usedWorld args = flag.Flags values actual (p :: rest)
         ∧ InitRoot.NewInitTask args usedWorld = (Return (Built (asTask t)), usedWorld)
         ∧ files w' !! InitRoot.envrc t
           = Some (Regular true (scriptText p (InitRoot.GoFmlPath t)))
         ∧ stderr w' = stderr usedWorld
         ∧ lastLine (stdout w') = "gofml: done"))
  ∧ (main ["init"; "-h"] usedWorld).1 = 0
  ∧ files w'' = files usedWorld
  ∧ calls w'' = calls usedWorld.
Proof.
  intros main args w' w''. split; [|vm_compute; repeat split].
  apply (proj1 X19_exit_zero_means_written "help [command]" "show help" "" noHelp
               (fun _ => "0x4a5b20") args usedWorld w').
  vm_compute. reflexivity.
Defined.

(** ** The two variants side by side *)

(** X20: without [-g] and [-p], the variant with a GOPATH builds the
    task that the variant with a root builds for the root
    [/work/gofml]: the same project name, workspace path and project
    path, and [Run] then makes the same calls on the file system, with
    the same result and the same files in the end. *)
Theorem X20_variants_agree (n p : string) (rest : list string) (w : World) :
  flag.classify p = flag.NonFlag →
  ∃ a b,
    InitGoPath.NewInitTask ("-n" :: n :: p :: rest) w = (Return (Built (asTask a)), w)
    ∧ InitRoot.NewInitTask ("-g" :: "/work/gofml" :: "-n" :: n :: p :: rest) w
      = (Return (Built (asTask b)), w)
    ∧ InitGoPath.ProjectName a = InitRoot.ProjectName b
    ∧ InitGoPath.GoPath a = InitRoot.GoFmlPath b
    ∧ InitGoPath.ProjectPath a = InitRoot.ProjectPath b
    ∧ (InitGoPath.InitTask_Run a w).1 = (InitRoot.InitTask_Run b w).1
    ∧ files (InitGoPath.InitTask_Run a w).2 = files (InitRoot.InitTask_Run b w).2
    ∧ calls (InitGoPath.InitTask_Run a w).2 = calls (InitRoot.InitTask_Run b w).2.
Proof.
  intros Hp.
  exists (InitGoPath_task "" n "" p), (InitRoot_task "/work/gofml" n p).
  split.
  { rewrite InitGoPath_NewInitTask_eq. unfold InitGoPath_parse.
    cbn [flag.parseAll]. change (flag.classify "-n") with (flag.IsFlag "n" None).
    cbn [existsb String.eqb Ascii.eqb Bool.eqb orb]. cbv iota beta. rewrite Hp.
    unfold held. rewrite lookup_insert_eq.
    rewrite !lookup_insert_ne by discriminate.
    rewrite InitGoPath_values_g.
    unfold InitGoPath_values. rewrite lookup_insert_eq. reflexivity. }
  split.
  { rewrite InitRoot_NewInitTask_eq. unfold InitRoot_parse.
    cbn [flag.parseAll]. change (flag.classify "-n") with (flag.IsFlag "n" None).
    change (flag.classify "-g") with (flag.IsFlag "g" None).
    cbn [existsb String.eqb Ascii.eqb Bool.eqb orb]. cbv iota beta. rewrite Hp.
    unfold held. rewrite lookup_insert_eq.
    rewrite lookup_insert_ne by discriminate. rewrite lookup_insert_eq. reflexivity. }
  assert (Hfields : InitGoPath.ProjectName (InitGoPath_task "" n "" p)
                    = InitRoot.ProjectName (InitRoot_task "/work/gofml" n p)
                    ∧ InitGoPath.GoPath (InitGoPath_task "" n "" p)
                      = InitRoot.GoFmlPath (InitRoot_task "/work/gofml" n p)
                    ∧ InitGoPath.ProjectPath (InitGoPath_task "" n "" p)
                      = InitRoot.ProjectPath (InitRoot_task "/work/gofml" n p))
    by (repeat split).
  destruct Hfields as (Hn & Hws & Hpp).
  split; [exact Hn|]. split; [exact Hws|]. split; [exact Hpp|].
  destruct (InitGoPath_Run_files (InitGoPath_task "" n "" p) w) as (Hr1 & Hf1 & Hc1 & _).
  destruct (InitRoot_Run_files (InitRoot_task "/work/gofml" n p) w) as (Hr2 & Hf2 & Hc2 & _).
  rewrite Hr1, Hf1, Hc1, Hr2, Hf2, Hc2.
  rewrite InitGoPath_script_text, InitRoot_script_text.
  unfold InitGoPath.envrc, InitRoot.envrc. rewrite Hws, Hpp.
  repeat split.
Qed.

Lemma X20_witness :
  ∃ a b,
    InitGoPath.NewInitTask ["-n"; "bar"; "example.com/foo"] emptyWorld
    = (Return (Built (asTask a)), emptyWorld)
    ∧ InitRoot.NewInitTask ["-g"; "/work/gofml"; "-n"; "bar"; "example.com/foo"] emptyWorld
      = (Return (Built (asTask b)), emptyWorld)
    ∧ InitGoPath.ProjectName a = InitRoot.ProjectName b
    ∧ InitGoPath.GoPath a = InitRoot.GoFmlPath b
    ∧ InitGoPath.ProjectPath a = InitRoot.ProjectPath b
    ∧ (InitGoPath.InitTask_Run a emptyWorld).1 = (InitRoot.InitTask_Run b emptyWorld).1
    ∧ files (InitGoPath.InitTask_Run a emptyWorld).2
      = files (InitRoot.InitTask_Run b emptyWorld).2
    ∧ calls (InitGoPath.InitTask_Run a emptyWorld).2
      = calls (InitRoot.InitTask_Run b emptyWorld).2.
Proof.
  apply (X20_variants_agree "bar" "example.com/foo" [] emptyWorld). reflexivity.
Defined.

(** ** Instances *)

Lemma X1_witness :
  let t := InitRoot_task "/srv" "" "example.com/foo" in
  lastLine (stdout (InitRoot.InitTask_Run t usedWorld).2) = "gofml: done"
  ∧ (InitRoot.InitTask_Run t blockedWorld).1 ≠ None.
Proof.
  intros t. split.
  - apply (proj1 (proj1 X1_done_iff_success t usedWorld)).
    vm_compute. reflexivity.
  - intros H.
    assert (Hl : lastLine (stdout (InitRoot.InitTask_Run t blockedWorld).2)
                 = "gofml: done").
    { apply (proj1 (proj1 X1_done_iff_success t blockedWorld)). exact H. }
    vm_compute in Hl. discriminate.
Defined.

Lemma X4_witness :
  (InitRoot.NewInitTask ["-n"; "bar"; "example.com/foo"] usedWorld).2 = usedWorld.
Proof.
  destruct (proj1 X4_construction_is_pure ["-n"; "bar"; "example.com/foo"] usedWorld)
    as (_ & _ & _ & _ & H).
  exact (H _ eq_refl).
Defined.

Lemma X13_witness :
  ("help", helpCommand "help [command]" "show help" "" noHelp)
  ∈ sortedEntries (commands (InitRoot.initCommand "~/gofml") "help [command]" "show help" ""
                            noHelp).
Proof.
  apply (proj2 (proj2 (proj2 (X13_usage_order
                                (commands (InitRoot.initCommand "~/gofml") "help [command]"
                                          "show help" "" noHelp))))).
  apply commands_help.
Defined.
